(** * Authentication, policy overlay, session resolution and rate limiting
      of the gateway middleware chain.

    A shallow embedding of [policy.go], the JWT middleware, the rate-limit
    and quota middleware and the session resolver, followed by the
    properties the specification states about them.

    Conventions.
    - A Go map is [GoMap V]: [None] is the nil map, [Some m] a map made with
      [make] or decoded from JSON.
    - Go strings are [string]; [[]byte] is a list of byte values in [Z].
    - [int64] is [Z]; [float64] values are only ever copied by this code and
      are carried as their IEEE-754 bit pattern in [Z].
    - The stores are threaded explicitly ([State]); code that can panic runs
      in [Go], whose outcome is a value or a panic.
    - [go f(x)] evaluates [x] at once and queues [f]; a queued goroutine
      runs at some later point, see [land]. *)

From Stdlib Require Import ZArith String Ascii List Bool Lia.
From stdpp Require Import base option list gmap strings pretty.

Local Open Scope Z_scope.
Local Open Scope string_scope.

(** ** Go values *)

Definition GoMap (V : Type) : Type := option (gmap string V).

(** [m[k]] on a map: the zero value when [m] is nil or has no entry. *)
Definition index {V} (zero : V) (m : GoMap V) (k : string) : V :=
  match m with
  | None => zero
  | Some g => default zero (g !! k)
  end.

(** [v, ok := m[k]]. *)
Definition index_ok {V} (m : GoMap V) (k : string) : option V :=
  match m with
  | None => None
  | Some g => g !! k
  end.

Definition make_map {V} : GoMap V := Some ∅.

Definition float64 := Z.
Definition int64 := Z.
Definition bytes := list Z.

Definition str_eqb (a b : string) : bool := bool_decide (a = b).

(** ** Data model *)

(** Modelled from the spec: [AccessDefinition] is declared outside src/; the
    spec (section 3) gives it as the permitted versions, paths and methods of
    one API. *)
Record AccessDefinition := {
  APIName : string;
  Versions : list string;
  AllowedURLs : list (string * list string)
}.

Module Policy.
(** [type Policy struct] of policy.go; [MID] is the bson object id. *)
Record t := {
  MID : string;
  ID : string;
  OrgID : string;
  Rate : float64;
  Per : float64;
  QuotaMax : int64;
  QuotaRenewalRate : int64;
  PolicyPerAPI : GoMap string;
  AccessRights : GoMap AccessDefinition;
  HMACEnabled : bool;
  Active : bool;
  IsInactive : bool;
  Tags : list string;
  KeyExpiresIn : int64
}.
End Policy.

Module SessionState.
(** Modelled from the spec: [SessionState] is declared outside src/. The
    fields are those of section 3 of the spec, under the names src/ uses
    for them; [JWTData_Secret] is [JWTData.Secret]. *)
Record t := {
  Allowance : float64;
  Rate : float64;
  Per : float64;
  QuotaMax : int64;
  QuotaRemaining : int64;
  QuotaRenewalRate : int64;
  QuotaRenews : int64;
  PolicyPerAPI : GoMap string;
  AccessRights : GoMap AccessDefinition;
  HMACEnabled : bool;
  IsInactive : bool;
  Tags : list string;
  ApplyPolicyID : string;
  OauthClientID : string;
  JWTData_Secret : string;
  DataExpires : int64
}.

(** [SessionState{}] *)
Definition zero : t := {|
  Allowance := 0; Rate := 0; Per := 0; QuotaMax := 0; QuotaRemaining := 0;
  QuotaRenewalRate := 0; QuotaRenews := 0; PolicyPerAPI := None;
  AccessRights := None; HMACEnabled := false; IsInactive := false;
  Tags := []; ApplyPolicyID := ""; OauthClientID := "";
  JWTData_Secret := ""; DataExpires := 0 |}.

(** [s.ApplyPolicyID = id] *)
Definition set_ApplyPolicyID (id : string) (s : t) : t := {|
  Allowance := Allowance s; Rate := Rate s; Per := Per s;
  QuotaMax := QuotaMax s; QuotaRemaining := QuotaRemaining s;
  QuotaRenewalRate := QuotaRenewalRate s; QuotaRenews := QuotaRenews s;
  PolicyPerAPI := PolicyPerAPI s; AccessRights := AccessRights s;
  HMACEnabled := HMACEnabled s; IsInactive := IsInactive s;
  Tags := Tags s; ApplyPolicyID := id; OauthClientID := OauthClientID s;
  JWTData_Secret := JWTData_Secret s; DataExpires := DataExpires s |}.

(** The ten assignments [thisSession.X = policy.X] shared by
    [ApplyPolicyIfExists] and the JWT middleware. *)
Definition overlay (p : Policy.t) (s : t) : t := {|
  Allowance := Policy.Rate p;
  Rate := Policy.Rate p;
  Per := Policy.Per p;
  QuotaMax := Policy.QuotaMax p;
  QuotaRemaining := QuotaRemaining s;
  QuotaRenewalRate := Policy.QuotaRenewalRate p;
  QuotaRenews := QuotaRenews s;
  PolicyPerAPI := Policy.PolicyPerAPI p;
  AccessRights := Policy.AccessRights p;
  HMACEnabled := Policy.HMACEnabled p;
  IsInactive := Policy.IsInactive p;
  Tags := Policy.Tags p;
  ApplyPolicyID := ApplyPolicyID s;
  OauthClientID := OauthClientID s;
  JWTData_Secret := JWTData_Secret s;
  DataExpires := DataExpires s |}.

(** What the spec calls the overlayed fields of a session: they equal
    those of policy [p]. *)
Definition overlayed_from (p : Policy.t) (s : t) : Prop :=
  Allowance s = Policy.Rate p ∧ Rate s = Policy.Rate p ∧
  Per s = Policy.Per p ∧ QuotaMax s = Policy.QuotaMax p ∧
  QuotaRenewalRate s = Policy.QuotaRenewalRate p ∧
  PolicyPerAPI s = Policy.PolicyPerAPI p ∧
  AccessRights s = Policy.AccessRights p ∧
  HMACEnabled s = Policy.HMACEnabled p ∧
  IsInactive s = Policy.IsInactive p ∧ Tags s = Policy.Tags p.
End SessionState.

(** The API definition and the gateway configuration are declared outside
    src/; these records hold the fields src/ reads. [APISpec] embeds
    [APIDefinition], so [Spec.OrgID] and [Spec.APIDefinition.OrgID] are one
    field. *)
Record AuthConfig := {
  AuthHeaderName : string;
  UseParam : bool;
  UseCookie : bool
}.

Record APISpec := {
  APIID : string;
  OrgID : string;
  JWTSource : string;
  JWTSigningMethod : string;
  JWTIdentityBaseField : string;
  JWTPolicyFieldName : string;
  SessionLifetime : int64;
  Auth : AuthConfig
}.

Record Config := {
  UseAsyncSessionWrite : bool;
  MonitorUserKeys : bool;
  DisableCacheSessionState : bool
}.

(** [const APISessionKeySuffix] *)
Definition APISessionKeySuffix : string := ".API-".

(** Context keys *)
Definition SessionData : Z := 0.
Definition AuthHeaderValue : Z := 1.
Definition VersionData : Z := 2.
Definition VersionKeyContext : Z := 3.

Inductive CtxValue :=
| CtxSession (s : SessionState.t)
| CtxString (s : string).

(** ** Events, health samples and the world *)

Inductive EventKind :=
| EVENT_QuotaExceeded
| EVENT_RateLimitExceeded
| EVENT_AuthFailure
| EVENT_TriggerExceeded.

Record Event := {
  ev_kind : EventKind;
  ev_message : string;
  ev_path : string;
  ev_origin : string;
  ev_key : string
}.

Inductive HealthPrefix := Throttle | QuotaViolation | KeyFailure | RequestLog.

Record JWK := {
  Alg : string;
  Kty : string;
  Use : string;
  X5c : list string;
  KID : string
}.

(** [type JWKs struct { Keys []JWK }] *)
Definition JWKs := list JWK.

Inductive Goroutine :=
| go_SessionCache_Set (key : string) (s : SessionState.t)
| go_UpdateSession (key : string) (s : SessionState.t) (ttl : int64)
| go_context_Set (key : Z) (v : CtxValue)
| go_FireEvent (e : Event).

(** Modelled from the spec: the SessionStore is a key/value store with a
    TTL per entry (section 2); [counters] stands for the limiter's records
    in the same store, which src/ never reads. *)
Record World := {
  sessions : gmap string (SessionState.t * int64);
  counters : gmap string Z;
  SessionCache : gmap string SessionState.t;
  JWKCache : option (gmap string JWKs);
  context : gmap Z CtxValue;
  fired : list Event;
  health : list (HealthPrefix * string);
  goroutines : list Goroutine
}.

Definition set_sessions (f : gmap string (SessionState.t * int64) → gmap string (SessionState.t * int64)) (w : World) : World :=
  {| sessions := f (sessions w); counters := counters w;
     SessionCache := SessionCache w; JWKCache := JWKCache w;
     context := context w; fired := fired w; health := health w;
     goroutines := goroutines w |}.

Definition set_SessionCache (f : gmap string SessionState.t → gmap string SessionState.t) (w : World) : World :=
  {| sessions := sessions w; counters := counters w;
     SessionCache := f (SessionCache w); JWKCache := JWKCache w;
     context := context w; fired := fired w; health := health w;
     goroutines := goroutines w |}.

Definition set_JWKCache (c : option (gmap string JWKs)) (w : World) : World :=
  {| sessions := sessions w; counters := counters w;
     SessionCache := SessionCache w; JWKCache := c;
     context := context w; fired := fired w; health := health w;
     goroutines := goroutines w |}.

Definition set_context (f : gmap Z CtxValue → gmap Z CtxValue) (w : World) : World :=
  {| sessions := sessions w; counters := counters w;
     SessionCache := SessionCache w; JWKCache := JWKCache w;
     context := f (context w); fired := fired w; health := health w;
     goroutines := goroutines w |}.

Definition set_fired (f : list Event → list Event) (w : World) : World :=
  {| sessions := sessions w; counters := counters w;
     SessionCache := SessionCache w; JWKCache := JWKCache w;
     context := context w; fired := f (fired w); health := health w;
     goroutines := goroutines w |}.

Definition set_health (f : list (HealthPrefix * string) → list (HealthPrefix * string)) (w : World) : World :=
  {| sessions := sessions w; counters := counters w;
     SessionCache := SessionCache w; JWKCache := JWKCache w;
     context := context w; fired := fired w; health := f (health w);
     goroutines := goroutines w |}.

Definition set_goroutines (f : list Goroutine → list Goroutine) (w : World) : World :=
  {| sessions := sessions w; counters := counters w;
     SessionCache := SessionCache w; JWKCache := JWKCache w;
     context := context w; fired := fired w; health := health w;
     goroutines := f (goroutines w) |}.

(** ** The state monad of the stores *)

Definition State (A : Type) : Type := World → A * World.

Definition ret {A} (a : A) : State A := λ w, (a, w).
Definition bind {A B} (m : State A) (k : A → State B) : State B :=
  λ w, let '(a, w') := m w in k a w'.

Declare Scope state_scope.
Delimit Scope state_scope with state.
Notation "x <- m ;; k" := (bind m (λ x, k))
  (at level 100, m at next level, right associativity) : state_scope.
Notation "m ;; k" := (bind m (λ _, k))
  (at level 100, right associativity) : state_scope.
Local Open Scope state_scope.

(** Modelled from the spec: [SessionManager.GetSessionDetail(key)], the
    [GetSessionDetail(key) → (SessionState, found)] of section 6. *)
Definition GetSessionDetail (key : string) : State (SessionState.t * bool) :=
  λ w, match sessions w !! key with
       | Some (s, _) => ((s, true), w)
       | None => ((SessionState.zero, false), w)
       end.

(** Modelled from the spec: [SessionManager.UpdateSession(key, session, ttl)],
    the [UpdateSession(key, state, ttl)] of section 6. *)
Definition UpdateSession (key : string) (s : SessionState.t) (ttl : int64) : State unit :=
  λ w, (tt, set_sessions (insert key (s, ttl)) w).

(** [SessionCache.Get(key)] of the in-process cache. *)
Definition SessionCache_Get (key : string) : State (option SessionState.t) :=
  λ w, (SessionCache w !! key, w).

(** [go f(args)] *)
Definition spawn (g : Goroutine) : State unit :=
  λ w, (tt, set_goroutines (λ gs, (gs ++ [g])%list) w).

(** [context.Set(r, key, val)] *)
Definition context_Set (key : Z) (v : CtxValue) : State unit :=
  λ w, (tt, set_context (insert key v) w).

(** Modelled from the spec: [FireEvent] and [ReportHealthCheckValue] are
    defined outside src/; an event emitted and a health sample recorded
    (section 4.4) are appended to what the world has seen. *)
Definition FireEvent (e : Event) : State unit :=
  λ w, (tt, set_fired (λ es, (es ++ [e])%list) w).

Definition ReportHealthCheckValue (p : HealthPrefix) (v : string) : State unit :=
  λ w, (tt, set_health (λ hs, (hs ++ [(p, v)])%list) w).

(** Running one queued goroutine. *)
Definition run_goroutine (g : Goroutine) : State unit :=
  match g with
  | go_SessionCache_Set key s => λ w, (tt, set_SessionCache (insert key s) w)
  | go_UpdateSession key s ttl => UpdateSession key s ttl
  | go_context_Set key v => context_Set key v
  | go_FireEvent e => FireEvent e
  end.

(** [land mask w]: the queued goroutines whose bit in [mask] is set run, in
    the order they were queued; the others stay queued. A mask shorter than
    the queue leaves the rest queued. *)
Fixpoint land_from (mask : list bool) (gs : list Goroutine) (w : World) {struct gs} : World :=
  match gs, mask with
  | [], _ => w
  | g :: gs', true :: mask' => land_from mask' gs' (snd (run_goroutine g w))
  | g :: gs', false :: mask' => set_goroutines (cons g) (land_from mask' gs' w)
  | _ :: _, [] => set_goroutines (app gs) w
  end.

Definition land (mask : list bool) (w : World) : World :=
  land_from mask (goroutines w) (set_goroutines (λ _, []) w).

(** ** Panics *)

Inductive Outcome (A : Type) :=
| Returned (a : A)
| Panicked (msg : string).
Arguments Returned {A} a.
Arguments Panicked {A} msg.

Definition Go (A : Type) : Type := World → Outcome A * World.

Definition go_ret {A} (a : A) : Go A := λ w, (Returned a, w).
Definition go_bind {A B} (m : Go A) (k : A → Go B) : Go B :=
  λ w, match m w with
       | (Returned a, w') => k a w'
       | (Panicked msg, w') => (Panicked msg, w')
       end.
Definition panic {A} (msg : string) : Go A := λ w, (Panicked msg, w).
Definition lift {A} (m : State A) : Go A :=
  λ w, let '(a, w') := m w in (Returned a, w').

Declare Scope go_scope.
Delimit Scope go_scope with go.
Notation "x <- m ;; k" := (go_bind m (λ x, k))
  (at level 100, m at next level, right associativity) : go_scope.
Notation "m ;; k" := (go_bind m (λ _, k))
  (at level 100, right associativity) : go_scope.

(** ** Library values: JSON, errors, strings, hex, MD5 *)

(** A decoded JSON value held in an [interface{}]; [JNull] is the nil
    interface, which is also what indexing a map at a missing key gives. *)
Inductive JSONValue :=
| JNull
| JString (s : string)
| JNumber (f : float64)
| JBool (b : bool)
| JComposite.

(** [m[k]] on a [map[string]interface{}] *)
Definition iface_at (m : gmap string JSONValue) (k : string) : JSONValue :=
  default JNull (m !! k).

(** [v, ok := x.(string)] *)
Definition as_string (v : JSONValue) : string * bool :=
  match v with
  | JString s => (s, true)
  | _ => ("", false)
  end.

Definition is_nil (v : JSONValue) : bool :=
  match v with JNull => true | _ => false end.

Inductive GoError :=
| errors_New (msg : string)
| fmt_Errorf (format : string) (arg : JSONValue)
| ValidationError (cause : GoError)
| LibraryError (msg : string).

(** An [error] value; [None] is [nil]. *)
Definition error := option GoError.

(** [strings.ToLower], on ASCII letters. *)
Definition lower_ascii (c : ascii) : ascii :=
  let n := N_of_ascii c in
  if ((65 <=? n) && (n <=? 90))%N then ascii_of_N (n + 32) else c.

Fixpoint ToLower (s : string) : string :=
  match s with
  | EmptyString => EmptyString
  | String c s' => String (lower_ascii c) (ToLower s')
  end.

(** [strings.HasPrefix(s, prefix)] *)
Definition HasPrefix (s pre : string) : bool := String.prefix pre s.

(** [[]byte(s)] *)
Definition bytes_of_string (s : string) : bytes :=
  map (λ c, Z.of_N (N_of_ascii c)) (list_ascii_of_string s).

(** [fmt.Sprintf("%x", b)] on a byte array: for each byte [c] the digits
    [ldigits[c>>4]] and [ldigits[c&0xF]]. *)
Definition ldigits : string := "0123456789abcdefx".

Definition digit_at (i : Z) : string :=
  match String.get (Z.to_nat i) ldigits with
  | Some c => String c ""
  | None => ""
  end.

Fixpoint Sprintf_x (b : bytes) : string :=
  match b with
  | [] => ""
  | c :: b' => digit_at (Z.shiftr c 4) +:+ digit_at (Z.land c 0xF) +:+ Sprintf_x b'
  end.

(** The specification's [hex_lower]: every byte as two lowercase
    hexadecimal digits, the high one first. *)
Definition hex_digit (n : Z) : ascii :=
  if (n <? 10)%Z then ascii_of_N (Z.to_N (48 + n)) else ascii_of_N (Z.to_N (97 + (n - 10))).

Definition hex_lower (b : bytes) : string :=
  string_of_list_ascii (flat_map (λ c, [hex_digit (c / 16); hex_digit (c mod 16)]) b).

(** [crypto/md5], RFC 1321. *)
Module md5.
Definition u32 (x : Z) : Z := x mod 2 ^ 32.
Definition not32 (x : Z) : Z := Z.lxor x 0xffffffff.
Definition rotl32 (x : Z) (s : Z) : Z :=
  Z.lor (u32 (Z.shiftl x s)) (Z.shiftr x (32 - s)).

Definition table : list Z := [
  0xd76aa478; 0xe8c7b756; 0x242070db; 0xc1bdceee;
  0xf57c0faf; 0x4787c62a; 0xa8304613; 0xfd469501;
  0x698098d8; 0x8b44f7af; 0xffff5bb1; 0x895cd7be;
  0x6b901122; 0xfd987193; 0xa679438e; 0x49b40821;
  0xf61e2562; 0xc040b340; 0x265e5a51; 0xe9b6c7aa;
  0xd62f105d; 0x02441453; 0xd8a1e681; 0xe7d3fbc8;
  0x21e1cde6; 0xc33707d6; 0xf4d50d87; 0x455a14ed;
  0xa9e3e905; 0xfcefa3f8; 0x676f02d9; 0x8d2a4c8a;
  0xfffa3942; 0x8771f681; 0x6d9d6122; 0xfde5380c;
  0xa4beea44; 0x4bdecfa9; 0xf6bb4b60; 0xbebfbc70;
  0x289b7ec6; 0xeaa127fa; 0xd4ef3085; 0x04881d05;
  0xd9d4d039; 0xe6db99e5; 0x1fa27cf8; 0xc4ac5665;
  0xf4292244; 0x432aff97; 0xab9423a7; 0xfc93a039;
  0x655b59c3; 0x8f0ccc92; 0xffeff47d; 0x85845dd1;
  0x6fa87e4f; 0xfe2ce6e0; 0xa3014314; 0x4e0811a1;
  0xf7537e82; 0xbd3af235; 0x2ad7d2bb; 0xeb86d391 ].

Definition shifts : list Z := [
  7; 12; 17; 22; 7; 12; 17; 22; 7; 12; 17; 22; 7; 12; 17; 22;
  5; 9; 14; 20; 5; 9; 14; 20; 5; 9; 14; 20; 5; 9; 14; 20;
  4; 11; 16; 23; 4; 11; 16; 23; 4; 11; 16; 23; 4; 11; 16; 23;
  6; 10; 15; 21; 6; 10; 15; 21; 6; 10; 15; 21; 6; 10; 15; 21 ].

Definition digest : Type := Z * Z * Z * Z.

Definition init : digest := (0x67452301, 0xefcdab89, 0x98badcfe, 0x10325476).

(** One of the 64 steps of a block; [X] holds the block as sixteen
    little-endian words. *)
Definition step (X : list Z) (st : digest) (i : nat) : digest :=
  let '(a, b, c, d) := st in
  let r := (i / 16)%nat in
  let f := match r with
           | 0%nat => Z.lor (Z.land b c) (Z.land (not32 b) d)
           | 1%nat => Z.lor (Z.land b d) (Z.land c (not32 d))
           | 2%nat => Z.lxor (Z.lxor b c) d
           | _ => Z.lxor c (Z.lor b (not32 d))
           end in
  let g := match r with
           | 0%nat => i
           | 1%nat => ((5 * i + 1) mod 16)%nat
           | 2%nat => ((3 * i + 5) mod 16)%nat
           | _ => ((7 * i) mod 16)%nat
           end in
  let t := u32 (a + f + X !!! g + table !!! i) in
  (d, u32 (b + rotl32 t (shifts !!! i)), b, c).

Fixpoint le_word (bs : list Z) : Z :=
  match bs with
  | [] => 0
  | b :: bs' => b + 256 * le_word bs'
  end.

Fixpoint words (n : nat) (p : list Z) : list Z :=
  match n with
  | O => []
  | S n' => le_word (take 4 p) :: words n' (drop 4 p)
  end.

Definition block (st : digest) (p : list Z) : digest :=
  let '(a0, b0, c0, d0) := st in
  let '(a, b, c, d) := fold_left (step (words 16 p)) (seq 0 64) st in
  (u32 (a0 + a), u32 (b0 + b), u32 (c0 + c), u32 (d0 + d)).

Fixpoint blocks (fuel : nat) (st : digest) (p : list Z) : digest :=
  match fuel with
  | O => st
  | S fuel' =>
      match p with
      | [] => st
      | _ => blocks fuel' (block st (take 64 p)) (drop 64 p)
      end
  end.

Fixpoint le_bytes (n : nat) (x : Z) : list Z :=
  match n with
  | O => []
  | S n' => x mod 256 :: le_bytes n' (x / 256)
  end.

Definition pad (data : bytes) : bytes :=
  let len := Z.of_nat (length data) in
  let zeros := Z.to_nat ((55 - len) mod 64) in
  (data ++ 0x80 :: replicate zeros 0 ++ le_bytes 8 (len * 8 mod 2 ^ 64))%list.

(** [md5.Sum(data)], a [[16]byte]. *)
Definition Sum (data : bytes) : bytes :=
  let p := pad data in
  let '(a, b, c, d) := blocks (length p) init p in
  (le_bytes 4 a ++ le_bytes 4 b ++ le_bytes 4 c ++ le_bytes 4 d)%list.
End md5.

(** ** Tokens and requests *)

Inductive SigningMethod :=
| SigningMethodHMAC
| SigningMethodRSA
| SigningMethodECDSA
| SigningMethodOther.

(** [jwt.Token] *)
Record Token := {
  Raw : string;
  Method : SigningMethod;
  Header : gmap string JSONValue;
  Claims : gmap string JSONValue;
  Valid : bool
}.

Definition set_Valid (b : bool) (t : Token) : Token :=
  {| Raw := Raw t; Method := Method t; Header := Header t;
     Claims := Claims t; Valid := b |}.

(** What the middlewares read of an [*http.Request]. *)
Record Request := {
  Header_Get : string → string;
  FormValue : string → string;
  Cookie : string → option string;
  URL_Path : string;
  RemoteAddr : string
}.

Inductive LogLevel := LogDebug | LogInfo | LogWarning | LogError.

(** ** The session resolver *)

Section Gateway.
Variable Spec : APISpec.
Variable config : Config.
(** [var Policies map[string]Policy], read-only on this path. *)
Variable Policies : GoMap Policy.t.
(** [t.Spec.AuthManager.IsKeyAuthorised], the lower-level key store. *)
Variable IsKeyAuthorised : string → SessionState.t * bool.

(** [func (t TykMiddleware) ApplyPolicyIfExists(key, thisSession, stripPolicyID)];
    the result is the session behind the pointer on return. *)
Definition ApplyPolicyIfExists (key : string) (thisSession : SessionState.t)
    (stripPolicyID : bool) : State SessionState.t :=
  if negb (str_eqb (SessionState.ApplyPolicyID thisSession) "") then
    match index_ok Policies (SessionState.ApplyPolicyID thisSession) with
    | Some policy =>
        if negb (str_eqb (Policy.OrgID policy) (OrgID Spec)) then
          ret thisSession
        else
          let thisSession := SessionState.overlay policy thisSession in
          let thisSession :=
            if stripPolicyID
            then SessionState.set_ApplyPolicyID "" thisSession
            else thisSession in
          UpdateSession key thisSession (SessionLifetime Spec);;
          ret thisSession
    | None => ret thisSession
    end
  else ret thisSession.

(** [func checkSessionAndValidateKey(key string, t TykMiddleware)] *)
Definition checkSessionAndValidateKey (key : string) : State (SessionState.t * bool) :=
  cached <- (if negb (DisableCacheSessionState config)
             then SessionCache_Get key else ret None);;
  match cached with
  | Some cachedVal =>
      thisSession <- ApplyPolicyIfExists key cachedVal false;;
      ret (thisSession, true)
  | None =>
      r <- GetSessionDetail key;;
      let '(thisSession, found) := r in
      if found then
        spawn (go_SessionCache_Set key thisSession);;
        thisSession <- ApplyPolicyIfExists key thisSession false;;
        ret (thisSession, true)
      else
        let '(thisSession, found) := IsKeyAuthorised key in
        if found then
          spawn (go_SessionCache_Set key thisSession);;
          thisSession <- ApplyPolicyIfExists key thisSession false;;
          UpdateSession key thisSession (SessionLifetime Spec);;
          ret (thisSession, found)
        else ret (thisSession, found)
  end.

(** [func (t TykMiddleware) CheckSessionAndIdentityForValidKey(key string)] *)
Definition CheckSessionAndIdentityForValidKey (key : string) : State (SessionState.t * bool) :=
  r <- checkSessionAndValidateKey key;;
  let '(baseSession, baseFound) := r in
  (if baseFound then
     match SessionState.PolicyPerAPI baseSession with
     | Some _ =>
         let apiPolicyID := index "" (SessionState.PolicyPerAPI baseSession) (APIID Spec) in
         if negb (str_eqb apiPolicyID "") then
           let apiSessionKey := key +:+ APISessionKeySuffix +:+ APIID Spec in
           r <- checkSessionAndValidateKey apiSessionKey;;
           let '(perApiSession, apiSessionFound) := r in
           if negb apiSessionFound then
             let perApiSession := SessionState.set_ApplyPolicyID apiPolicyID perApiSession in
             _ <- ApplyPolicyIfExists apiSessionKey perApiSession true;;
             ret tt
           else ret tt
         else ret tt
     | None => ret tt
     end
   else ret tt);;
  ret (baseSession, baseFound).


(** ** The JWT middleware *)

(** The libraries and helpers the middleware calls: [http.Get] with the
    read of the body, [json.Unmarshal] into a [JWKs], base64 decoding,
    the helper [stripBearer], and the two halves of [jwt.Parse] around the
    key function. *)
Variable http_Get : string → string * error.
Variable ioutil_ReadAll : string → string * error.
Variable json_Unmarshal_JWKs : string → JWKs * error.
Variable b64_DecodeString : string → bytes * error.
Variable stripBearer : string → string.

Inductive Decoded :=
| DecodeFailed (token : option Token) (err : GoError)
| DecodedToken (token : Token).

Variable jwt_decode : string → Decoded.
Variable jwt_verify : Token → bytes → error.

(** [jwt.Parse(tokenString, keyFunc)] of jwt-go: split and decode the
    segments and look up the signing method, ask [keyFunc] for the key,
    then check the time claims and the signature. *)
Definition jwt_Parse (tokenString : string) (keyFunc : Token → Go (bytes * error))
    : Go (option Token * error) :=
  (match jwt_decode tokenString with
   | DecodeFailed token err => go_ret (token, Some err)
   | DecodedToken token =>
       kr <- keyFunc token;;
       let '(key, err) := kr in
       match err with
       | Some e => go_ret (Some token, Some (ValidationError e))
       | None =>
           match jwt_verify token key with
           | Some e => go_ret (Some token, Some (ValidationError e))
           | None => go_ret (Some (set_Valid true token), None)
           end
       end
   end)%go.

(** [JWKCache.Get(apiID)]; the cache is made on first use. *)
Definition JWKCache_init : State unit :=
  λ w, match JWKCache w with
       | None => (tt, set_JWKCache (Some ∅) w)
       | Some _ => (tt, w)
       end.

Definition JWKCache_Get (k : string) : State (option JWKs) :=
  λ w, (index_ok (JWKCache w) k, w).

Definition JWKCache_Set (k : string) (v : JWKs) : State unit :=
  λ w, (tt, set_JWKCache (insert k v <$> JWKCache w) w).

(** The loop [for _, val := range thisJWKSet.Keys] of [getSecretFromURL]
    with its returns. *)
Fixpoint find_cert (kid keyType : string) (keys : list JWK) : bytes * error :=
  match keys with
  | [] => ([], Some (errors_New "No matching KID could be found"))
  | val :: rest =>
      if str_eqb (KID val) kid then
        if str_eqb (ToLower (Kty val)) (ToLower keyType) then
          match X5c val with
          | x5c0 :: _ =>
              let '(decodedCert, decErr) := b64_DecodeString x5c0 in
              match decErr with
              | Some _ => ([], decErr)
              | None => (decodedCert, None)
              end
          | [] => ([], Some (errors_New "No certificates in JWK!"))
          end
        else find_cert kid keyType rest
      else find_cert kid keyType rest
  end.

(** [func (k *JWTMiddleware) getSecretFromURL(url, kid, keyType)] *)
Definition getSecretFromURL (url kid keyType : string) : State (bytes * error) :=
  JWKCache_init;;
  cachedJWK <- JWKCache_Get (APIID Spec);;
  match cachedJWK with
  | None =>
      let '(response, err) := http_Get url in
      match err with
      | Some _ => ret ([], err)
      | None =>
          let '(contents, err) := ioutil_ReadAll response in
          match err with
          | Some _ => ret ([], err)
          | None =>
              let '(thisJWKSet, decErr) := json_Unmarshal_JWKs contents in
              match decErr with
              | Some _ => ret ([], err)
              | None =>
                  JWKCache_Set (APIID Spec) thisJWKSet;;
                  ret (find_cert kid keyType thisJWKSet)
              end
          end
      end
  | Some thisJWKSet => ret (find_cert kid keyType thisJWKSet)
  end.

(** [func (k *JWTMiddleware) getIdentityFomToken(token)]; the assertion
    [.(string)] panics on a value that is not a string. *)
Definition getIdentityFomToken (token : Token) : Go (string * bool) :=
  (r <- (if negb (is_nil (iface_at (Header token) "kid")) then
           match iface_at (Header token) "kid" with
           | JString s => go_ret (s, true)
           | _ => panic "interface conversion: interface {} is not string"
           end
         else go_ret ("", false));;
   let '(tykId, idFound) := r in
   if negb idFound then
     if negb (is_nil (iface_at (Claims token) "sub")) then
       match iface_at (Claims token) "sub" with
       | JString s => go_ret (s, true)
       | _ => panic "interface conversion: interface {} is not string"
       end
     else go_ret (tykId, idFound)
   else go_ret (tykId, idFound))%go.

(** [func (k *JWTMiddleware) getSecret(token)] *)
Definition getSecret (token : Token) : Go (bytes * error) :=
  (if negb (str_eqb (JWTSource Spec) "") then
     if HasPrefix (ToLower (JWTSource Spec)) "http://"
        || HasPrefix (ToLower (JWTSource Spec)) "https://" then
       match iface_at (Header token) "kid" with
       | JString kid =>
           r <- lift (getSecretFromURL (JWTSource Spec) kid (JWTSigningMethod Spec));;
           let '(secret, urlErr) := r in
           match urlErr with
           | Some _ => go_ret ([], urlErr)
           | None => go_ret (secret, None)
           end
       | JNull => panic "interface conversion: interface {} is nil, not string"
       | _ => panic "interface conversion: interface {} is not string"
       end
     else
       let '(decodedCert, decErr) := b64_DecodeString (JWTSource Spec) in
       match decErr with
       | Some _ => go_ret ([], decErr)
       | None => go_ret (decodedCert, None)
       end
   else
     r <- getIdentityFomToken token;;
     let '(tykId, found) := r in
     if negb found then go_ret ([], Some (errors_New "Key ID not found"))
     else
       r <- lift (CheckSessionAndIdentityForValidKey tykId);;
       let '(thisSessionState, rawKeyExists) := r in
       if negb rawKeyExists
       then go_ret ([], Some (errors_New "Token invalid, key not found."))
       else go_ret (bytes_of_string (SessionState.JWTData_Secret thisSessionState), None))%go.

Definition is_HMAC (m : SigningMethod) : bool :=
  match m with SigningMethodHMAC => true | _ => false end.
Definition is_RSA (m : SigningMethod) : bool :=
  match m with SigningMethodRSA => true | _ => false end.
Definition is_ECDSA (m : SigningMethod) : bool :=
  match m with SigningMethodECDSA => true | _ => false end.

Definition unexpected_signing_method (token : Token) : bytes * error :=
  ([], Some (fmt_Errorf "Unexpected signing method: %v" (iface_at (Header token) "alg"))).

(** The four type assertions on [token.Method] of the key function, one
    per declared signing method, the last for a declared method that is
    none of the three. *)
Definition method_gate (token : Token) : bool :=
  if str_eqb (JWTSigningMethod Spec) "hmac" then is_HMAC (Method token)
  else if str_eqb (JWTSigningMethod Spec) "rsa" then is_RSA (Method token)
  else if str_eqb (JWTSigningMethod Spec) "ecdsa" then is_ECDSA (Method token)
  else is_HMAC (Method token).

(** The key function handed to [jwt.Parse] in [ProcessRequest]. *)
Definition keyFunc (token : Token) : Go (bytes * error) :=
  if negb (method_gate token) then go_ret (unexpected_signing_method token)
  else getSecret token.

(** Modelled from the spec: [AuthFailed] is defined outside src/; it
    emits the [AuthFailed] event with key, path and origin (section 6),
    fire-and-forget as every event (section 5). *)
Definition AuthFailed (r : Request) (key : string) : State unit :=
  spawn (go_FireEvent {| ev_kind := EVENT_AuthFailure; ev_message := "Auth Failure";
                         ev_path := URL_Path r; ev_origin := RemoteAddr r; ev_key := key |}).

(** The branch of [ProcessRequest] taken when the API has a central JWT
    source: [if k.TykMiddleware.Spec.APIDefinition.JWTSource != ""]. *)
Definition centralised (token : Token) : State (error * Z) :=
  let '(baseFieldData, baseFound) := as_string (iface_at (Claims token) (JWTIdentityBaseField Spec)) in
  let '(baseFieldData, found) :=
    if negb baseFound then as_string (iface_at (Claims token) "sub")
    else (baseFieldData, true) in
  if negb found then ret (Some (errors_New "Key not authorized"), 403)
  else
    let data := bytes_of_string baseFieldData in
    let tokenID := Sprintf_x (md5.Sum data) in
    let SessionID := OrgID Spec +:+ tokenID in
    r <- CheckSessionAndIdentityForValidKey SessionID;;
    let '(thisSessionState, keyExists) := r in
    if negb keyExists then
      let thisSessionState := SessionState.zero in
      let '(basePolicyID, foundPolicy) := as_string (iface_at (Claims token) (JWTPolicyFieldName Spec)) in
      if negb foundPolicy
      then ret (Some (errors_New "Key not authorized: no matching policy"), 403)
      else
        match index_ok Policies basePolicyID with
        | Some policy =>
            if negb (str_eqb (Policy.OrgID policy) (OrgID Spec))
            then ret (Some (errors_New "Key not authorized: no matching policy"), 403)
            else
              let thisSessionState := SessionState.overlay policy thisSessionState in
              UpdateSession SessionID thisSessionState (SessionLifetime Spec);;
              context_Set SessionData (CtxSession thisSessionState);;
              context_Set AuthHeaderValue (CtxString SessionID);;
              ret (None, 200)
        | None => ret (Some (errors_New "Key not authorized: no matching policy"), 403)
        end
    else
      context_Set SessionData (CtxSession thisSessionState);;
      context_Set AuthHeaderValue (CtxString SessionID);;
      ret (None, 200).

(** The head of [ProcessRequest], under [// Get the token]: the header,
    overridden by the form value, overridden by the cookie. *)
Definition extractJWT (r : Request) : string :=
  let thisConfig := Auth Spec in
  let rawJWT := Header_Get r (AuthHeaderName thisConfig) in
  let rawJWT := if UseParam thisConfig then FormValue r (AuthHeaderName thisConfig) else rawJWT in
  if UseCookie thisConfig then
    match Cookie r (AuthHeaderName thisConfig) with
    | None => ""
    | Some authCookie => authCookie
    end
  else rawJWT.

(** [func (k *JWTMiddleware) ProcessRequest(w, r, configuration)] *)
Definition JWTMiddleware_ProcessRequest (r : Request) : Go (error * Z) :=
  let rawJWT := extractJWT r in
  if str_eqb rawJWT "" then go_ret (Some (errors_New "Authorization field missing"), 400)
  else
    let rawJWT := stripBearer rawJWT in
    (pr <- jwt_Parse rawJWT keyFunc;;
     let '(token, err) := pr in
     match err, token with
     | None, Some token =>
         if Valid token then
           if negb (str_eqb (JWTSource Spec) "") then lift (centralised token)
           else
             ir <- getIdentityFomToken token;;
             let '(tykId, found) := ir in
             if negb found then go_ret (Some (errors_New "Key id not found"), 403)
             else
               sr <- lift (CheckSessionAndIdentityForValidKey tykId);;
               let '(thisSessionState, keyExists) := sr in
               if negb keyExists then go_ret (Some (errors_New "Key not authorized"), 403)
               else
                 lift (context_Set SessionData (CtxSession thisSessionState);;
                       context_Set AuthHeaderValue (CtxString tykId);;
                       ret (None, 200))%state
         else
           lift (AuthFailed r "";;
                 ReportHealthCheckValue KeyFailure "1";;
                 ret (Some (errors_New "Key not authorized"), 403))%state
     | None, None => panic "invalid memory address or nil pointer dereference"
     | Some _, _ =>
         lift (AuthFailed r "";;
               ReportHealthCheckValue KeyFailure "1";;
               ret (Some (errors_New "Key not authorized"), 403))%state
     end)%go.

(** ** The rate-limit and quota middleware *)

(** [sessionLimiter.ForwardMessage(&session, key, store)], defined outside
    src/: from the session, the key and the store it gives the verdict
    [(allowed, reason)], the session as it leaves it and the store as it
    leaves it. *)
Variable ForwardMessage :
  SessionState.t → string →
  gmap string (SessionState.t * int64) * gmap string Z →
  (bool * Z) * SessionState.t * (gmap string (SessionState.t * int64) * gmap string Z).

(** [sessionMonitor.Check(&session, key)], defined outside src/: the
    trigger events it fires, fire-and-forget. *)
Variable sessionMonitor_Check : SessionState.t → string → list Event.

Definition run_ForwardMessage (s : SessionState.t) (key : string)
    : State ((bool * Z) * SessionState.t) :=
  λ w, let '(verdict, s', (ss, cs)) := ForwardMessage s key (sessions w, counters w) in
       ((verdict, s'),
        {| sessions := ss; counters := cs;
           SessionCache := SessionCache w; JWKCache := JWKCache w;
           context := context w; fired := fired w; health := health w;
           goroutines := goroutines w |}).

Fixpoint spawn_all (gs : list Goroutine) : State unit :=
  match gs with
  | [] => ret tt
  | g :: gs' => spawn g;; spawn_all gs'
  end.

(** [func applyRateLimiting(key, thisSessionState, k, r, configuration)] *)
Definition applyRateLimiting (key : string) (thisSessionState : SessionState.t)
    (r : Request) : State (error * Z) :=
  fr <- run_ForwardMessage thisSessionState key;;
  let '((forwardMessage, reason), thisSessionState) := fr in
  (if negb (UseAsyncSessionWrite config) then
     UpdateSession key thisSessionState 0;;
     context_Set SessionData (CtxSession thisSessionState)
   else
     spawn (go_UpdateSession key thisSessionState 0);;
     spawn (go_context_Set SessionData (CtxSession thisSessionState)));;
  if negb forwardMessage then
    if (reason =? 1)%Z then
      spawn (go_FireEvent {| ev_kind := EVENT_RateLimitExceeded;
                             ev_message := "Key Rate Limit Exceeded";
                             ev_path := URL_Path r; ev_origin := RemoteAddr r;
                             ev_key := key |});;
      ReportHealthCheckValue Throttle "-1";;
      ret (Some (errors_New "Rate limit exceeded"), 429)
    else if (reason =? 2)%Z then
      spawn (go_FireEvent {| ev_kind := EVENT_QuotaExceeded;
                             ev_message := "Key Quota Limit Exceeded";
                             ev_path := URL_Path r; ev_origin := RemoteAddr r;
                             ev_key := key |});;
      ReportHealthCheckValue QuotaViolation "-1";;
      ret (Some (errors_New "Quota exceeded"), 403)
    else ret (Some (errors_New "Access denied"), 403)
  else
    (if MonitorUserKeys config
     then spawn_all (map go_FireEvent (sessionMonitor_Check thisSessionState key))
     else ret tt);;
    ret (None, 200).

(** [func (k *RateLimitAndQuotaCheck) ProcessRequest(w, r, configuration)] *)
Definition RateLimitAndQuotaCheck_ProcessRequest (r : Request) : Go (error * Z) :=
  λ w,
    match context w !! SessionData with
    | Some (CtxSession thisSessionState) =>
        match context w !! AuthHeaderValue with
        | Some (CtxString authHeaderValue) =>
            lift
              (match SessionState.PolicyPerAPI thisSessionState with
               | Some _ =>
                   let apiSessionKey := authHeaderValue +:+ APISessionKeySuffix +:+ APIID Spec in
                   gr <- GetSessionDetail apiSessionKey;;
                   let '(perAPISession, found) := gr in
                   if found then applyRateLimiting apiSessionKey perAPISession r
                   else applyRateLimiting authHeaderValue thisSessionState r
               | None => applyRateLimiting authHeaderValue thisSessionState r
               end) w
        | _ => (Panicked "interface conversion: interface {} is not string", w)
        end
    | _ => (Panicked "interface conversion: interface {} is not main.SessionState", w)
    end.

(** ** The policy loader *)

(** [ioutil.ReadFile] and [json.Unmarshal] into the map of policies; the
    decoder works on the map it is given and may have filled part of it
    when it fails. *)
Variable ioutil_ReadFile : string → string * error.
Variable json_Unmarshal_policies : string → GoMap Policy.t → GoMap Policy.t * error.

(** [func LoadPoliciesFromFile(filePath string) map[string]Policy]; the
    second component is what it writes to the log. *)
Definition LoadPoliciesFromFile (filePath : string)
    : GoMap Policy.t * list (LogLevel * string * error) :=
  let policies : GoMap Policy.t := make_map in
  let '(policyConfig, err) := ioutil_ReadFile filePath in
  match err with
  | Some _ => (policies, [(LogError, "Couldn't load policy file: ", err)])
  | None =>
      let '(policies, mErr) := json_Unmarshal_policies policyConfig policies in
      match mErr with
      | Some _ => (policies, [(LogError, "Couldn't unmarshal policies: ", mErr)])
      | None => (policies, [])
      end
  end.

(** ** Reading the code

    Functions of the specification's vocabulary, used to state what the
    code above does. *)

(** The policy that [ApplyPolicyIfExists] overlays onto a session: the
    one its [ApplyPolicyID] names, when the registry has it and it belongs
    to the organisation of the API. *)
Definition policy_for (s : SessionState.t) : option Policy.t :=
  if str_eqb (SessionState.ApplyPolicyID s) "" then None
  else
    match index_ok Policies (SessionState.ApplyPolicyID s) with
    | Some p => if str_eqb (Policy.OrgID p) (OrgID Spec) then Some p else None
    | None => None
    end.

Definition applied (s : SessionState.t) : SessionState.t :=
  match policy_for s with
  | Some p => SessionState.overlay p s
  | None => s
  end.

(** The answer of the ladder local cache, session store, auth store for
    a key, from what the first two hold for it. *)
Definition resolve (key : string) (cached : option SessionState.t)
    (stored : option (SessionState.t * int64)) : SessionState.t * bool :=
  match (if DisableCacheSessionState config then None else cached) with
  | Some c => (applied c, true)
  | None =>
      match stored with
      | Some (s, _) => (applied s, true)
      | None =>
          let '(s, found) := IsKeyAuthorised key in
          if found then (applied s, true) else (s, false)
      end
  end.

(** The identity of a token in central-authority mode: the configured
    base field, else [sub]. *)
Definition identity_base (token : Token) : option string :=
  match iface_at (Claims token) (JWTIdentityBaseField Spec) with
  | JString b => Some b
  | _ =>
      match iface_at (Claims token) "sub" with
      | JString b => Some b
      | _ => None
      end
  end.

(** Central-authority mode with a JWKS endpoint. *)
Definition source_is_URL : bool :=
  negb (str_eqb (JWTSource Spec) "")
  && (HasPrefix (ToLower (JWTSource Spec)) "http://"
      || HasPrefix (ToLower (JWTSource Spec)) "https://").

End Gateway.

(** The events among queued goroutines. *)
Definition fire_events (gs : list Goroutine) : list Event :=
  omap (λ g, match g with go_FireEvent e => Some e | _ => None end) gs.

Definition is_cache_set (g : Goroutine) : Prop :=
  match g with go_SessionCache_Set _ _ => True | _ => False end.

Definition byte_range (c : Z) : Prop := (0 ≤ c < 256)%Z.

(** * A gateway to run the code on

    One API of organisation O1 with a JWKS endpoint as JWT source, the
    policy P1, and stand-ins for the network, the decoders and the token
    library that know one key set and a few tokens. *)

Module Ex.
(** 5.0, 60.0, 1.0 and 100.0 as [float64]. *)
Definition f5 : float64 := 0x4014000000000000.
Definition f60 : float64 := 0x404E000000000000.
Definition f1 : float64 := 0x3FF0000000000000.
Definition f100 : float64 := 0x4059000000000000.

Definition Spec : APISpec := {|
  APIID := "A1"; OrgID := "O1"; JWTSource := "https://idp/jwks";
  JWTSigningMethod := "rsa"; JWTIdentityBaseField := "email";
  JWTPolicyFieldName := "pol"; SessionLifetime := 3600;
  Auth := {| AuthHeaderName := "Authorization"; UseParam := false; UseCookie := false |} |}.

Definition config : Config := {|
  UseAsyncSessionWrite := false; MonitorUserKeys := false;
  DisableCacheSessionState := false |}.

Definition P1 (org : string) : Policy.t := {|
  Policy.MID := ""; Policy.ID := "P1"; Policy.OrgID := org;
  Policy.Rate := f5; Policy.Per := f60; Policy.QuotaMax := 100;
  Policy.QuotaRenewalRate := 3600; Policy.PolicyPerAPI := None;
  Policy.AccessRights := None; Policy.HMACEnabled := false;
  Policy.Active := true; Policy.IsInactive := false;
  Policy.Tags := ["gold"]; Policy.KeyExpiresIn := 0 |}.

Definition P_fast : Policy.t := {|
  Policy.MID := ""; Policy.ID := "P_fast"; Policy.OrgID := "O1";
  Policy.Rate := f100; Policy.Per := f1; Policy.QuotaMax := 1000;
  Policy.QuotaRenewalRate := 3600; Policy.PolicyPerAPI := None;
  Policy.AccessRights := None; Policy.HMACEnabled := false;
  Policy.Active := true; Policy.IsInactive := false;
  Policy.Tags := []; Policy.KeyExpiresIn := 0 |}.

(** The registry of scenario 3 of the spec, and that of scenario 4, where
    P1 belongs to O2. *)
Definition Policies : GoMap Policy.t := Some {[ "P1" := P1 "O1"; "P_fast" := P_fast ]}.
Definition Policies_cross : GoMap Policy.t := Some {[ "P1" := P1 "O2" ]}.

Definition IsKeyAuthorised (key : string) : SessionState.t * bool :=
  (SessionState.zero, false).

Definition jwks_body : string := "{keys:[{kid:K1,kty:RSA,x5c:[Y2VydA==]}]}".

Definition http_Get (url : string) : string * error :=
  if str_eqb url "https://idp/jwks" then (jwks_body, None)
  else if str_eqb url "https://idp/broken" then ("<html>", None)
  else ("", Some (LibraryError "no such host")).

Definition ioutil_ReadAll (body : string) : string * error := (body, None).

Definition json_Unmarshal_JWKs (contents : string) : JWKs * error :=
  if str_eqb contents jwks_body
  then ([{| Alg := "RS256"; Kty := "RSA"; Use := "sig"; X5c := ["Y2VydA=="]; KID := "K1" |}], None)
  else ([], Some (LibraryError "invalid character '<' looking for beginning of value")).

Definition b64_DecodeString (x : string) : bytes * error :=
  if str_eqb x "Y2VydA==" then (bytes_of_string "cert", None)
  else ([], Some (LibraryError "illegal base64 data at input byte 0")).

Definition stripBearer (raw : string) : string :=
  if String.prefix "Bearer " raw then String.substring 7 (String.length raw - 7) raw
  else raw.

(** The token of scenario 3, and the same token without [kid]. *)
Definition token_a : Token := {|
  Raw := "tok-a"; Method := SigningMethodRSA;
  Header := {[ "alg" := JString "RS256"; "kid" := JString "K1" ]};
  Claims := {[ "email" := JString "a@x"; "pol" := JString "P1" ]};
  Valid := false |}.

Definition token_nokid : Token := {|
  Raw := "tok-nokid"; Method := SigningMethodRSA;
  Header := {[ "alg" := JString "RS256" ]};
  Claims := {[ "email" := JString "a@x"; "pol" := JString "P1" ]};
  Valid := false |}.

Definition jwt_decode (raw : string) : Decoded :=
  if str_eqb raw "tok-a" then DecodedToken token_a
  else if str_eqb raw "tok-nokid" then DecodedToken token_nokid
  else DecodeFailed None (LibraryError "token contains an invalid number of segments").

Definition jwt_verify (t : Token) (key : bytes) : error :=
  if bool_decide (key = bytes_of_string "cert") then None
  else Some (LibraryError "crypto/rsa: verification error").

Definition request (authorization : string) : Request := {|
  Header_Get := λ h, if str_eqb h "Authorization" then authorization else "";
  FormValue := λ _, ""; Cookie := λ _, None;
  URL_Path := "/a1/"; RemoteAddr := "10.0.0.1" |}.

Definition w0 : World := {|
  sessions := ∅; counters := ∅; SessionCache := ∅; JWKCache := None;
  context := ∅; fired := []; health := []; goroutines := [] |}.

(** A base session naming a per-API policy for API [api]. *)
Definition base (api pid : string) : SessionState.t := {|
  SessionState.Allowance := f1; SessionState.Rate := f1; SessionState.Per := f60;
  SessionState.QuotaMax := 5; SessionState.QuotaRemaining := 5;
  SessionState.QuotaRenewalRate := 3600; SessionState.QuotaRenews := 0;
  SessionState.PolicyPerAPI := Some {[ api := pid ]};
  SessionState.AccessRights := None; SessionState.HMACEnabled := false;
  SessionState.IsInactive := false; SessionState.Tags := [];
  SessionState.ApplyPolicyID := ""; SessionState.OauthClientID := "";
  SessionState.JWTData_Secret := "s3cr3t"; SessionState.DataExpires := 0 |}.

Definition with_session (key : string) (s : SessionState.t) (w : World) : World :=
  set_sessions (insert key (s, 3600)) w.

Definition with_context (s : SessionState.t) (key : string) (w : World) : World :=
  set_context (λ c, <[AuthHeaderValue := CtxString key]> (<[SessionData := CtxSession s]> c)) w.

(** A limiter that lets everything through and counts the forwards per
    key, one that reports the rate exceeded, and a silent monitor. *)
Definition counting_limiter (s : SessionState.t) (key : string)
    (st : gmap string (SessionState.t * int64) * gmap string Z)
    : (bool * Z) * SessionState.t * (gmap string (SessionState.t * int64) * gmap string Z) :=
  ((true, 0), s, (fst st, <[key := 1 + default 0 (snd st !! key)]> (snd st))).

Definition refusing_limiter (s : SessionState.t) (key : string)
    (st : gmap string (SessionState.t * int64) * gmap string Z)
    : (bool * Z) * SessionState.t * (gmap string (SessionState.t * int64) * gmap string Z) :=
  ((false, 1), SessionState.set_ApplyPolicyID "seen" s, st).

Definition no_monitor (s : SessionState.t) (key : string) : list Event := [].

(** A file system with an empty policy document and a corrupt one. *)
Definition ioutil_ReadFile (path : string) : string * error :=
  if str_eqb path "empty.json" then ("{}", None)
  else if str_eqb path "corrupt.json" then ("{oops", None)
  else ("", Some (LibraryError "open: no such file or directory")).

Definition json_Unmarshal_policies (contents : string) (m : GoMap Policy.t)
    : GoMap Policy.t * error :=
  if str_eqb contents "{}" then (m, None)
  else (m, Some (LibraryError "invalid character 'o' looking for beginning of object key string")).
End Ex.

(** * More of the code

    The vocabulary of the further properties, and the parts of the source
    files that the middlewares above do not call. *)

(** Whether a JWK answers a key id and a key type: the two tests of the
    loop of [getSecretFromURL]. *)
Definition jwk_matches (kid keyType : string) (k : JWK) : bool :=
  str_eqb (KID k) kid && str_eqb (ToLower (Kty k)) (ToLower keyType).

(** What the loop returns at the JWK it stops at. *)
Definition cert_of (b64_DecodeString : string → bytes * error) (k : JWK) : bytes * error :=
  match X5c k with
  | x5c0 :: _ =>
      match b64_DecodeString x5c0 with
      | (_, Some e) => ([], Some e)
      | (decodedCert, None) => (decodedCert, None)
      end
  | [] => ([], Some (errors_New "No certificates in JWK!"))
  end.

(** The identity [getIdentityFomToken] finds in a token when it returns:
    the [kid] of the header, else the [sub] claim. *)
Definition direct_identity (token : Token) : option string :=
  match iface_at (Header token) "kid" with
  | JString kid => Some kid
  | JNull =>
      match iface_at (Claims token) "sub" with
      | JString sub => Some sub
      | _ => None
      end
  | _ => None
  end.

(** The event and the world of a refused authentication. *)
Definition auth_failure (r : Request) : Event :=
  {| ev_kind := EVENT_AuthFailure; ev_message := "Auth Failure";
     ev_path := URL_Path r; ev_origin := RemoteAddr r; ev_key := "" |}.

Definition refused (r : Request) (w : World) : World :=
  set_health (λ hs, (hs ++ [(KeyFailure, "1")])%list)
    (set_goroutines (λ gs, (gs ++ [go_FireEvent (auth_failure r)])%list) w).

(** ** The local session cache *)

(** [config.LocalSessionCache], in seconds. *)
Record LocalSessionCacheConf := {
  CachedSessionTimeout : Z;
  CacheSessionEviction : Z
}.

(** [time.Second]: a [time.Duration] is an [int64] of nanoseconds. *)
Definition time_Second : Z := 1000000000.

(** The product of two [int64], which wraps around. *)
Definition mul64 (a b : Z) : Z := (a * b + 2 ^ 63) mod 2 ^ 64 - 2 ^ 63.

(** [func SetUpSessionCache() *cache.Cache], on a platform whose [int] has
    64 bits: the default expiration and the cleanup interval it hands to
    [cache.New]. *)
Definition SetUpSessionCache (c : LocalSessionCacheConf) : Z * Z :=
  let sessionLength := 10 in
  let evictionTime := 5 in
  let sessionLength :=
    if (CachedSessionTimeout c >? 0)%Z then CachedSessionTimeout c else sessionLength in
  let evictionTime :=
    if (CacheSessionEviction c >? 0)%Z then CacheSessionEviction c else evictionTime in
  (mul64 sessionLength time_Second, mul64 evictionTime time_Second).

(** ** The policy loaders *)

(** [bson.ObjectId.Hex()]: the bytes of the id in lowercase hexadecimal,
    through the same table of digits as [%x]. *)
Definition ObjectId_Hex (id : string) : string := Sprintf_x (bytes_of_string id).

(** [p.ID = id] *)
Definition Policy_set_ID (id : string) (p : Policy.t) : Policy.t := {|
  Policy.MID := Policy.MID p; Policy.ID := id; Policy.OrgID := Policy.OrgID p;
  Policy.Rate := Policy.Rate p; Policy.Per := Policy.Per p;
  Policy.QuotaMax := Policy.QuotaMax p;
  Policy.QuotaRenewalRate := Policy.QuotaRenewalRate p;
  Policy.PolicyPerAPI := Policy.PolicyPerAPI p;
  Policy.AccessRights := Policy.AccessRights p;
  Policy.HMACEnabled := Policy.HMACEnabled p; Policy.Active := Policy.Active p;
  Policy.IsInactive := Policy.IsInactive p; Policy.Tags := Policy.Tags p;
  Policy.KeyExpiresIn := Policy.KeyExpiresIn p |}.

(** The loop [for _, p := range dbPolicyList] that ends
    [LoadPoliciesFromMongo] and [LoadPoliciesFromRPC]. *)
Definition index_policies (dbPolicyList : list Policy.t) (policies : gmap string Policy.t)
    : gmap string Policy.t :=
  fold_left
    (λ policies p,
       let p := Policy_set_ID (ObjectId_Hex (Policy.MID p)) p in
       <[ObjectId_Hex (Policy.MID p) := p]> policies)
    dbPolicyList policies.

Section Loaders.
(** The RPC store, [json.Unmarshal] into a slice of policies (which may
    have decoded part of the list when it fails), and Mongo: whether the
    dial of a given attempt succeeds, and what the query for the active
    policies of a collection gives on the session of that attempt. The
    lines written to the log are left out. *)
Variable rpc_GetPolicies : string → string.
Variable json_Unmarshal_policy_list : string → list Policy.t * error.
Variable mgo_Dial : nat → bool.
Variable mgo_Find_active : nat → string → list Policy.t * error.

(** [func LoadPoliciesFromRPC(orgId string) map[string]Policy] *)
Definition LoadPoliciesFromRPC (orgId : string) : GoMap Policy.t :=
  let policies : gmap string Policy.t := ∅ in
  let rpcPolicies := rpc_GetPolicies orgId in
  let '(dbPolicyList, jErr1) := json_Unmarshal_policy_list rpcPolicies in
  match jErr1 with
  | Some _ => Some policies
  | None => Some (index_policies dbPolicyList policies)
  end.

(** [func LoadPoliciesFromMongo(collectionName string) map[string]Policy],
    which calls itself again when the dial fails: [attempt] counts the
    dials made so far, [fuel] bounds the dials still allowed, and [None] is
    a call that has not returned within them. *)
Fixpoint LoadPoliciesFromMongo (fuel attempt : nat) (collectionName : string)
    : option (GoMap Policy.t) :=
  match fuel with
  | O => None
  | S fuel' =>
      let policies : gmap string Policy.t := ∅ in
      if negb (mgo_Dial attempt) then
        LoadPoliciesFromMongo fuel' (S attempt) collectionName
      else
        let '(dbPolicyList, mongoErr) := mgo_Find_active attempt collectionName in
        match mongoErr with
        | Some _ => Some (Some policies)
        | None => Some (Some (index_policies dbPolicyList policies))
        end
  end.
End Loaders.

(** ** The success handler *)

(** What [RecordHit] reads of the API definition and of the configuration
    besides the fields above, of a request besides [Request], and of the
    clock. *)
Record TrackingSpec := {
  DoNotTrack : bool;
  ExpireAnalyticsAfter : int64;
  Name : string
}.

Record AnalyticsConf := {
  EnableDetailedRecording : bool;
  EnforceOrgDataAge : bool
}.

Record HttpRequest := {
  request : Request;
  Method_ : string;
  ContentLength : int64
}.

Record Time := {
  Day : Z; Month : Z; Year : Z; Hour : Z; UnixNano : Z
}.

Module AnalyticsRecord.
(** Modelled from the spec: [AnalyticsRecord] is declared outside src/;
    the fields are those of the literal in [RecordHit], in its order, and
    [Expiry] is the argument of [SetExpiry]. *)
Record t := {
  Method : string;
  Path : string;
  ContentLength : int64;
  UserAgent : string;
  Day : Z;
  Month : Z;
  Year : Z;
  Hour : Z;
  ResponseCode : Z;
  APIKey : string;
  TimeStamp : Time;
  APIVersion : string;
  APIName : string;
  APIID : string;
  OrgID : string;
  OauthID : string;
  RequestTime : int64;
  RawRequest : string;
  RawResponse : string;
  Tags : list string;
  ExpireAt : Time;
  Expiry : int64
}.
End AnalyticsRecord.

(** [context.Clear(r)] *)
Definition context_Clear : State unit :=
  λ w, (tt, set_context (λ _, ∅) w).

(** [strconv.FormatInt(i, 10)] *)
Definition FormatInt (i : int64) : string := pretty i.

Section SuccessHandler.
Variable Spec : APISpec.
Variable tracking : TrackingSpec.
Variable analyticsConf : AnalyticsConf.
(** [config.StoreAnalytics(r)], [s.Spec.getVersionFromRequest(r)], the
    two readings of [time.Now()], the base64 of the wire format of the
    copies, and [s.Spec.OrgSessionManager.GetSessionDetail]. *)
Variable StoreAnalytics : HttpRequest → bool.
Variable getVersionFromRequest : HttpRequest → string.
Variable now now' : Time.
Variable wire_request : HttpRequest → string.
Variable wire_response : Z → string.
Variable OrgSessionManager_GetSessionDetail : string → SessionState.t * bool.

(** [func (t TykMiddleware) GetOrgSession(key string) (SessionState, bool)] *)
Definition GetOrgSession (key : string) : SessionState.t * bool :=
  let '(thisSession, found) := OrgSessionManager_GetSessionDetail key in
  if found then (thisSession, true) else (thisSession, found).

(** [func (s SuccessHandler) RecordHit(w, r, timing, code, requestCopy,
    responseCopy)]. A response copy is given by its status code. The
    record handed to [go analytics.RecordHit], if any, is the result; the
    heap profile written when [doMemoryProfile] is set is outside the
    world. *)
Definition RecordHit (r : HttpRequest) (timing : int64) (code : Z)
    (requestCopy : option HttpRequest) (responseCopy : option Z)
    : Go (option AnalyticsRecord.t) :=
  if DoNotTrack tracking then go_ret None
  else
    (thisRecord <-
       (if StoreAnalytics r then
          λ w,
            let t := now in
            match context w !! AuthHeaderValue with
            | Some (CtxSession _) =>
                (Panicked "interface conversion: interface {} is not string", w)
            | authHeaderValue =>
                let keyName :=
                  match authHeaderValue with
                  | Some (CtxString k) => k
                  | _ => ""
                  end in
                let version := getVersionFromRequest r in
                let version := if str_eqb version "" then "Non Versioned" else version in
                match context w !! SessionData with
                | Some (CtxString _) =>
                    (Panicked "interface conversion: interface {} is not main.SessionState", w)
                | thisSessionState =>
                    let '(OauthClientID, tags) :=
                      match thisSessionState with
                      | Some (CtxSession s) =>
                          (SessionState.OauthClientID s, SessionState.Tags s)
                      | _ => ("", [])
                      end in
                    let '(rawRequest, rawResponse) :=
                      if EnableDetailedRecording analyticsConf then
                        (match requestCopy with
                         | Some c => wire_request c
                         | None => ""
                         end,
                         match responseCopy with
                         | Some c => wire_response c
                         | None => ""
                         end)
                      else ("", "") in
                    let expiresAfter := ExpireAnalyticsAfter tracking in
                    let expiresAfter :=
                      if EnforceOrgDataAge analyticsConf then
                        let '(orgSessionState, found) := GetOrgSession (OrgID Spec) in
                        if found then
                          if (SessionState.DataExpires orgSessionState >? 0)%Z
                          then SessionState.DataExpires orgSessionState
                          else expiresAfter
                        else expiresAfter
                      else expiresAfter in
                    (Returned (Some {|
                       AnalyticsRecord.Method := Method_ r;
                       AnalyticsRecord.Path := URL_Path (request r);
                       AnalyticsRecord.ContentLength := ContentLength r;
                       AnalyticsRecord.UserAgent := Header_Get (request r) "User-Agent";
                       AnalyticsRecord.Day := Day t;
                       AnalyticsRecord.Month := Month t;
                       AnalyticsRecord.Year := Year t;
                       AnalyticsRecord.Hour := Hour t;
                       AnalyticsRecord.ResponseCode := code;
                       AnalyticsRecord.APIKey := keyName;
                       AnalyticsRecord.TimeStamp := t;
                       AnalyticsRecord.APIVersion := version;
                       AnalyticsRecord.APIName := Name tracking;
                       AnalyticsRecord.APIID := APIID Spec;
                       AnalyticsRecord.OrgID := OrgID Spec;
                       AnalyticsRecord.OauthID := OauthClientID;
                       AnalyticsRecord.RequestTime := timing;
                       AnalyticsRecord.RawRequest := rawRequest;
                       AnalyticsRecord.RawResponse := rawResponse;
                       AnalyticsRecord.Tags := tags;
                       AnalyticsRecord.ExpireAt := now';
                       AnalyticsRecord.Expiry := expiresAfter |}), w)
                end
            end
        else go_ret None);;
     lift (ReportHealthCheckValue RequestLog (FormatInt timing));;
     lift context_Clear;;
     go_ret thisRecord)%go.

End SuccessHandler.

(** The answer of the central-authority branch when no policy can be
    applied, and the world with a session and its key bound in the request
    context. *)
Definition no_policy : error * Z :=
  (Some (errors_New "Key not authorized: no matching policy"), 403%Z).

Definition bound (s : SessionState.t) (key : string) (w : World) : World :=
  set_context (insert AuthHeaderValue (CtxString key))
    (set_context (insert SessionData (CtxSession s)) w).

(** ** More of the example gateway

    The same API in direct mode and with an inline source, a token signed
    with a session secret, key sets, policies over RPC and Mongo, and a
    tracked request. *)

Module Ex2.
Definition SpecDirect : APISpec := {|
  APIID := "A1"; OrgID := "O1"; JWTSource := "";
  JWTSigningMethod := "hmac"; JWTIdentityBaseField := "";
  JWTPolicyFieldName := ""; SessionLifetime := 3600;
  Auth := {| AuthHeaderName := "Authorization"; UseParam := false; UseCookie := false |} |}.

Definition SpecInline : APISpec := {|
  APIID := "A1"; OrgID := "O1"; JWTSource := "Y2VydA==";
  JWTSigningMethod := "rsa"; JWTIdentityBaseField := "email";
  JWTPolicyFieldName := "pol"; SessionLifetime := 3600;
  Auth := {| AuthHeaderName := "Authorization"; UseParam := false; UseCookie := false |} |}.

Definition SpecCookie : APISpec := {|
  APIID := "A1"; OrgID := "O1"; JWTSource := "";
  JWTSigningMethod := "hmac"; JWTIdentityBaseField := "";
  JWTPolicyFieldName := ""; SessionLifetime := 3600;
  Auth := {| AuthHeaderName := "Authorization"; UseParam := false; UseCookie := true |} |}.

Definition config_async : Config := {|
  UseAsyncSessionWrite := true; MonitorUserKeys := false;
  DisableCacheSessionState := false |}.

Definition config_nocache : Config := {|
  UseAsyncSessionWrite := false; MonitorUserKeys := false;
  DisableCacheSessionState := true |}.

(** A token signed with the secret of the session of its [kid]. *)
Definition token_h : Token := {|
  Raw := "tok-h"; Method := SigningMethodHMAC;
  Header := {[ "alg" := JString "HS256"; "kid" := JString "k1" ]};
  Claims := {[ "sub" := JString "someone" ]};
  Valid := false |}.

Definition jwt_decode (raw : string) : Decoded :=
  if str_eqb raw "tok-h" then DecodedToken token_h else Ex.jwt_decode raw.

Definition jwt_verify (t : Token) (key : bytes) : error :=
  if bool_decide (key = bytes_of_string "s3cr3t") then None else Ex.jwt_verify t key.

Definition jwt_reject (t : Token) (key : bytes) : error :=
  Some (LibraryError "signature is invalid").

Definition session_k1 : SessionState.t :=
  SessionState.set_ApplyPolicyID "P1" (Ex.base "A1" "P_fast").

Definition w_k1 : World := Ex.with_session "k1" session_k1 Ex.w0.

Definition w_cached : World := set_SessionCache (insert "k1" session_k1) Ex.w0.

Definition stripped : SessionState.t :=
  SessionState.overlay (Ex.P1 "O1") SessionState.zero.

Definition w_materialised : World :=
  Ex.with_session "k1.API-A1" stripped
    (Ex.with_session "k1" (Ex.base "A1" "P_fast") Ex.w0).

Definition jwk (kid kty : string) (x5c : list string) : JWK :=
  {| Alg := ""; Kty := kty; Use := "sig"; X5c := x5c; KID := kid |}.

Definition policy_with_MID (mid org : string) : Policy.t := {|
  Policy.MID := mid; Policy.ID := ""; Policy.OrgID := org;
  Policy.Rate := Ex.f5; Policy.Per := Ex.f60; Policy.QuotaMax := 100;
  Policy.QuotaRenewalRate := 3600; Policy.PolicyPerAPI := None;
  Policy.AccessRights := None; Policy.HMACEnabled := false;
  Policy.Active := true; Policy.IsInactive := false;
  Policy.Tags := []; Policy.KeyExpiresIn := 0 |}.

Definition rpc_GetPolicies (orgId : string) : string := "[...]".

Definition json_Unmarshal_policy_list (doc : string) : list Policy.t * error :=
  if str_eqb doc "[...]"
  then ([policy_with_MID "ab" "O1"; policy_with_MID "cd" "O1"; policy_with_MID "ab" "O2"], None)
  else ([], Some (LibraryError "unexpected end of JSON input")).

(** The first two dials fail. *)
Definition mgo_Dial (attempt : nat) : bool := (2 <=? attempt)%nat.

Definition mgo_Find_active (attempt : nat) (collection : string) : list Policy.t * error :=
  ([policy_with_MID "ab" "O1"], None).

Definition tracking : TrackingSpec :=
  {| DoNotTrack := false; ExpireAnalyticsAfter := 0; Name := "api one" |}.

Definition analyticsConf : AnalyticsConf :=
  {| EnableDetailedRecording := false; EnforceOrgDataAge := true |}.

Definition StoreAnalytics (r : HttpRequest) : bool := true.
Definition getVersionFromRequest (r : HttpRequest) : string := "".
Definition noon : Time := {| Day := 2; Month := 11; Year := 2026; Hour := 12; UnixNano := 0 |}.
Definition wire_request (r : HttpRequest) : string := "R0VU".
Definition wire_response (code : Z) : string := "SFRUUA==".

Definition org_session : SessionState.t := {|
  SessionState.Allowance := 0; SessionState.Rate := 0; SessionState.Per := 0;
  SessionState.QuotaMax := 0; SessionState.QuotaRemaining := 0;
  SessionState.QuotaRenewalRate := 0; SessionState.QuotaRenews := 0;
  SessionState.PolicyPerAPI := None; SessionState.AccessRights := None;
  SessionState.HMACEnabled := false; SessionState.IsInactive := false;
  SessionState.Tags := []; SessionState.ApplyPolicyID := "";
  SessionState.OauthClientID := ""; SessionState.JWTData_Secret := "";
  SessionState.DataExpires := 86400 |}.

Definition OrgSessionManager_GetSessionDetail (org : string) : SessionState.t * bool :=
  if str_eqb org "O1" then (org_session, true) else (SessionState.zero, false).

Definition hit : HttpRequest :=
  {| request := Ex.request "Bearer tok-a"; Method_ := "GET"; ContentLength := 0 |}.

(** An AuthStore that knows the key [k2]. *)
Definition IsKeyAuthorised (key : string) : SessionState.t * bool :=
  if str_eqb key "k2" then (session_k1, true) else (SessionState.zero, false).

Definition cacheConf : LocalSessionCacheConf :=
  {| CachedSessionTimeout := 0; CacheSessionEviction := 30 |}.
End Ex2.

(** * Properties *)

Section Facts.
Set Default Proof Using "Type".

Variable Spec : APISpec.
Variable config : Config.
Variable Policies : GoMap Policy.t.
Variable IsKeyAuthorised : string → SessionState.t * bool.
Variable http_Get : string → string * error.
Variable ioutil_ReadAll : string → string * error.
Variable json_Unmarshal_JWKs : string → JWKs * error.
Variable b64_DecodeString : string → bytes * error.
Variable stripBearer : string → string.
Variable jwt_decode : string → Decoded.
Variable jwt_verify : Token → bytes → error.
Variable ForwardMessage :
  SessionState.t → string →
  gmap string (SessionState.t * int64) * gmap string Z →
  (bool * Z) * SessionState.t * (gmap string (SessionState.t * int64) * gmap string Z).
Variable sessionMonitor_Check : SessionState.t → string → list Event.
Variable ioutil_ReadFile : string → string * error.
Variable json_Unmarshal_policies : string → GoMap Policy.t → GoMap Policy.t * error.

Local Abbreviation secretFromURL :=
  (getSecretFromURL Spec http_Get ioutil_ReadAll json_Unmarshal_JWKs b64_DecodeString).
Local Abbreviation secret :=
  (getSecret Spec config Policies IsKeyAuthorised
     http_Get ioutil_ReadAll json_Unmarshal_JWKs b64_DecodeString).
Local Abbreviation key_func :=
  (keyFunc Spec config Policies IsKeyAuthorised
     http_Get ioutil_ReadAll json_Unmarshal_JWKs b64_DecodeString).
Local Abbreviation central := (centralised Spec config Policies IsKeyAuthorised).
Local Abbreviation JWT_ProcessRequest :=
  (JWTMiddleware_ProcessRequest Spec config Policies IsKeyAuthorised
     http_Get ioutil_ReadAll json_Unmarshal_JWKs b64_DecodeString
     stripBearer jwt_decode jwt_verify).
Local Abbreviation rateLimiting :=
  (applyRateLimiting config ForwardMessage sessionMonitor_Check).
Local Abbreviation RateLimit_ProcessRequest :=
  (RateLimitAndQuotaCheck_ProcessRequest Spec config ForwardMessage sessionMonitor_Check).
Local Abbreviation LoadPolicies :=
  (LoadPoliciesFromFile ioutil_ReadFile json_Unmarshal_policies).

Local Abbreviation ApplyPolicy := (ApplyPolicyIfExists Spec Policies).
Local Abbreviation csvk := (checkSessionAndValidateKey Spec config Policies IsKeyAuthorised).
Local Abbreviation CSI := (CheckSessionAndIdentityForValidKey Spec config Policies IsKeyAuthorised).
Local Abbreviation policy_of := (policy_for Spec Policies).
Local Abbreviation applied_ := (applied Spec Policies).
Local Abbreviation resolve_ := (resolve Spec config Policies IsKeyAuthorised).

Lemma str_eqb_true a b : str_eqb a b = true ↔ a = b.
Proof. unfold str_eqb. apply bool_decide_eq_true. Qed.

Lemma str_eqb_false a b : str_eqb a b = false ↔ a ≠ b.
Proof. unfold str_eqb. apply bool_decide_eq_false. Qed.

(** *** Policy overlay *)

Lemma ApplyPolicyIfExists_eq key s strip w :
  ApplyPolicy key s strip w =
  match policy_of s with
  | Some p =>
      let s' := if strip
                then SessionState.set_ApplyPolicyID "" (SessionState.overlay p s)
                else SessionState.overlay p s in
      (s', set_sessions (insert key (s', SessionLifetime Spec)) w)
  | None => (s, w)
  end.
Proof.
  unfold ApplyPolicyIfExists, policy_for.
  destruct (str_eqb (SessionState.ApplyPolicyID s) ""); simpl; [reflexivity|].
  destruct (index_ok Policies (SessionState.ApplyPolicyID s)) as [p|]; [|reflexivity].
  destruct (str_eqb (Policy.OrgID p) (OrgID Spec)); simpl; [|reflexivity].
  destruct strip; reflexivity.
Qed.

Lemma policy_for_Some s p :
  policy_of s = Some p ↔
  SessionState.ApplyPolicyID s ≠ "" ∧
  index_ok Policies (SessionState.ApplyPolicyID s) = Some p ∧
  Policy.OrgID p = OrgID Spec.
Proof.
  unfold policy_for.
  destruct (str_eqb (SessionState.ApplyPolicyID s) "") eqn:E.
  - apply str_eqb_true in E. split; [discriminate|]. intros (H & _). contradiction.
  - apply str_eqb_false in E.
    destruct (index_ok Policies (SessionState.ApplyPolicyID s)) as [q|].
    + destruct (str_eqb (Policy.OrgID q) (OrgID Spec)) eqn:O.
      * apply str_eqb_true in O. split.
        -- intros [= ->]. auto.
        -- intros (_ & [= ->] & _). reflexivity.
      * apply str_eqb_false in O. split; [discriminate|].
        intros (_ & [= ->] & H). contradiction.
    + split; [discriminate|]. intros (_ & H & _). discriminate.
Qed.

Lemma policy_for_overlay p s :
  policy_of (SessionState.overlay p s) = policy_of s.
Proof. reflexivity. Qed.

Lemma applied_idem s : applied_ (applied_ s) = applied_ s.
Proof.
  unfold applied. destruct (policy_of s) as [p|] eqn:E.
  - rewrite policy_for_overlay, E. reflexivity.
  - rewrite E. reflexivity.
Qed.

Lemma overlay_overlayed p s : SessionState.overlayed_from p (SessionState.overlay p s).
Proof. repeat split. Qed.

(** *** The ladder *)

Ltac ladder key w :=
  unfold checkSessionAndValidateKey, resolve, applied, bind, ret,
    SessionCache_Get, GetSessionDetail, spawn, UpdateSession;
  destruct (DisableCacheSessionState config) eqn:?; simpl;
  repeat first
    [ rewrite ApplyPolicyIfExists_eq
    | match goal with
      | |- context [SessionCache w !! key] =>
          destruct (SessionCache w !! key) eqn:?; simpl
      | |- context [sessions w !! key] =>
          destruct (sessions w !! key) as [[??]|] eqn:?; simpl
      | |- context [IsKeyAuthorised key] =>
          destruct (IsKeyAuthorised key) as [? [|]] eqn:?; simpl
      | |- context [policy_for Spec Policies ?x] =>
          destruct (policy_for Spec Policies x) eqn:?; simpl
      end ].

Lemma csvk_fst key w :
  fst (csvk key w) = resolve_ key (SessionCache w !! key) (sessions w !! key).
Proof. ladder key w; reflexivity. Qed.

Lemma csvk_frame key w :
  let w' := snd (csvk key w) in
  SessionCache w' = SessionCache w ∧ counters w' = counters w ∧
  JWKCache w' = JWKCache w ∧ context w' = context w ∧
  fired w' = fired w ∧ health w' = health w ∧
  ∀ k, k ≠ key → sessions w' !! k = sessions w !! k.
Proof.
  ladder key w; repeat split; auto; intros k Hk;
    rewrite ?lookup_insert_ne by congruence; reflexivity.
Qed.

(** What the ladder queues: at most the one write of the key to the
    local cache. *)
Lemma csvk_spawn key w :
  ∃ gs, goroutines (snd (csvk key w)) = (goroutines w ++ gs)%list ∧
        (gs = [] ∨ ∃ s, gs = [go_SessionCache_Set key s]).
Proof.
  ladder key w; eauto using app_nil_r.
  all: try (exists []; rewrite app_nil_r; auto).
Qed.

(** A miss changes nothing. *)
Lemma csvk_miss key w :
  snd (fst (csvk key w)) = false → snd (csvk key w) = w.
Proof. ladder key w; try discriminate; reflexivity. Qed.

Lemma app_eq_self {A} (l gs : list A) : l = (l ++ gs)%list → gs = [].
Proof.
  intros H. apply (app_inv_head l). rewrite app_nil_r. symmetry. exact H.
Qed.

(** What the first call leaves for the key, case by case. *)
Lemma csvk_cases key w :
  let w1 := snd (csvk key w) in
  match (if DisableCacheSessionState config then None else SessionCache w !! key) with
  | Some c =>
      goroutines w1 = goroutines w ∧
      sessions w1 !! key =
        match policy_of c with
        | Some p => Some (SessionState.overlay p c, SessionLifetime Spec)
        | None => sessions w !! key
        end
  | None =>
      match sessions w !! key with
      | Some (s, ttl) =>
          goroutines w1 = (goroutines w ++ [go_SessionCache_Set key s])%list ∧
          sessions w1 !! key =
            Some (match policy_of s with
                  | Some p => (SessionState.overlay p s, SessionLifetime Spec)
                  | None => (s, ttl)
                  end)
      | None =>
          match IsKeyAuthorised key with
          | (s, true) =>
              goroutines w1 = (goroutines w ++ [go_SessionCache_Set key s])%list ∧
              sessions w1 !! key = Some (applied_ s, SessionLifetime Spec)
          | (s, false) => w1 = w
          end
      end
  end.
Proof.
  ladder key w; rewrite ?lookup_insert_eq; auto.
Qed.

(** The second answer of the ladder: the world [w2] holds for the key
    what the first call left in the store, and in the local cache either
    what was there or what the first call queued for it. *)
Lemma csvk_again key w w2 gs :
  goroutines (snd (csvk key w)) = (goroutines w ++ gs)%list →
  sessions w2 !! key = sessions (snd (csvk key w)) !! key →
  (SessionCache w2 !! key = SessionCache w !! key ∨
   ∃ s, In (go_SessionCache_Set key s) gs ∧ SessionCache w2 !! key = Some s) →
  fst (csvk key w2) = fst (csvk key w).
Proof.
  intros Hgs Hst Hc.
  rewrite (csvk_fst key w2), (csvk_fst key w), Hst. clear Hst.
  pose proof (csvk_cases key w) as Hw. simpl in Hw.
  unfold resolve.
  destruct (DisableCacheSessionState config).
  - (* the local cache is not read *)
    destruct (sessions w !! key) as [[s ttl]|] eqn:Es.
    + destruct Hw as [_ ->]. destruct (policy_of s) eqn:E; simpl.
      * unfold applied. rewrite policy_for_overlay, E. reflexivity.
      * reflexivity.
    + destruct (IsKeyAuthorised key) as [s [|]] eqn:Ea.
      * destruct Hw as [_ ->]. rewrite applied_idem. reflexivity.
      * rewrite Hw, Es. reflexivity.
  - destruct (SessionCache w !! key) as [c|] eqn:Ec.
    + (* served from the local cache both times *)
      destruct Hw as [Hg _]. rewrite Hg in Hgs. apply app_eq_self in Hgs. subst gs.
      destruct Hc as [-> | (? & [] & _)]. reflexivity.
    + destruct (sessions w !! key) as [[s ttl]|] eqn:Es.
      * destruct Hw as [Hg ->]. rewrite Hg in Hgs. apply app_inv_head in Hgs. subst gs.
        destruct Hc as [-> | (s' & [[= <-]|[]] & ->)].
        -- destruct (policy_of s) eqn:E; simpl.
           ++ unfold applied. rewrite policy_for_overlay, E. reflexivity.
           ++ reflexivity.
        -- reflexivity.
      * destruct (IsKeyAuthorised key) as [s [|]] eqn:Ea.
        -- destruct Hw as [Hg ->]. rewrite Hg in Hgs. apply app_inv_head in Hgs. subst gs.
           destruct Hc as [-> | (s' & [[= <-]|[]] & ->)].
           ++ rewrite applied_idem. reflexivity.
           ++ reflexivity.
        -- rewrite Hw in *. apply app_eq_self in Hgs. subst gs.
           destruct Hc as [-> | (? & [] & _)]. rewrite Es. reflexivity.
Qed.

(** *** Queued goroutines *)

Lemma land_from_sessions mask gs w :
  Forall is_cache_set gs → sessions (land_from mask gs w) = sessions w.
Proof.
  intros Hgs. revert mask w.
  induction Hgs as [|g gs Hg _ IH]; intros mask w; [reflexivity|].
  destruct mask as [|[|] mask]; simpl; [reflexivity| |apply IH].
  rewrite IH. destruct g; simpl in Hg; [reflexivity|contradiction..].
Qed.

Lemma land_from_cache mask gs w k :
  Forall is_cache_set gs →
  SessionCache (land_from mask gs w) !! k = SessionCache w !! k ∨
  ∃ s, In (go_SessionCache_Set k s) gs ∧
       SessionCache (land_from mask gs w) !! k = Some s.
Proof.
  intros Hgs. revert mask w.
  induction Hgs as [|g gs Hg _ IH]; intros mask w; [left; reflexivity|].
  destruct mask as [|[|] mask]; simpl.
  - left. reflexivity.
  - destruct g as [k' s'| | |]; simpl in Hg; try contradiction. simpl.
    destruct (IH mask (set_SessionCache (insert k' s') w)) as [H | (s & Hin & H)].
    + simpl in H. destruct (decide (k' = k)) as [->|Hne].
      * rewrite lookup_insert_eq in H. right. exists s'. auto.
      * rewrite lookup_insert_ne in H by exact Hne. left. exact H.
    + right. exists s. auto.
  - destruct (IH mask w) as [H | (s & Hin & H)]; [left; exact H|].
    right. exists s. auto.
Qed.

Lemma land_sessions mask w :
  Forall is_cache_set (goroutines w) → sessions (land mask w) = sessions w.
Proof. intros H. unfold land. rewrite land_from_sessions by exact H. reflexivity. Qed.

Lemma land_cache mask w k :
  Forall is_cache_set (goroutines w) →
  SessionCache (land mask w) !! k = SessionCache w !! k ∨
  ∃ s, In (go_SessionCache_Set k s) (goroutines w) ∧
       SessionCache (land mask w) !! k = Some s.
Proof.
  intros H. unfold land.
  apply (land_from_cache mask _ (set_goroutines (λ _, []) w) k H).
Qed.

(** *** Per-API sessions *)

Lemma string_length_app (a b : string) :
  String.length (a +:+ b) = (String.length a + String.length b)%nat.
Proof. induction a as [|c a IH]; simpl; [reflexivity|]. rewrite IH. reflexivity. Qed.

Lemma api_key_ne key api : key +:+ APISessionKeySuffix +:+ api ≠ key.
Proof.
  intros H. apply (f_equal String.length) in H.
  rewrite !string_length_app in H. simpl in H. lia.
Qed.

Lemma CSI_fst key w : fst (CSI key w) = fst (csvk key w).
Proof.
  unfold CheckSessionAndIdentityForValidKey, bind, ret.
  destruct (csvk key w) as [[b f] w1]; simpl.
  repeat case_match; reflexivity.
Qed.

(** Beyond the base resolution, [CheckSessionAndIdentityForValidKey]
    touches the per-API key only. *)
Lemma CSI_world key w :
  let w1 := snd (csvk key w) in
  let w3 := snd (CSI key w) in
  let apiKey := key +:+ APISessionKeySuffix +:+ APIID Spec in
  SessionCache w3 = SessionCache w1 ∧
  context w3 = context w1 ∧
  (∀ k, k ≠ apiKey → sessions w3 !! k = sessions w1 !! k) ∧
  ∃ gs, goroutines w3 = (goroutines w1 ++ gs)%list ∧
        (gs = [] ∨ ∃ s, gs = [go_SessionCache_Set apiKey s]).
Proof.
  unfold CheckSessionAndIdentityForValidKey, bind, ret.
  destruct (csvk key w) as [[b f] w1]; simpl.
  assert (Hid : SessionCache w1 = SessionCache w1 ∧ context w1 = context w1 ∧
                (∀ k, k ≠ key +:+ APISessionKeySuffix +:+ APIID Spec →
                      sessions w1 !! k = sessions w1 !! k) ∧
                ∃ gs, goroutines w1 = (goroutines w1 ++ gs)%list ∧
                      (gs = [] ∨ ∃ s, gs = [go_SessionCache_Set
                         (key +:+ APISessionKeySuffix +:+ APIID Spec) s])).
  { repeat split; auto. exists []. rewrite app_nil_r. auto. }
  destruct f; [|exact Hid].
  destruct (SessionState.PolicyPerAPI b) as [m|]; [|exact Hid].
  destruct (negb _); [|exact Hid].
  set (apiKey := key +:+ APISessionKeySuffix +:+ APIID Spec) in *.
  pose proof (csvk_frame apiKey w1) as (Hc & _ & _ & Hx & _ & _ & Hs).
  pose proof (csvk_spawn apiKey w1) as Hg.
  destruct (csvk apiKey w1) as [[pa fa] w2]; simpl in *.
  destruct fa; simpl.
  - repeat split; auto.
  - rewrite ApplyPolicyIfExists_eq.
    destruct (policy_of _); simpl; repeat split; auto.
    intros k Hk. rewrite lookup_insert_ne by congruence. auto.
Qed.

(** *** Idempotence of resolution *)

Lemma csvk_twice key w mask :
  goroutines w = [] →
  fst (csvk key (land mask (snd (csvk key w)))) = fst (csvk key w).
Proof.
  intros Hq.
  destruct (csvk_spawn key w) as (gs & Hgs & Hshape).
  pose proof (csvk_frame key w) as (Hc & _).
  assert (Hall : Forall is_cache_set (goroutines (snd (csvk key w)))).
  { rewrite Hgs, Hq. simpl. destruct Hshape as [-> | (s & ->)]; repeat constructor. }
  apply (csvk_again key w _ gs Hgs).
  - rewrite land_sessions by exact Hall. reflexivity.
  - destruct (land_cache mask _ key Hall) as [H | (s & Hin & H)].
    + left. rewrite H, Hc. reflexivity.
    + right. exists s. split; [|exact H].
      rewrite Hgs, Hq in Hin. exact Hin.
Qed.

Lemma CSI_twice key w mask :
  goroutines w = [] →
  fst (CSI key (land mask (snd (CSI key w)))) = fst (CSI key w).
Proof.
  intros Hq. rewrite !CSI_fst.
  destruct (csvk_spawn key w) as (gs & Hgs & Hshape).
  pose proof (csvk_frame key w) as (Hc & _).
  pose proof (CSI_world key w) as (Hc3 & _ & Hs3 & gs2 & Hgs2 & Hshape2).
  simpl in Hc3, Hs3, Hgs2, Hshape2.
  assert (Hall : Forall is_cache_set (goroutines (snd (CSI key w)))).
  { rewrite Hgs2, Hgs, Hq. simpl. apply Forall_app. split.
    - destruct Hshape as [-> | (s & ->)]; repeat constructor.
    - destruct Hshape2 as [-> | (s & ->)]; repeat constructor. }
  apply (csvk_again key w _ gs Hgs).
  - rewrite land_sessions by exact Hall.
    apply Hs3. intros E. symmetry in E. exact (api_key_ne _ _ E).
  - destruct (land_cache mask _ key Hall) as [H | (s & Hin & H)].
    + left. rewrite H, Hc3, Hc. reflexivity.
    + right. exists s. split; [|exact H].
      rewrite Hgs2, Hgs, Hq in Hin. simpl in Hin.
      apply in_app_or in Hin. destruct Hin as [Hin|Hin]; [exact Hin|].
      destruct Hshape2 as [-> | (s2 & ->)]; [destruct Hin|].
      destruct Hin as [[= E _]|[]]. exfalso. exact (api_key_ne _ _ E).
Qed.

(** C8. Resolving a key twice, with nothing written in between but what
    the first resolution itself wrote and queued, gives the same session
    and the same found flag, for [checkSessionAndValidateKey] and for
    [CheckSessionAndIdentityForValidKey], whichever of the queued cache
    writes have landed before the second call. *)
Theorem resolution_idempotent key w mask :
  goroutines w = [] →
  fst (csvk key (land mask (snd (csvk key w)))) = fst (csvk key w) ∧
  fst (CSI key (land mask (snd (CSI key w)))) = fst (CSI key w).
Proof. intros Hq. split; [apply csvk_twice | apply CSI_twice]; exact Hq. Qed.

(** *** Materialising the per-API session *)

Lemma csvk_other key k w :
  k ≠ key → fst (csvk k (snd (csvk key w))) = fst (csvk k w).
Proof.
  intros Hk. rewrite !csvk_fst.
  pose proof (csvk_frame key w) as (-> & _ & _ & _ & _ & _ & Hs).
  rewrite (Hs k Hk). reflexivity.
Qed.

(** C4, as the code has it. When the base session of key [K] is found and
    names a policy for the current API, no per-API session can be resolved
    yet at [K + ".API-" + apiID], and the named policy is in the registry
    under the organisation of the API, then after one call the
    SessionStore holds at that key, with the session lifetime as TTL, a
    session whose overlayed fields are those of the policy and whose
    apply-policy id is cleared; the call returns the base session. *)
Theorem per_api_session_materialised key w baseSession policy :
  let apiKey := key +:+ APISessionKeySuffix +:+ APIID Spec in
  let apiPolicyID := index "" (SessionState.PolicyPerAPI baseSession) (APIID Spec) in
  fst (csvk key w) = (baseSession, true) →
  apiPolicyID ≠ "" →
  snd (fst (csvk apiKey w)) = false →
  index_ok Policies apiPolicyID = Some policy →
  Policy.OrgID policy = OrgID Spec →
  fst (CSI key w) = (baseSession, true) ∧
  ∃ s, sessions (snd (CSI key w)) !! apiKey = Some (s, SessionLifetime Spec) ∧
       SessionState.overlayed_from policy s ∧
       SessionState.ApplyPolicyID s = "".
Proof.
  intros apiKey apiPolicyID Hbase Hid Hmiss Hpol Horg.
  split; [rewrite CSI_fst; exact Hbase|].
  pose proof (csvk_other key apiKey w (api_key_ne key (APIID Spec))) as Hsame.
  unfold CheckSessionAndIdentityForValidKey, bind, ret.
  destruct (csvk key w) as [[b f] w1]; simpl in *.
  injection Hbase as -> ->.
  destruct (SessionState.PolicyPerAPI baseSession) as [m|] eqn:Em;
    [|contradiction Hid; reflexivity].
  fold apiPolicyID. apply str_eqb_false in Hid. rewrite Hid. simpl.
  fold apiKey.
  destruct (csvk apiKey w1) as [[pa fa] w2]; simpl in *.
  rewrite <- Hsame in Hmiss. simpl in Hmiss. subst fa.
  simpl. rewrite ApplyPolicyIfExists_eq.
  assert (Hp : policy_of (SessionState.set_ApplyPolicyID apiPolicyID pa) = Some policy).
  { apply policy_for_Some. simpl. apply str_eqb_false in Hid. auto. }
  rewrite Hp. simpl. rewrite lookup_insert_eq.
  eexists. split; [reflexivity|]. split; [repeat split|reflexivity].
Qed.

(** *** C1, the overlay half *)

Lemma ApplyPolicyIfExists_cross_org key s strip w policy :
  index_ok Policies (SessionState.ApplyPolicyID s) = Some policy →
  Policy.OrgID policy ≠ OrgID Spec →
  ApplyPolicy key s strip w = (s, w).
Proof.
  intros Hp Ho. rewrite ApplyPolicyIfExists_eq.
  destruct (policy_of s) as [q|] eqn:E; [|reflexivity].
  apply policy_for_Some in E as (_ & E & Hq). congruence.
Qed.

Lemma ApplyPolicyIfExists_changed key s strip w :
  ApplyPolicy key s strip w ≠ (s, w) →
  ∃ policy, index_ok Policies (SessionState.ApplyPolicyID s) = Some policy ∧
            Policy.OrgID policy = OrgID Spec.
Proof.
  rewrite ApplyPolicyIfExists_eq.
  destruct (policy_of s) as [q|] eqn:E; [|congruence].
  apply policy_for_Some in E as (_ & E & Hq). eauto.
Qed.

(** *** Hexadecimal and MD5 *)

Lemma digit_at_hex n :
  (0 ≤ n < 16)%Z → digit_at n = String (hex_digit n) "".
Proof.
  intros H.
  assert (n = 0 ∨ n = 1 ∨ n = 2 ∨ n = 3 ∨ n = 4 ∨ n = 5 ∨ n = 6 ∨ n = 7 ∨
          n = 8 ∨ n = 9 ∨ n = 10 ∨ n = 11 ∨ n = 12 ∨ n = 13 ∨ n = 14 ∨ n = 15)%Z
    as Hn by lia.
  repeat (destruct Hn as [-> | Hn]; [reflexivity|]). subst n. reflexivity.
Qed.

Lemma Sprintf_x_hex_lower b :
  Forall byte_range b → Sprintf_x b = hex_lower b.
Proof.
  unfold hex_lower. induction 1 as [|c b Hc _ IH]; [reflexivity|].
  unfold byte_range in Hc. simpl. rewrite IH.
  rewrite Z.shiftr_div_pow2 by lia.
  change 15%Z with (Z.ones 4). rewrite Z.land_ones by lia.
  change (2 ^ 4)%Z with 16%Z.
  rewrite !digit_at_hex; [reflexivity| |].
  - apply Z.mod_pos_bound. lia.
  - split; [apply Z.div_pos; lia | apply Z.div_lt_upper_bound; lia].
Qed.

Lemma le_bytes_range n x : Forall byte_range (md5.le_bytes n x).
Proof.
  revert x. induction n as [|n IH]; intros x; simpl; constructor; [|apply IH].
  unfold byte_range. apply Z.mod_pos_bound. lia.
Qed.

Lemma md5_Sum_range data : Forall byte_range (md5.Sum data).
Proof.
  unfold md5.Sum. destruct (md5.blocks _ _ _) as [[[a b] c] d].
  repeat (apply Forall_app; split); apply le_bytes_range.
Qed.

Lemma md5_Sum_length data : length (md5.Sum data) = 16%nat.
Proof.
  unfold md5.Sum. destruct (md5.blocks _ _ _) as [[[a b] c] d]. reflexivity.
Qed.

(** *** Key retrieval *)

(** On a cold cache, when the GET and the read of the body succeed and
    the body does not decode, [getSecretFromURL] returns no key and the nil
    error. *)
Lemma getSecretFromURL_decode_error url kid keyType w response contents keys decErr :
  index_ok (JWKCache w) (APIID Spec) = None →
  http_Get url = (response, None) →
  ioutil_ReadAll response = (contents, None) →
  json_Unmarshal_JWKs contents = (keys, Some decErr) →
  fst (secretFromURL url kid keyType w) = ([], None).
Proof.
  intros Hc Hg Hr Hd.
  unfold getSecretFromURL, bind, ret, JWKCache_init, JWKCache_Get.
  destruct (JWKCache w) as [c|] eqn:E; simpl.
  - rewrite E. simpl in *. rewrite Hc, Hg, Hr, Hd. reflexivity.
  - rewrite lookup_empty, Hg, Hr, Hd. reflexivity.
Qed.

(** With a JWKS endpoint as source and no [kid] in the header of the
    token, [getSecret] panics on the type assertion. *)
Lemma getSecret_missing_kid token w :
  source_is_URL Spec = true →
  iface_at (Header token) "kid" = JNull →
  secret token w =
    (Panicked "interface conversion: interface {} is nil, not string", w).
Proof.
  unfold source_is_URL, getSecret. intros Hs Hk.
  apply andb_true_iff in Hs as [-> ->]. rewrite Hk. reflexivity.
Qed.

(** *** Central-authority mode *)

Lemma CSI_miss key w :
  snd (fst (CSI key w)) = false → snd (CSI key w) = w.
Proof.
  pose proof (csvk_miss key w) as Hm.
  unfold CheckSessionAndIdentityForValidKey, bind, ret.
  destruct (csvk key w) as [[b f] w1]; simpl in *.
  destruct f; simpl.
  - repeat (case_match; simpl); discriminate.
  - intros _. apply Hm. reflexivity.
Qed.

Ltac identity token b :=
  unfold centralised, identity_base;
  destruct (iface_at (Claims token) (JWTIdentityBaseField Spec))
    as [|b|num|flag|];
  simpl;
  try (destruct (iface_at (Claims token) "sub") as [|b|num'|flag'|]; simpl);
  try discriminate.

Lemma centralised_cross_org token w b pid policy :
  identity_base Spec token = Some b →
  snd (fst (CSI (OrgID Spec +:+ Sprintf_x (md5.Sum (bytes_of_string b))) w)) = false →
  iface_at (Claims token) (JWTPolicyFieldName Spec) = JString pid →
  index_ok Policies pid = Some policy →
  Policy.OrgID policy ≠ OrgID Spec →
  central token w =
    ((Some (errors_New "Key not authorized: no matching policy"), 403%Z), w).
Proof.
  intros Hid Hmiss Hclaim Hpol Horg. apply str_eqb_false in Horg.
  pose proof (CSI_miss _ _ Hmiss) as Hw.
  revert Hid. identity token b'; intros [= ->]; unfold bind;
    destruct (CSI _ w) as [[s0 fnd] w1]; simpl in *; subst fnd w1; simpl;
    rewrite Hclaim; simpl; rewrite Hpol, Horg; reflexivity.
Qed.

Lemma centralised_200 token w w' :
  central token w = ((None, 200%Z), w') →
  ∃ b, identity_base Spec token = Some b ∧
    let SessionID := OrgID Spec +:+ Sprintf_x (md5.Sum (bytes_of_string b)) in
    context w' !! AuthHeaderValue = Some (CtxString SessionID) ∧
    ∃ s, context w' !! SessionData = Some (CtxSession s) ∧
         (fst (CSI SessionID w) = (s, true) ∨
          snd (fst (CSI SessionID w)) = false ∧
          sessions w' !! SessionID = Some (s, SessionLifetime Spec)).
Proof.
  identity token b; intros H; exists b; (split; [reflexivity|]); simpl;
    revert H; unfold bind, ret, context_Set, UpdateSession;
    destruct (CSI (OrgID Spec +:+ Sprintf_x (md5.Sum (bytes_of_string b))) w)
      as [[s0 fnd] w1];
    destruct fnd; simpl;
    repeat (case_match; simpl; try discriminate);
    intros [= <-]; simpl;
    (split; [apply lookup_insert_eq|]);
    eexists; (split; [rewrite lookup_insert_ne by discriminate; apply lookup_insert_eq|]);
    first [ left; reflexivity
          | right; split; [reflexivity | apply lookup_insert_eq] ].
Qed.

Lemma getSecretFromURL_frame url kid keyType w :
  let w' := snd (secretFromURL url kid keyType w) in
  sessions w' = sessions w ∧ context w' = context w ∧
  SessionCache w' = SessionCache w ∧ goroutines w' = goroutines w.
Proof.
  unfold getSecretFromURL, bind, ret, JWKCache_init, JWKCache_Get, JWKCache_Set.
  destruct (JWKCache w) as [c|] eqn:E; simpl; rewrite ?E; simpl;
    [destruct (c !! APIID Spec); simpl; [auto|] | rewrite lookup_empty];
    destruct (http_Get url) as [resp [e|]]; simpl; auto;
    destruct (ioutil_ReadAll resp) as [contents [e|]]; simpl; auto;
    destruct (json_Unmarshal_JWKs contents) as [ks [e|]]; simpl; auto.
Qed.

Lemma keyFunc_central_frame token w :
  JWTSource Spec ≠ "" →
  let w' := snd (key_func token w) in
  sessions w' = sessions w ∧ context w' = context w.
Proof.
  intros Hs. apply str_eqb_false in Hs.
  unfold keyFunc. destruct (negb (method_gate _ token)); simpl; [auto|].
  unfold getSecret, go_ret, go_bind, lift, panic. rewrite Hs. simpl.
  destruct (_ || _); simpl.
  - destruct (iface_at (Header token) "kid") as [|kid| | |]; simpl; auto.
    pose proof (getSecretFromURL_frame (JWTSource Spec) kid (JWTSigningMethod Spec) w)
      as Hf.
    simpl in Hf.
    destruct (secretFromURL _ kid _ w) as [[sec [e|]] w1]; simpl in Hf |- *;
      destruct Hf as (? & ? & _); auto.
  - destruct (b64_DecodeString _) as [d [e|]]; simpl; auto.
Qed.

Lemma jwt_Parse_central_frame raw w :
  JWTSource Spec ≠ "" →
  let w' := snd (jwt_Parse jwt_decode jwt_verify raw key_func w) in
  sessions w' = sessions w ∧ context w' = context w.
Proof.
  intros Hs. unfold jwt_Parse, go_bind, go_ret.
  destruct (jwt_decode raw) as [t e|t]; simpl; [auto|].
  pose proof (keyFunc_central_frame t w Hs) as Hf. simpl in Hf.
  destruct (key_func t w) as [[[k e]|m] w1]; simpl in *; [|auto].
  repeat (case_match; simpl); auto.
Qed.

Lemma ProcessRequest_verified r w token w1 :
  extractJWT Spec r ≠ "" →
  jwt_Parse jwt_decode jwt_verify (stripBearer (extractJWT Spec r)) key_func w
    = (Returned (Some token, None), w1) →
  Valid token = true →
  JWTSource Spec ≠ "" →
  JWT_ProcessRequest r w = lift (central token) w1.
Proof.
  intros Hraw Hparse Hvalid Hsrc.
  apply str_eqb_false in Hraw, Hsrc.
  unfold JWTMiddleware_ProcessRequest. rewrite Hraw.
  unfold go_bind at 1. rewrite Hparse, Hvalid, Hsrc. reflexivity.
Qed.

Lemma ProcessRequest_200 r w w' :
  JWTSource Spec ≠ "" →
  JWT_ProcessRequest r w = (Returned (None, 200%Z), w') →
  ∃ token,
    jwt_decode (stripBearer (extractJWT Spec r)) = DecodedToken token ∧
    central (set_Valid true token)
      (snd (jwt_Parse jwt_decode jwt_verify (stripBearer (extractJWT Spec r)) key_func w))
      = ((None, 200%Z), w').
Proof.
  intros Hsrc. apply str_eqb_false in Hsrc.
  unfold JWTMiddleware_ProcessRequest.
  destruct (str_eqb (extractJWT Spec r) ""); [discriminate|].
  unfold jwt_Parse, go_bind, go_ret.
  destruct (jwt_decode _) as [t e|t]; simpl; [discriminate|].
  destruct (key_func t w) as [[[k [e|]]|m] w1]; simpl; try discriminate.
  destruct (jwt_verify t k); simpl; [discriminate|].
  rewrite Hsrc. simpl. unfold lift.
  destruct (central (set_Valid true t) w1) as [[e c] w2] eqn:E.
  intros [= -> -> ->]. eauto.
Qed.

(** C1. A policy of another organisation is never applied. With the
    policy named [pid] in the registry under an organisation other than
    the API's: [ApplyPolicyIfExists] on a session naming it returns the
    session and the world as they were; a verified central-authority
    request whose session is not found and whose policy claim names it is
    rejected with 403 "no matching policy", the SessionStore and the
    request context being as before the request. And whenever
    [ApplyPolicyIfExists] changes the session or the store, the policy it
    found has the organisation of the API. *)
Theorem cross_org_policy_refused pid policy :
  index_ok Policies pid = Some policy →
  Policy.OrgID policy ≠ OrgID Spec →
  (∀ key s strip w,
     SessionState.ApplyPolicyID s = pid → ApplyPolicy key s strip w = (s, w)) ∧
  (∀ r w token w1 b,
     extractJWT Spec r ≠ "" →
     JWTSource Spec ≠ "" →
     jwt_Parse jwt_decode jwt_verify (stripBearer (extractJWT Spec r)) key_func w
       = (Returned (Some token, None), w1) →
     Valid token = true →
     identity_base Spec token = Some b →
     snd (fst (CSI (OrgID Spec +:+ Sprintf_x (md5.Sum (bytes_of_string b))) w1)) = false →
     iface_at (Claims token) (JWTPolicyFieldName Spec) = JString pid →
     JWT_ProcessRequest r w =
       (Returned (Some (errors_New "Key not authorized: no matching policy"), 403%Z), w1)
     ∧ sessions w1 = sessions w ∧ context w1 = context w) ∧
  (∀ key s strip w,
     ApplyPolicy key s strip w ≠ (s, w) →
     ∃ q, index_ok Policies (SessionState.ApplyPolicyID s) = Some q ∧
          Policy.OrgID q = OrgID Spec).
Proof.
  intros Hpol Horg. split; [|split].
  - intros key s strip w <-. eapply ApplyPolicyIfExists_cross_org; eauto.
  - intros r w token w1 b Hraw Hsrc Hparse Hvalid Hid Hmiss Hclaim.
    rewrite (ProcessRequest_verified r w token w1 Hraw Hparse Hvalid Hsrc).
    unfold lift.
    rewrite (centralised_cross_org token w1 b pid policy Hid Hmiss Hclaim Hpol Horg).
    split; [reflexivity|].
    pose proof (jwt_Parse_central_frame (stripBearer (extractJWT Spec r)) w Hsrc) as Hf.
    simpl in Hf. rewrite Hparse in Hf. exact Hf.
  - intros key s strip w. apply ApplyPolicyIfExists_changed.
Qed.

(** C3. A request that succeeds in central-authority mode is bound to the
    session key [OrgID + hex_lower(md5(baseFieldData))], where
    [baseFieldData] is the identity base field of its token, else its
    [sub]; the session bound with it was resolved under that key in the
    world the verification left or, when there was none, stored under it. *)
Theorem central_session_id r w w' :
  JWTSource Spec ≠ "" →
  JWT_ProcessRequest r w = (Returned (None, 200%Z), w') →
  ∃ token baseFieldData,
    jwt_decode (stripBearer (extractJWT Spec r)) = DecodedToken token ∧
    identity_base Spec token = Some baseFieldData ∧
    let SessionID := OrgID Spec +:+ hex_lower (md5.Sum (bytes_of_string baseFieldData)) in
    context w' !! AuthHeaderValue = Some (CtxString SessionID) ∧
    let verified :=
      snd (jwt_Parse jwt_decode jwt_verify (stripBearer (extractJWT Spec r)) key_func w) in
    ∃ s, context w' !! SessionData = Some (CtxSession s) ∧
         (fst (CSI SessionID verified) = (s, true) ∨
          snd (fst (CSI SessionID verified)) = false ∧
          sessions w' !! SessionID = Some (s, SessionLifetime Spec)).
Proof.
  intros Hsrc H200.
  destruct (ProcessRequest_200 r w w' Hsrc H200) as (token & Hdec & Hc).
  destruct (centralised_200 _ _ _ Hc) as (b & Hid & Hctx & s & Hs & Hstore).
  exists token, b. split; [exact Hdec|]. split; [exact Hid|].
  simpl. rewrite <- (Sprintf_x_hex_lower _ (md5_Sum_range _)).
  split; [exact Hctx|]. exists s. split; [exact Hs | exact Hstore].
Qed.

(** *** Rate limiting *)

(** C7. The outcome of [applyRateLimiting] is decided by the verdict of
    the limiter: allowed gives success (200) with no health sample;
    reason 1 gives 429 with a [RateLimitExceeded] event and a [Throttle]
    sample; reason 2 gives 403 with a [QuotaExceeded] event and a
    [QuotaViolation] sample; any other reason gives 403 access denied with
    no event and no sample. *)
Theorem limiter_verdict_outcome key s r w :
  let '((allowed, reason), s', _) := ForwardMessage s key (sessions w, counters w) in
  let '(res, w') := rateLimiting key s r w in
  if allowed then
    res = (None, 200%Z) ∧ health w' = health w ∧
    fire_events (goroutines w') =
      (fire_events (goroutines w) ++
       (if MonitorUserKeys config then sessionMonitor_Check s' key else []))%list
  else if (reason =? 1)%Z then
    res = (Some (errors_New "Rate limit exceeded"), 429%Z) ∧
    health w' = (health w ++ [(Throttle, "-1")])%list ∧
    fire_events (goroutines w') =
      (fire_events (goroutines w) ++
       [{| ev_kind := EVENT_RateLimitExceeded; ev_message := "Key Rate Limit Exceeded";
           ev_path := URL_Path r; ev_origin := RemoteAddr r; ev_key := key |}])%list
  else if (reason =? 2)%Z then
    res = (Some (errors_New "Quota exceeded"), 403%Z) ∧
    health w' = (health w ++ [(QuotaViolation, "-1")])%list ∧
    fire_events (goroutines w') =
      (fire_events (goroutines w) ++
       [{| ev_kind := EVENT_QuotaExceeded; ev_message := "Key Quota Limit Exceeded";
           ev_path := URL_Path r; ev_origin := RemoteAddr r; ev_key := key |}])%list
  else
    res = (Some (errors_New "Access denied"), 403%Z) ∧
    health w' = health w ∧
    fire_events (goroutines w') = fire_events (goroutines w).
Proof.
  unfold applyRateLimiting, run_ForwardMessage, bind, ret.
  destruct (ForwardMessage s key (sessions w, counters w))
    as [[[allowed reason] s'] [ss cs]]; simpl.
  assert (Hmon : ∀ es (w0 : World),
    let w1 := snd (spawn_all (map go_FireEvent es) w0) in
    health w1 = health w0 ∧
    fire_events (goroutines w1) = (fire_events (goroutines w0) ++ es)%list).
  { induction es as [|e es IH]; intros w0; simpl.
    - rewrite app_nil_r. auto.
    - unfold bind, spawn. simpl.
      specialize (IH (set_goroutines (λ gs, (gs ++ [go_FireEvent e])%list) w0)).
      simpl in IH. destruct IH as [-> ->]. unfold fire_events.
      rewrite omap_app. simpl. rewrite <- app_assoc. auto. }
  unfold fire_events in *.
  destruct (UseAsyncSessionWrite config); simpl;
    unfold spawn, UpdateSession, context_Set, ReportHealthCheckValue; simpl;
    destruct allowed; simpl.
  all: try (destruct (MonitorUserKeys config); simpl;
            [ match goal with
              | |- context [spawn_all ?gs ?w0] =>
                  pose proof (Hmon (sessionMonitor_Check s' key) w0) as Hm;
                  simpl in Hm; destruct (spawn_all gs w0) as [[] w2]
              end; simpl in *; destruct Hm as [-> ->];
              rewrite ?omap_app, ?app_nil_r; simpl; rewrite ?app_nil_r; auto
            | rewrite ?omap_app, ?app_nil_r; simpl; rewrite ?app_nil_r; auto ]).
  all: destruct (reason =? 1)%Z; simpl;
       [| destruct (reason =? 2)%Z; simpl ];
       rewrite ?omap_app; simpl; rewrite ?app_nil_r; auto.
Qed.

(** C9. With synchronous session writes, whatever the verdict, the
    session as the limiter left it is in the SessionStore under the key
    and bound in the request context when [applyRateLimiting] returns,
    also when it returns 429 or 403. *)
Theorem sync_write_precedes_verdict key s r w :
  UseAsyncSessionWrite config = false →
  let '(_, s', _) := ForwardMessage s key (sessions w, counters w) in
  let '(res, w') := rateLimiting key s r w in
  sessions w' !! key = Some (s', 0%Z) ∧
  context w' !! SessionData = Some (CtxSession s').
Proof.
  intros Hsync.
  unfold applyRateLimiting, run_ForwardMessage, bind, ret. rewrite Hsync.
  destruct (ForwardMessage s key (sessions w, counters w))
    as [[[allowed reason] s'] [ss cs]]; simpl.
  assert (Hmon : ∀ gs (w0 : World),
    let w1 := snd (spawn_all gs w0) in
    sessions w1 = sessions w0 ∧ context w1 = context w0).
  { induction gs as [|g gs IH]; intros w0; simpl; [auto|].
    unfold bind, spawn. simpl.
    apply (IH (set_goroutines (λ gs0, (gs0 ++ [g])%list) w0)). }
  unfold spawn, UpdateSession, context_Set, ReportHealthCheckValue; simpl.
  destruct allowed; simpl.
  - destruct (MonitorUserKeys config); simpl.
    + match goal with
      | |- context [spawn_all ?gs ?w0] =>
          pose proof (Hmon gs w0) as Hm; simpl in Hm;
          destruct (spawn_all gs w0) as [[] w2]
      end.
      simpl in *. destruct Hm as [-> ->]. split; apply lookup_insert_eq.
    + split; apply lookup_insert_eq.
  - destruct (reason =? 1)%Z; simpl; [split; apply lookup_insert_eq|].
    destruct (reason =? 2)%Z; simpl; split; apply lookup_insert_eq.
Qed.

(** What [ProcessRequest] of the rate-limit middleware hands to the
    limiter: the per-API session and key when the bound session has a
    non-nil [PolicyPerAPI] map and the store has a session at the per-API
    key, else the bound session and key. *)
Lemma RateLimit_ProcessRequest_selects r w s authKey :
  context w !! SessionData = Some (CtxSession s) →
  context w !! AuthHeaderValue = Some (CtxString authKey) →
  RateLimit_ProcessRequest r w =
    lift (match SessionState.PolicyPerAPI s,
                sessions w !! (authKey +:+ APISessionKeySuffix +:+ APIID Spec) with
          | Some _, Some (perAPI, _) =>
              rateLimiting (authKey +:+ APISessionKeySuffix +:+ APIID Spec) perAPI r
          | _, _ => rateLimiting authKey s r
          end) w.
Proof.
  intros Hs Hk. unfold RateLimitAndQuotaCheck_ProcessRequest. rewrite Hs, Hk.
  destruct (SessionState.PolicyPerAPI s); [|reflexivity].
  unfold lift, bind, GetSessionDetail.
  destruct (sessions w !! _) as [[p t]|]; reflexivity.
Qed.

(** *** The policy loader *)


End Facts.

(** * The theorems on the example gateway *)

Section Runs.
Local Abbreviation ProcessRequest_with P :=
  (JWTMiddleware_ProcessRequest Ex.Spec Ex.config P Ex.IsKeyAuthorised
     Ex.http_Get Ex.ioutil_ReadAll Ex.json_Unmarshal_JWKs Ex.b64_DecodeString
     Ex.stripBearer Ex.jwt_decode Ex.jwt_verify).

(** Scenario 3 of the spec: a new user under a central authority. *)
Example scenario_3 :
  let '(out, w) := ProcessRequest_with Ex.Policies (Ex.request "Bearer tok-a") Ex.w0 in
  out = Returned (None, 200%Z) ∧
  context w !! AuthHeaderValue = Some (CtxString "O14895b1d4ed83c6da448e89f72e1103a0") ∧
  (fst <$> sessions w !! "O14895b1d4ed83c6da448e89f72e1103a0")
    = Some (SessionState.overlay (Ex.P1 "O1") SessionState.zero).
Proof. vm_compute. repeat split. Qed.

(** Scenario 4 of the spec: the policy belongs to another organisation. *)
Example scenario_4 :
  let '(out, w) := ProcessRequest_with Ex.Policies_cross (Ex.request "Bearer tok-a") Ex.w0 in
  out = Returned (Some (errors_New "Key not authorized: no matching policy"), 403%Z) ∧
  sessions w = ∅.
Proof. vm_compute. repeat split. Qed.

Local Abbreviation CSI_with P :=
  (CheckSessionAndIdentityForValidKey Ex.Spec Ex.config P Ex.IsKeyAuthorised).
Local Abbreviation csvk_with P :=
  (checkSessionAndValidateKey Ex.Spec Ex.config P Ex.IsKeyAuthorised).

(** C1 on scenario 4. *)
Lemma cross_org_policy_refused_witness :
  index_ok Ex.Policies_cross "P1" = Some (Ex.P1 "O2") ∧
  Policy.OrgID (Ex.P1 "O2") ≠ OrgID Ex.Spec ∧
  ApplyPolicyIfExists Ex.Spec Ex.Policies_cross "k1"
    (SessionState.set_ApplyPolicyID "P1" SessionState.zero) true Ex.w0
    = (SessionState.set_ApplyPolicyID "P1" SessionState.zero, Ex.w0) ∧
  fst (ProcessRequest_with Ex.Policies_cross (Ex.request "Bearer tok-a") Ex.w0)
    = Returned (Some (errors_New "Key not authorized: no matching policy"), 403%Z).
Proof.
  assert (H1 : index_ok Ex.Policies_cross "P1" = Some (Ex.P1 "O2")) by reflexivity.
  assert (H2 : Policy.OrgID (Ex.P1 "O2") ≠ OrgID Ex.Spec) by (vm_compute; discriminate).
  destruct (cross_org_policy_refused Ex.Spec Ex.config Ex.Policies_cross
              Ex.IsKeyAuthorised Ex.http_Get Ex.ioutil_ReadAll Ex.json_Unmarshal_JWKs
              Ex.b64_DecodeString Ex.stripBearer Ex.jwt_decode Ex.jwt_verify
              "P1" (Ex.P1 "O2") H1 H2) as (HA & HB & _).
  split; [exact H1|]. split; [exact H2|]. split.
  - apply HA. reflexivity.
  - set (parsed := jwt_Parse Ex.jwt_decode Ex.jwt_verify "tok-a"
                     (keyFunc Ex.Spec Ex.config Ex.Policies_cross Ex.IsKeyAuthorised
                        Ex.http_Get Ex.ioutil_ReadAll Ex.json_Unmarshal_JWKs
                        Ex.b64_DecodeString) Ex.w0).
    destruct (HB (Ex.request "Bearer tok-a") Ex.w0 (set_Valid true Ex.token_a)
                (snd parsed) "a@x") as (-> & _).
    + vm_compute. discriminate.
    + vm_compute. discriminate.
    + vm_compute. reflexivity.
    + reflexivity.
    + reflexivity.
    + vm_compute. reflexivity.
    + reflexivity.
    + reflexivity.
Defined.

(** C3 on scenario 3. *)
Lemma central_session_id_witness :
  JWTSource Ex.Spec ≠ "" ∧
  ∃ token baseFieldData,
    Ex.jwt_decode (Ex.stripBearer (extractJWT Ex.Spec (Ex.request "Bearer tok-a")))
      = DecodedToken token ∧
    identity_base Ex.Spec token = Some baseFieldData ∧
    context (snd (ProcessRequest_with Ex.Policies (Ex.request "Bearer tok-a") Ex.w0))
      !! AuthHeaderValue
      = Some (CtxString (OrgID Ex.Spec +:+
                         hex_lower (md5.Sum (bytes_of_string baseFieldData)))).
Proof.
  assert (H1 : JWTSource Ex.Spec ≠ "") by (vm_compute; discriminate).
  split; [exact H1|].
  destruct (central_session_id Ex.Spec Ex.config Ex.Policies Ex.IsKeyAuthorised
              Ex.http_Get Ex.ioutil_ReadAll Ex.json_Unmarshal_JWKs Ex.b64_DecodeString
              Ex.stripBearer Ex.jwt_decode Ex.jwt_verify
              (Ex.request "Bearer tok-a") Ex.w0
              (snd (ProcessRequest_with Ex.Policies (Ex.request "Bearer tok-a") Ex.w0))
              H1)
    as (token & b & Hd & Hb & Hc & _).
  - vm_compute. reflexivity.
  - exists token, b. auto.
Defined.

(** C4 as stated fails: the base session of [k1] is found and names the
    policy [P_gone] for the current API, a policy the registry does not
    have; after the call the SessionStore has nothing at [k1.API-A1]. *)
Lemma per_api_session_not_materialised :
  let w := Ex.with_session "k1" (Ex.base "A1" "P_gone") Ex.w0 in
  fst (CSI_with Ex.Policies "k1" w) = (Ex.base "A1" "P_gone", true) ∧
  index "" (SessionState.PolicyPerAPI (Ex.base "A1" "P_gone")) (APIID Ex.Spec) = "P_gone" ∧
  sessions (snd (CSI_with Ex.Policies "k1" w)) !! "k1.API-A1" = None.
Proof. vm_compute. repeat split. Qed.

(** Nor does a per-API session that is already there take the fields of
    the policy: one stored earlier with other limits stays as it is. *)
Example per_api_session_stale :
  let stale := SessionState.overlay (Ex.P1 "O1") SessionState.zero in
  let w := Ex.with_session "k1.API-A1" stale
             (Ex.with_session "k1" (Ex.base "A1" "P_fast") Ex.w0) in
  (fst <$> sessions (snd (CSI_with Ex.Policies "k1" w)) !! "k1.API-A1") = Some stale ∧
  SessionState.Rate stale ≠ Policy.Rate Ex.P_fast.
Proof. vm_compute. split; [reflexivity | discriminate]. Qed.

Lemma per_api_session_materialised_witness :
  let w := Ex.with_session "k1" (Ex.base "A1" "P_fast") Ex.w0 in
  fst (csvk_with Ex.Policies "k1" w) = (Ex.base "A1" "P_fast", true) ∧
  index "" (SessionState.PolicyPerAPI (Ex.base "A1" "P_fast")) (APIID Ex.Spec) ≠ "" ∧
  snd (fst (csvk_with Ex.Policies "k1.API-A1" w)) = false ∧
  index_ok Ex.Policies "P_fast" = Some Ex.P_fast ∧
  Policy.OrgID Ex.P_fast = OrgID Ex.Spec ∧
  fst (CSI_with Ex.Policies "k1" w) = (Ex.base "A1" "P_fast", true) ∧
  ∃ s, sessions (snd (CSI_with Ex.Policies "k1" w)) !! "k1.API-A1"
         = Some (s, SessionLifetime Ex.Spec) ∧
       SessionState.overlayed_from Ex.P_fast s ∧
       SessionState.ApplyPolicyID s = "".
Proof.
  intros w.
  assert (H1 : fst (csvk_with Ex.Policies "k1" w) = (Ex.base "A1" "P_fast", true))
    by (vm_compute; reflexivity).
  assert (H2 : index "" (SessionState.PolicyPerAPI (Ex.base "A1" "P_fast")) (APIID Ex.Spec) ≠ "")
    by (vm_compute; discriminate).
  assert (H3 : snd (fst (csvk_with Ex.Policies "k1.API-A1" w)) = false)
    by (vm_compute; reflexivity).
  assert (H4 : index_ok Ex.Policies "P_fast" = Some Ex.P_fast) by (vm_compute; reflexivity).
  assert (H5 : Policy.OrgID Ex.P_fast = OrgID Ex.Spec) by reflexivity.
  repeat (split; [assumption|]).
  apply (per_api_session_materialised Ex.Spec Ex.config Ex.Policies Ex.IsKeyAuthorised
           "k1" w (Ex.base "A1" "P_fast") Ex.P_fast H1 H2 H3 H4 H5).
Defined.

(** C8 on a stored session that names the policy P1, the queued cache
    write having landed before the second call. *)
Lemma resolution_idempotent_witness :
  let w := Ex.with_session "k1"
             (SessionState.set_ApplyPolicyID "P1" (Ex.base "A1" "P_fast")) Ex.w0 in
  goroutines w = [] ∧
  fst (csvk_with Ex.Policies "k1" (land [true] (snd (csvk_with Ex.Policies "k1" w))))
    = fst (csvk_with Ex.Policies "k1" w) ∧
  fst (CSI_with Ex.Policies "k1" (land [true] (snd (CSI_with Ex.Policies "k1" w))))
    = fst (CSI_with Ex.Policies "k1" w).
Proof.
  intros w. split; [reflexivity|].
  apply (resolution_idempotent Ex.Spec Ex.config Ex.Policies Ex.IsKeyAuthorised
           "k1" w [true]).
  reflexivity.
Defined.

(** C9 on a request the limiter refuses for its rate. *)
Lemma sync_write_precedes_verdict_witness :
  let s := Ex.base "A1" "P_fast" in
  let run := applyRateLimiting Ex.config Ex.refusing_limiter Ex.no_monitor
               "k1" s (Ex.request "Bearer tok-a") Ex.w0 in
  UseAsyncSessionWrite Ex.config = false ∧
  fst run = (Some (errors_New "Rate limit exceeded"), 429%Z) ∧
  sessions (snd run) !! "k1" = Some (SessionState.set_ApplyPolicyID "seen" s, 0%Z) ∧
  context (snd run) !! SessionData
    = Some (CtxSession (SessionState.set_ApplyPolicyID "seen" s)).
Proof.
  intros s run.
  split; [reflexivity|]. split; [vm_compute; reflexivity|].
  exact (sync_write_precedes_verdict Ex.config Ex.refusing_limiter Ex.no_monitor
           "k1" s (Ex.request "Bearer tok-a") Ex.w0 eq_refl).
Defined.


(** C2 on a JWKS endpoint that answers with a page that is not JSON:
    no key and no error. *)
Theorem getSecretFromURL_decode_error_nil :
  Ex.json_Unmarshal_JWKs "<html>"
    = ([], Some (LibraryError "invalid character '<' looking for beginning of value")) ∧
  fst (getSecretFromURL Ex.Spec Ex.http_Get Ex.ioutil_ReadAll Ex.json_Unmarshal_JWKs
         Ex.b64_DecodeString "https://idp/broken" "K1" "rsa" Ex.w0)
    = ([], None).
Proof. split; reflexivity. Qed.

(** C6 on the token of scenario 3 without its [kid]: the key function
    panics, and so does the request. *)
Theorem missing_kid_panics :
  source_is_URL Ex.Spec = true ∧
  iface_at (Header Ex.token_nokid) "kid" = JNull ∧
  fst (getSecret Ex.Spec Ex.config Ex.Policies Ex.IsKeyAuthorised Ex.http_Get
         Ex.ioutil_ReadAll Ex.json_Unmarshal_JWKs Ex.b64_DecodeString
         Ex.token_nokid Ex.w0)
    = Panicked "interface conversion: interface {} is nil, not string" ∧
  fst (ProcessRequest_with Ex.Policies (Ex.request "Bearer tok-nokid") Ex.w0)
    = Panicked "interface conversion: interface {} is nil, not string".
Proof. vm_compute. repeat split. Qed.

(** C5 on a key whose base session names a per-API policy for another
    API only, while the store still holds a session at the per-API key of
    the current one: the limiter is run on the per-API key. *)
Theorem rate_limit_uses_unnamed_per_api_session :
  let s := Ex.base "A2" "P_fast" in
  let stale := SessionState.overlay Ex.P_fast SessionState.zero in
  let w := Ex.with_context s "k1"
             (Ex.with_session "k1.API-A1" stale (Ex.with_session "k1" s Ex.w0)) in
  index "" (SessionState.PolicyPerAPI s) (APIID Ex.Spec) = "" ∧
  let '(out, w') := RateLimitAndQuotaCheck_ProcessRequest Ex.Spec Ex.config
                      Ex.counting_limiter Ex.no_monitor (Ex.request "Bearer tok-a") w in
  out = Returned (None, 200%Z) ∧
  counters w' = {[ "k1.API-A1" := 1%Z ]} ∧
  context w' !! SessionData = Some (CtxSession stale).
Proof. vm_compute. repeat split. Qed.

End Runs.

(** * Further properties of the resolver, the middlewares and the handlers *)

Section More.
Set Default Proof Using "Type".

Variable Spec : APISpec.
Variable config : Config.
Variable Policies : GoMap Policy.t.
Variable IsKeyAuthorised : string → SessionState.t * bool.
Variable http_Get : string → string * error.
Variable ioutil_ReadAll : string → string * error.
Variable json_Unmarshal_JWKs : string → JWKs * error.
Variable b64_DecodeString : string → bytes * error.
Variable stripBearer : string → string.
Variable jwt_decode : string → Decoded.
Variable jwt_verify : Token → bytes → error.
Variable ForwardMessage :
  SessionState.t → string →
  gmap string (SessionState.t * int64) * gmap string Z →
  (bool * Z) * SessionState.t * (gmap string (SessionState.t * int64) * gmap string Z).
Variable sessionMonitor_Check : SessionState.t → string → list Event.

Local Abbreviation secretFromURL :=
  (getSecretFromURL Spec http_Get ioutil_ReadAll json_Unmarshal_JWKs b64_DecodeString).
Local Abbreviation secret :=
  (getSecret Spec config Policies IsKeyAuthorised
     http_Get ioutil_ReadAll json_Unmarshal_JWKs b64_DecodeString).
Local Abbreviation key_func :=
  (keyFunc Spec config Policies IsKeyAuthorised
     http_Get ioutil_ReadAll json_Unmarshal_JWKs b64_DecodeString).
Local Abbreviation central := (centralised Spec config Policies IsKeyAuthorised).
Local Abbreviation parse raw :=
  (jwt_Parse jwt_decode jwt_verify raw
     (keyFunc Spec config Policies IsKeyAuthorised
        http_Get ioutil_ReadAll json_Unmarshal_JWKs b64_DecodeString)).
Local Abbreviation JWT_ProcessRequest :=
  (JWTMiddleware_ProcessRequest Spec config Policies IsKeyAuthorised
     http_Get ioutil_ReadAll json_Unmarshal_JWKs b64_DecodeString
     stripBearer jwt_decode jwt_verify).
Local Abbreviation rateLimiting :=
  (applyRateLimiting config ForwardMessage sessionMonitor_Check).
Local Abbreviation RateLimit_ProcessRequest :=
  (RateLimitAndQuotaCheck_ProcessRequest Spec config ForwardMessage sessionMonitor_Check).
Local Abbreviation ApplyPolicy := (ApplyPolicyIfExists Spec Policies).
Local Abbreviation csvk := (checkSessionAndValidateKey Spec config Policies IsKeyAuthorised).
Local Abbreviation CSI := (CheckSessionAndIdentityForValidKey Spec config Policies IsKeyAuthorised).
Local Abbreviation policy_of := (policy_for Spec Policies).
Local Abbreviation applied_ := (applied Spec Policies).
Local Abbreviation resolve_ := (resolve Spec config Policies IsKeyAuthorised).
Local Abbreviation api_key key := (key +:+ APISessionKeySuffix +:+ APIID Spec).

(** *** The resolver *)

(** X1. A lookup that finds nothing writes nothing: when
    [CheckSessionAndIdentityForValidKey] reports the key as not found, the
    world it returns is the world it was given (stores, local cache, queue
    of goroutines), and the same holds of the ladder on its own. *)
Theorem failed_lookup_writes_nothing key w :
  snd (fst (CheckSessionAndIdentityForValidKey Spec config Policies IsKeyAuthorised key w))
    = false →
  snd (CheckSessionAndIdentityForValidKey Spec config Policies IsKeyAuthorised key w) = w ∧
  snd (checkSessionAndValidateKey Spec config Policies IsKeyAuthorised key w) = w.
Proof.
  intros H. split; [apply CSI_miss; exact H|].
  apply csvk_miss. rewrite <- CSI_fst. exact H.
Qed.

(** X2. A session that is found without the local cache is in the
    SessionStore afterwards as it was returned; when it came from the
    AuthStore alone it is stored with the session lifetime as TTL. *)
Theorem resolved_session_is_stored key w s :
  DisableCacheSessionState config = true ∨ SessionCache w !! key = None →
  fst (csvk key w) = (s, true) →
  fst <$> sessions (snd (csvk key w)) !! key = Some s ∧
  (sessions w !! key = None →
   sessions (snd (csvk key w)) !! key = Some (s, SessionLifetime Spec)).
Proof.
  intros Hc Hr. rewrite csvk_fst in Hr.
  pose proof (csvk_cases Spec config Policies IsKeyAuthorised key w) as Hw.
  simpl in Hw. unfold resolve in Hr.
  assert (Hcache : (if DisableCacheSessionState config then None
                    else SessionCache w !! key) = None).
  { destruct Hc as [-> | Hc]; [reflexivity|]. rewrite Hc.
    destruct (DisableCacheSessionState config); reflexivity. }
  rewrite Hcache in Hw, Hr. clear Hcache Hc.
  destruct (sessions w !! key) as [[s0 ttl]|].
  - destruct Hw as [_ ->]. injection Hr as <-. unfold applied.
    destruct (policy_of s0); split; try reflexivity; discriminate.
  - destruct (IsKeyAuthorised key) as [s0 [|]]; [|discriminate].
    destruct Hw as [_ ->]. injection Hr as <-. split; [reflexivity|]. reflexivity.
Qed.

(** X3. With the local cache on, an entry for the key decides the answer:
    the SessionStore and the AuthStore are not consulted, so two worlds
    with the same cache entry give the same session, whatever their
    stores hold; and when the cached session names no applicable policy
    the lookup is a pure read. *)
Theorem cache_hit_shadows_store key w c :
  DisableCacheSessionState config = false →
  SessionCache w !! key = Some c →
  fst (csvk key w) = (applied_ c, true) ∧
  (∀ w', SessionCache w' !! key = Some c → fst (csvk key w') = fst (csvk key w)) ∧
  (policy_of c = None → csvk key w = ((c, true), w)).
Proof.
  intros Hon Hc.
  assert (Hres : ∀ w', SessionCache w' !! key = Some c →
                       fst (csvk key w') = (applied_ c, true)).
  { intros w' Hc'. rewrite csvk_fst. unfold resolve. rewrite Hon, Hc'. reflexivity. }
  split; [apply Hres; exact Hc|]. split.
  - intros w' Hc'. rewrite (Hres w' Hc'), (Hres w Hc). reflexivity.
  - intros Hp. unfold checkSessionAndValidateKey, bind, ret, SessionCache_Get.
    rewrite Hon. simpl. rewrite Hc, ApplyPolicyIfExists_eq, Hp. reflexivity.
Qed.

(** X4. With the local cache switched off the ladder never reads it, yet
    a hit in the SessionStore still queues the write of the session into
    it. *)
Theorem disabled_cache_is_still_written key w s ttl :
  DisableCacheSessionState config = true →
  sessions w !! key = Some (s, ttl) →
  fst (csvk key w) = (applied_ s, true) ∧
  (∀ w', sessions w' !! key = Some (s, ttl) → fst (csvk key w') = fst (csvk key w)) ∧
  goroutines (snd (csvk key w)) = (goroutines w ++ [go_SessionCache_Set key s])%list.
Proof.
  intros Hoff Hs.
  assert (Hres : ∀ w', sessions w' !! key = Some (s, ttl) →
                       fst (csvk key w') = (applied_ s, true)).
  { intros w' Hs'. rewrite csvk_fst. unfold resolve. rewrite Hoff, Hs'. reflexivity. }
  split; [apply Hres; exact Hs|]. split.
  - intros w' Hs'. rewrite (Hres w' Hs'), (Hres w Hs). reflexivity.
  - pose proof (csvk_cases Spec config Policies IsKeyAuthorised key w) as Hw.
    simpl in Hw. rewrite Hoff, Hs in Hw. apply Hw.
Qed.

Lemma ApplyPolicyIfExists_frame key s strip w :
  let w' := snd (ApplyPolicy key s strip w) in
  SessionCache w' = SessionCache w ∧ counters w' = counters w ∧
  JWKCache w' = JWKCache w ∧ context w' = context w ∧
  fired w' = fired w ∧ health w' = health w ∧ goroutines w' = goroutines w ∧
  ∀ k, k ≠ key → sessions w' !! k = sessions w !! k.
Proof.
  rewrite ApplyPolicyIfExists_eq.
  destruct (policy_of s); simpl; repeat split; auto.
  intros k Hk. rewrite lookup_insert_ne by congruence. reflexivity.
Qed.


(** X6. Resolution never resets what a policy does not carry: the session
    it returns has the remaining quota, the quota renewal time, the OAuth
    client, the JWT secret, the data expiry and the apply-policy id of the
    session held by the rung that served it (local cache, SessionStore or
    AuthStore). *)
Theorem resolution_keeps_counters key w s :
  fst (csvk key w) = (s, true) →
  ∃ held,
    (DisableCacheSessionState config = false ∧ SessionCache w !! key = Some held ∨
     (∃ ttl, sessions w !! key = Some (held, ttl)) ∨
     IsKeyAuthorised key = (held, true)) ∧
    SessionState.QuotaRemaining s = SessionState.QuotaRemaining held ∧
    SessionState.QuotaRenews s = SessionState.QuotaRenews held ∧
    SessionState.OauthClientID s = SessionState.OauthClientID held ∧
    SessionState.JWTData_Secret s = SessionState.JWTData_Secret held ∧
    SessionState.DataExpires s = SessionState.DataExpires held ∧
    SessionState.ApplyPolicyID s = SessionState.ApplyPolicyID held.
Proof.
  rewrite csvk_fst. unfold resolve.
  assert (Hkept : ∀ held,
    SessionState.QuotaRemaining (applied_ held) = SessionState.QuotaRemaining held ∧
    SessionState.QuotaRenews (applied_ held) = SessionState.QuotaRenews held ∧
    SessionState.OauthClientID (applied_ held) = SessionState.OauthClientID held ∧
    SessionState.JWTData_Secret (applied_ held) = SessionState.JWTData_Secret held ∧
    SessionState.DataExpires (applied_ held) = SessionState.DataExpires held ∧
    SessionState.ApplyPolicyID (applied_ held) = SessionState.ApplyPolicyID held).
  { intros held. unfold applied. destruct (policy_of held); repeat split. }
  destruct (DisableCacheSessionState config) eqn:Hd.
  - destruct (sessions w !! key) as [[s0 ttl]|] eqn:Es.
    + intros [= <-]. exists s0. split; [right; left; eauto | apply Hkept].
    + destruct (IsKeyAuthorised key) as [s0 [|]] eqn:Ea; [|discriminate].
      intros [= <-]. exists s0. split; [right; right; reflexivity | apply Hkept].
  - destruct (SessionCache w !! key) as [c|] eqn:Ec.
    + intros [= <-]. exists c. split; [left; auto | apply Hkept].
    + destruct (sessions w !! key) as [[s0 ttl]|] eqn:Es.
      * intros [= <-]. exists s0. split; [right; left; eauto | apply Hkept].
      * destruct (IsKeyAuthorised key) as [s0 [|]] eqn:Ea; [|discriminate].
        intros [= <-]. exists s0. split; [right; right; reflexivity | apply Hkept].
Qed.

(** X7. Applying the policy of a session is idempotent: a second
    [ApplyPolicyIfExists] on the session and the world the first returned,
    with the same key and flag, changes neither. *)
Theorem apply_policy_idempotent key s strip w :
  let '(s1, w1) := ApplyPolicyIfExists Spec Policies key s strip w in
  ApplyPolicyIfExists Spec Policies key s1 strip w1 = (s1, w1).
Proof.
  rewrite ApplyPolicyIfExists_eq.
  destruct (policy_of s) as [p|] eqn:E; simpl.
  - rewrite ApplyPolicyIfExists_eq. destruct strip.
    + reflexivity.
    + rewrite policy_for_overlay, E. simpl. f_equal.
      unfold set_sessions. simpl. f_equal. apply insert_insert_eq.
  - rewrite ApplyPolicyIfExists_eq, E. reflexivity.
Qed.


(** *** Key retrieval from a JWKS *)



(** X11. The key set is cached under the API id, not under the URL: once
    a cold fetch has decoded a key set, every later call for the API, for
    any URL, key id and key type, answers from that set without changing
    the world; this also when the first call found no key in the set. *)
Theorem jwks_cached_by_api_id url kid keyType w response contents keys :
  index_ok (JWKCache w) (APIID Spec) = None →
  http_Get url = (response, None) →
  ioutil_ReadAll response = (contents, None) →
  json_Unmarshal_JWKs contents = (keys, None) →
  let w1 := snd (secretFromURL url kid keyType w) in
  fst (secretFromURL url kid keyType w) = find_cert b64_DecodeString kid keyType keys ∧
  ∀ url' kid' keyType',
    secretFromURL url' kid' keyType' w1
      = (find_cert b64_DecodeString kid' keyType' keys, w1).
Proof.
  intros Hc Hg Hr Hd. simpl.
  unfold getSecretFromURL, bind, ret, JWKCache_init, JWKCache_Get, JWKCache_Set.
  destruct (JWKCache w) as [c|] eqn:E; simpl; rewrite ?E; simpl in Hc |- *.
  - rewrite Hc, Hg, Hr, Hd. simpl. split; [reflexivity|].
    intros url' kid' keyType'. simpl. rewrite !E. simpl.
    rewrite lookup_insert_eq. reflexivity.
  - rewrite lookup_empty, Hg, Hr, Hd. simpl. split; [reflexivity|].
    intros url' kid' keyType'. simpl. rewrite lookup_insert_eq. reflexivity.
Qed.

(** X12. A fetch that fails caches nothing: when the GET, the read of the
    body or the decoding fails on a cold cache, the JWK cache has no entry
    for the API afterwards, so the next request fetches again. *)
Theorem failed_fetch_caches_nothing url kid keyType w :
  index_ok (JWKCache w) (APIID Spec) = None →
  snd (http_Get url) ≠ None ∨
  snd (ioutil_ReadAll (fst (http_Get url))) ≠ None ∨
  snd (json_Unmarshal_JWKs (fst (ioutil_ReadAll (fst (http_Get url))))) ≠ None →
  fst (fst (secretFromURL url kid keyType w)) = [] ∧
  index_ok (JWKCache (snd (secretFromURL url kid keyType w))) (APIID Spec) = None.
Proof.
  intros Hc Hfail.
  unfold getSecretFromURL, bind, ret, JWKCache_init, JWKCache_Get, JWKCache_Set.
  assert (Hcold : ∀ w0 : World,
    index_ok (JWKCache w0) (APIID Spec) = None →
    let res :=
      (let '(response, err) := http_Get url in
       match err with
       | Some _ => λ w, (([] : bytes, err), w)
       | None =>
           let '(contents, err0) := ioutil_ReadAll response in
           match err0 with
           | Some _ => λ w, (([], err0), w)
           | None =>
               let '(thisJWKSet, decErr) := json_Unmarshal_JWKs contents in
               match decErr with
               | Some _ => λ w, (([], err0), w)
               | None =>
                   λ w, (find_cert b64_DecodeString kid keyType thisJWKSet,
                         set_JWKCache (insert (APIID Spec) thisJWKSet <$> JWKCache w) w)
               end
           end
       end) w0 in
    fst (fst res) = [] ∧ index_ok (JWKCache (snd res)) (APIID Spec) = None).
  { intros w0 H0. simpl.
    destruct (http_Get url) as [resp [e|]]; simpl in Hfail |- *; [auto|].
    destruct (ioutil_ReadAll resp) as [cont [e|]]; simpl in Hfail |- *; [auto|].
    destruct (json_Unmarshal_JWKs cont) as [ks [e|]]; simpl in Hfail |- *; [auto|].
    exfalso. destruct Hfail as [H|[H|H]]; apply H; reflexivity. }
  destruct (JWKCache w) as [c|] eqn:E; simpl; rewrite ?E; simpl in Hc |- *.
  - rewrite Hc. apply (Hcold w). rewrite E. exact Hc.
  - rewrite lookup_empty. apply (Hcold (set_JWKCache (Some ∅) w)). reflexivity.
Qed.

(** *** The JWT middleware, case by case *)

Lemma centralised_eq token w :
  central token w =
  match identity_base Spec token with
  | None => ((Some (errors_New "Key not authorized"), 403%Z), w)
  | Some b =>
      let SessionID := OrgID Spec +:+ Sprintf_x (md5.Sum (bytes_of_string b)) in
      match CSI SessionID w with
      | ((s, true), w1) => ((None, 200%Z), bound s SessionID w1)
      | ((_, false), w1) =>
          match iface_at (Claims token) (JWTPolicyFieldName Spec) with
          | JString pid =>
              match index_ok Policies pid with
              | Some policy =>
                  if str_eqb (Policy.OrgID policy) (OrgID Spec) then
                    ((None, 200%Z),
                     bound (SessionState.overlay policy SessionState.zero) SessionID
                       (set_sessions
                          (insert SessionID
                             (SessionState.overlay policy SessionState.zero,
                              SessionLifetime Spec)) w1))
                  else (no_policy, w1)
              | None => (no_policy, w1)
              end
          | _ => (no_policy, w1)
          end
      end
  end.
Proof.
  unfold centralised, identity_base, no_policy, bound.
  destruct (iface_at (Claims token) (JWTIdentityBaseField Spec)) as [|b|num|flag|];
    simpl;
    try (destruct (iface_at (Claims token) "sub") as [|b|num'|flag'|]; simpl);
    try reflexivity;
    unfold bind, ret, context_Set, UpdateSession;
    destruct (CSI _ w) as [[s0 [|]] w1]; simpl; try reflexivity;
    destruct (iface_at (Claims token) (JWTPolicyFieldName Spec)); simpl;
    try reflexivity;
    destruct (index_ok Policies _); simpl; try reflexivity;
    destruct (str_eqb (Policy.OrgID _) (OrgID Spec)); reflexivity.
Qed.

Lemma getIdentityFomToken_eq token w :
  getIdentityFomToken token w =
  match iface_at (Header token) "kid" with
  | JString kid => (Returned (kid, true), w)
  | JNull =>
      match iface_at (Claims token) "sub" with
      | JString sub => (Returned (sub, true), w)
      | JNull => (Returned ("", false), w)
      | _ => (Panicked "interface conversion: interface {} is not string", w)
      end
  | _ => (Panicked "interface conversion: interface {} is not string", w)
  end.
Proof.
  unfold getIdentityFomToken, go_bind, go_ret, panic.
  destruct (iface_at (Header token) "kid"); simpl; try reflexivity.
  destruct (iface_at (Claims token) "sub"); reflexivity.
Qed.

Lemma ProcessRequest_eq r w :
  JWT_ProcessRequest r w =
  if str_eqb (extractJWT Spec r) "" then
    (Returned (Some (errors_New "Authorization field missing"), 400%Z), w)
  else
    match parse (stripBearer (extractJWT Spec r)) w with
    | (Panicked m, w1) => (Panicked m, w1)
    | (Returned (Some token, None), w1) =>
        if Valid token then
          if negb (str_eqb (JWTSource Spec) "") then
            let '(res, w2) := central token w1 in (Returned res, w2)
          else
            match getIdentityFomToken token w1 with
            | (Panicked m, w2) => (Panicked m, w2)
            | (Returned (_, false), w2) =>
                (Returned (Some (errors_New "Key id not found"), 403%Z), w2)
            | (Returned (tykId, true), w2) =>
                match CSI tykId w2 with
                | ((_, false), w3) =>
                    (Returned (Some (errors_New "Key not authorized"), 403%Z), w3)
                | ((s, true), w3) => (Returned (None, 200%Z), bound s tykId w3)
                end
            end
        else (Returned (Some (errors_New "Key not authorized"), 403%Z), refused r w1)
    | (Returned (None, None), w1) =>
        (Panicked "invalid memory address or nil pointer dereference", w1)
    | (Returned (_, Some _), w1) =>
        (Returned (Some (errors_New "Key not authorized"), 403%Z), refused r w1)
    end.
Proof.
  unfold JWTMiddleware_ProcessRequest.
  destruct (str_eqb (extractJWT Spec r) ""); [reflexivity|].
  unfold go_bind at 1.
  destruct (parse _ w) as [[[[token|] [e|]]|m] w1]; try reflexivity.
  destruct (Valid token); [|reflexivity].
  destruct (negb (str_eqb (JWTSource Spec) "")); [reflexivity|].
  unfold go_bind at 1.
  destruct (getIdentityFomToken token w1) as [[[tykId [|]]|m] w2]; try reflexivity.
  simpl. unfold go_bind, lift.
  destruct (CSI tykId w2) as [[s0 [|]] w3]; reflexivity.
Qed.

Lemma CSI_context key w : context (snd (CSI key w)) = context w.
Proof.
  pose proof (CSI_world Spec config Policies IsKeyAuthorised key w) as (_ & Hx & _).
  pose proof (csvk_frame Spec config Policies IsKeyAuthorised key w)
    as (_ & _ & _ & Hx1 & _).
  simpl in Hx, Hx1. rewrite Hx, Hx1. reflexivity.
Qed.

Lemma keyFunc_context token w : context (snd (key_func token w)) = context w.
Proof.
  unfold keyFunc. destruct (negb (method_gate _ token)); [reflexivity|].
  unfold getSecret, go_ret, go_bind, lift, panic.
  destruct (negb (str_eqb (JWTSource Spec) "")).
  - destruct (_ || _).
    + destruct (iface_at (Header token) "kid") as [|kid| | |]; try reflexivity.
      pose proof (getSecretFromURL_frame Spec http_Get ioutil_ReadAll json_Unmarshal_JWKs
                    b64_DecodeString (JWTSource Spec) kid (JWTSigningMethod Spec) w)
        as (_ & Hx & _).
      simpl in Hx.
      destruct (secretFromURL _ kid _ w) as [[sec [e|]] w1]; exact Hx.
    + destruct (b64_DecodeString _) as [d [e|]]; reflexivity.
  - rewrite getIdentityFomToken_eq.
    destruct (iface_at (Header token) "kid") as [|kid| | |]; try reflexivity.
    + destruct (iface_at (Claims token) "sub") as [|sub| | |]; try reflexivity.
      simpl. pose proof (CSI_context sub w) as Hx.
      destruct (CSI sub w) as [[s0 [|]] w1]; exact Hx.
    + simpl. pose proof (CSI_context kid w) as Hx.
      destruct (CSI kid w) as [[s0 [|]] w1]; exact Hx.
Qed.

Lemma parse_context raw w : context (snd (parse raw w)) = context w.
Proof.
  unfold jwt_Parse, go_bind, go_ret.
  destruct (jwt_decode raw) as [t e|t]; [reflexivity|].
  pose proof (keyFunc_context t w) as Hx.
  destruct (key_func t w) as [[[k [e|]]|m] w1]; try exact Hx.
  destruct (jwt_verify t k); exact Hx.
Qed.

(** X13. A request without a credential is answered 400 "Authorization
    field missing" and leaves the world as it was: no event, no health
    sample. With [UseCookie] set this is every request without the cookie,
    whatever its header and form value carry. *)
Theorem missing_credential_400 r w :
  extractJWT Spec r = "" ∨
  UseCookie (Auth Spec) = true ∧ Cookie r (AuthHeaderName (Auth Spec)) = None →
  JWT_ProcessRequest r w =
    (Returned (Some (errors_New "Authorization field missing"), 400%Z), w).
Proof.
  intros H.
  assert (Hraw : extractJWT Spec r = "").
  { destruct H as [H | [Hc Hn]]; [exact H|].
    unfold extractJWT. rewrite Hc, Hn. reflexivity. }
  rewrite ProcessRequest_eq, Hraw. reflexivity.
Qed.

(** X14. A token that does not decode, or whose signing method is not the
    one the API declares, is refused before any key is looked up: 403 "Key
    not authorized", and the world is the one of the request but for the
    queued [AuthFailure] event, which carries an empty key, and one
    [KeyFailure] sample. *)
Theorem bad_token_refused_before_key_lookup r w :
  extractJWT Spec r ≠ "" →
  (∃ t e, jwt_decode (stripBearer (extractJWT Spec r)) = DecodeFailed t e) ∨
  (∃ token, jwt_decode (stripBearer (extractJWT Spec r)) = DecodedToken token ∧
            method_gate Spec token = false) →
  JWT_ProcessRequest r w =
    (Returned (Some (errors_New "Key not authorized"), 403%Z), refused r w).
Proof.
  intros Hraw H. apply str_eqb_false in Hraw.
  rewrite ProcessRequest_eq, Hraw. unfold jwt_Parse, go_bind, go_ret, keyFunc.
  destruct H as [(t & e & ->) | (token & -> & Hg)].
  - destruct t; reflexivity.
  - rewrite Hg. reflexivity.
Qed.

(** X15. Whatever makes [jwt.Parse] fail (no key, a key retrieval error, a
    signature or a time claim that does not verify), the request is
    answered 403 "Key not authorized", and to the world the verification
    left it adds exactly one queued [AuthFailure] event with an empty key
    and one [KeyFailure] sample. *)
Theorem failed_verification_403 r w token err w1 :
  extractJWT Spec r ≠ "" →
  parse (stripBearer (extractJWT Spec r)) w = (Returned (token, Some err), w1) →
  JWT_ProcessRequest r w =
    (Returned (Some (errors_New "Key not authorized"), 403%Z), refused r w1).
Proof.
  intros Hraw Hp. apply str_eqb_false in Hraw.
  rewrite ProcessRequest_eq, Hraw, Hp. destruct token; reflexivity.
Qed.

Lemma centralised_status token w e code w' :
  central token w = ((e, code), w') →
  (code = 200%Z ∧ e = None ∧
   ∃ s k, context w' !! SessionData = Some (CtxSession s) ∧
          context w' !! AuthHeaderValue = Some (CtxString k)) ∨
  (code = 403%Z ∧ (∃ msg, e = Some (errors_New msg)) ∧ context w' = context w).
Proof.
  rewrite centralised_eq. unfold no_policy.
  assert (Hb : ∀ s k w0,
    ∃ s' k', context (bound s k w0) !! SessionData = Some (CtxSession s') ∧
             context (bound s k w0) !! AuthHeaderValue = Some (CtxString k')).
  { intros s k w0. exists s, k. unfold bound. simpl. split.
    - rewrite lookup_insert_ne by discriminate. apply lookup_insert_eq.
    - apply lookup_insert_eq. }
  destruct (identity_base Spec token) as [b|].
  - simpl. pose proof (CSI_context (OrgID Spec +:+ Sprintf_x (md5.Sum (bytes_of_string b))) w)
      as Hx.
    destruct (CSI _ w) as [[s0 [|]] w1]; simpl in Hx.
    + intros [= <- <- <-]. left. auto.
    + destruct (iface_at (Claims token) (JWTPolicyFieldName Spec));
        try (intros [= <- <- <-]; right; eauto).
      destruct (index_ok Policies _);
        try (intros [= <- <- <-]; right; eauto).
      destruct (str_eqb _ _); intros [= <- <- <-]; [left; auto | right; eauto].
  - intros [= <- <- <-]. right. eauto.
Qed.

(** X16. The JWT middleware answers with 200 and no error, with 400
    "Authorization field missing", or with 403 and an error; it returns
    no other status. *)
Theorem jwt_status_codes r w e code w' :
  JWTMiddleware_ProcessRequest Spec config Policies IsKeyAuthorised
    http_Get ioutil_ReadAll json_Unmarshal_JWKs b64_DecodeString
    stripBearer jwt_decode jwt_verify r w = (Returned (e, code), w') →
  code = 200%Z ∧ e = None ∨
  code = 400%Z ∧ e = Some (errors_New "Authorization field missing") ∨
  code = 403%Z ∧ ∃ msg, e = Some (errors_New msg).
Proof.
  rewrite ProcessRequest_eq.
  destruct (str_eqb (extractJWT Spec r) ""); [intros [= <- <- <-]; auto|].
  destruct (parse _ w) as [[[[token|] [err|]]|m] w1];
    try discriminate; try (intros [= <- <- <-]; right; right; eauto).
  destruct (Valid token); [|intros [= <- <- <-]; right; right; eauto].
  destruct (negb _).
  - destruct (central token w1) as [[e0 c0] w2] eqn:E. intros [= <- <- <-].
    destruct (centralised_status _ _ _ _ _ E) as [(-> & -> & _) | (-> & Hm & _)]; auto.
  - destruct (getIdentityFomToken token w1) as [[[tykId [|]]|m] w2];
      try discriminate; [|intros [= <- <- <-]; right; right; eauto].
    destruct (CSI tykId w2) as [[s0 [|]] w3]; intros [= <- <- <-]; eauto.
Qed.

Lemma ProcessRequest_context r w :
  let '(out, w') := JWT_ProcessRequest r w in
  match out with
  | Returned (_, code) =>
      if (code =? 200)%Z then
        ∃ s k, context w' !! SessionData = Some (CtxSession s) ∧
               context w' !! AuthHeaderValue = Some (CtxString k)
      else context w' = context w
  | Panicked _ => context w' = context w
  end.
Proof.
  rewrite ProcessRequest_eq.
  destruct (str_eqb (extractJWT Spec r) ""); [reflexivity|].
  pose proof (parse_context (stripBearer (extractJWT Spec r)) w) as Hp.
  destruct (parse _ w) as [[[[token|] [err|]]|m] w1]; simpl in Hp; try exact Hp.
  destruct (Valid token); [|exact Hp].
  destruct (negb _).
  - destruct (central token w1) as [[e0 c0] w2] eqn:E.
    destruct (centralised_status _ _ _ _ _ E) as [(-> & _ & Hb) | (-> & _ & Hx)];
      simpl; [exact Hb | congruence].
  - rewrite getIdentityFomToken_eq.
    assert (Hcsi : ∀ id,
      match (let '(p, w3) := CSI id w1 in
             let '(s, found) := p in
             if found then (Returned (None, 200%Z), bound s id w3)
             else (Returned (Some (errors_New "Key not authorized"), 403%Z), w3))
      with
      | (Returned (_, code), w') =>
          if (code =? 200)%Z then
            ∃ s k, context w' !! SessionData = Some (CtxSession s) ∧
                   context w' !! AuthHeaderValue = Some (CtxString k)
          else context w' = context w
      | (Panicked _, w') => context w' = context w
      end).
    { intros id. pose proof (CSI_context id w1) as Hx.
      destruct (CSI id w1) as [[s0 [|]] w3]; simpl in Hx |- *; [|congruence].
      exists s0, id. split.
      - rewrite lookup_insert_ne by discriminate. apply lookup_insert_eq.
      - apply lookup_insert_eq. }
    destruct (iface_at (Header token) "kid") as [|kid| | |]; try exact Hp.
    + destruct (iface_at (Claims token) "sub") as [|sub| | |]; try exact Hp.
      specialize (Hcsi sub). destruct (CSI sub w1) as [[s0 [|]] w3]; exact Hcsi.
    + specialize (Hcsi kid). destruct (CSI kid w1) as [[s0 [|]] w3]; exact Hcsi.
Qed.

(** X17. The request context changes on success only: a 200 has bound a
    session under [SessionData] and its key under [AuthHeaderValue]; any
    other return, and a panic, leave the context as the request found
    it. *)
Theorem jwt_binds_context_on_success_only r w :
  let '(out, w') := JWT_ProcessRequest r w in
  match out with
  | Returned (_, code) =>
      if (code =? 200)%Z then
        ∃ s k, context w' !! SessionData = Some (CtxSession s) ∧
               context w' !! AuthHeaderValue = Some (CtxString k)
      else context w' = context w
  | Panicked _ => context w' = context w
  end.
Proof. exact (ProcessRequest_context r w). Qed.

(** X18. Without a central source, a request that succeeds is bound to the
    identity of its token, the [kid] of the header or else the [sub]
    claim, and to the session resolved for that identity once the token
    was verified. *)
Theorem direct_mode_binds_identity r w w' :
  JWTSource Spec = "" →
  JWT_ProcessRequest r w = (Returned (None, 200%Z), w') →
  ∃ token id s,
    jwt_decode (stripBearer (extractJWT Spec r)) = DecodedToken token ∧
    direct_identity token = Some id ∧
    let verified := snd (parse (stripBearer (extractJWT Spec r)) w) in
    fst (CSI id verified) = (s, true) ∧
    context w' !! AuthHeaderValue = Some (CtxString id) ∧
    context w' !! SessionData = Some (CtxSession s).
Proof.
  intros Hsrc. rewrite ProcessRequest_eq, Hsrc.
  destruct (str_eqb (extractJWT Spec r) ""); [discriminate|].
  assert (Hdec : ∀ token w1,
    parse (stripBearer (extractJWT Spec r)) w = (Returned (Some token, None), w1) →
    ∃ t0, jwt_decode (stripBearer (extractJWT Spec r)) = DecodedToken t0 ∧
          Header token = Header t0 ∧ Claims token = Claims t0).
  { intros token w1. unfold jwt_Parse, go_bind, go_ret.
    destruct (jwt_decode _) as [t e0|t]; [discriminate|].
    destruct (key_func t w) as [[[k [e1|]]|m] w2]; try discriminate.
    destruct (jwt_verify t k); [discriminate|]. intros [= <- _]. eauto. }
  destruct (parse _ w) as [[[[token|] [err|]]|m] w1] eqn:Hp; try discriminate.
  destruct (Hdec _ _ eq_refl) as (t0 & Ht0 & Hh & Hc).
  destruct (Valid token); [|discriminate]. simpl.
  rewrite getIdentityFomToken_eq.
  assert (Hid : direct_identity t0 = direct_identity token)
    by (unfold direct_identity; rewrite Hh, Hc; reflexivity).
  assert (Hfin : ∀ id, direct_identity token = Some id →
    (let '(p, w3) := CSI id w1 in
     let '(s, found) := p in
     if found then (Returned (None, 200%Z), bound s id w3)
     else (Returned (Some (errors_New "Key not authorized"), 403%Z), w3))
      = (Returned (None, 200%Z), w') →
    ∃ token0 id0 s,
      DecodedToken t0 = DecodedToken token0 ∧ direct_identity token0 = Some id0 ∧
      fst (CSI id0 w1) = (s, true) ∧
      context w' !! AuthHeaderValue = Some (CtxString id0) ∧
      context w' !! SessionData = Some (CtxSession s)).
  { intros id Hi. destruct (CSI id w1) as [[s0 [|]] w3] eqn:E; [|discriminate].
    intros [= <-]. exists t0, id, s0. rewrite Hid, E.
    split; [reflexivity|]. split; [exact Hi|]. split; [reflexivity|].
    unfold bound. simpl. split; [apply lookup_insert_eq|].
    rewrite lookup_insert_ne by discriminate. apply lookup_insert_eq. }
  rewrite Ht0. unfold direct_identity in Hfin.
  destruct (iface_at (Header token) "kid") as [|kid| | |]; try discriminate.
  - destruct (iface_at (Claims token) "sub") as [|sub| | |]; try discriminate.
    specialize (Hfin sub eq_refl).
    destruct (CSI sub w1) as [[s0 [|]] w3]; exact Hfin.
  - specialize (Hfin kid eq_refl).
    destruct (CSI kid w1) as [[s0 [|]] w3]; exact Hfin.
Qed.

(** X19. With an inline source, a [JWTSource] that is not a URL, the key
    is the base64 decoding of the source for every token, the token is
    not read for it, and verifying a token leaves the whole world as it
    was. *)
Theorem inline_source_key token w :
  JWTSource Spec ≠ "" →
  source_is_URL Spec = false →
  secret token w =
    (Returned (match b64_DecodeString (JWTSource Spec) with
               | (_, Some e) => ([], Some e)
               | (decodedCert, None) => (decodedCert, None)
               end), w) ∧
  ∀ raw, snd (parse raw w) = w.
Proof.
  intros Hsrc Hurl. apply str_eqb_false in Hsrc.
  unfold source_is_URL in Hurl. rewrite Hsrc in Hurl. simpl in Hurl.
  assert (Hkey : ∀ t, secret t w =
    (Returned (match b64_DecodeString (JWTSource Spec) with
               | (_, Some e) => ([], Some e)
               | (decodedCert, None) => (decodedCert, None)
               end), w)).
  { intros t. unfold getSecret. rewrite Hsrc, Hurl. simpl.
    destruct (b64_DecodeString _) as [d [e|]]; reflexivity. }
  split; [apply Hkey|].
  intros raw. unfold jwt_Parse, go_bind, go_ret, keyFunc.
  destruct (jwt_decode raw) as [t e|t]; [reflexivity|].
  destruct (negb (method_gate Spec t)); [reflexivity|].
  rewrite Hkey. destruct (b64_DecodeString _) as [d [e|]]; [reflexivity|].
  destruct (jwt_verify t d); reflexivity.
Qed.

(** *** The rate-limit middleware *)

Lemma spawn_all_eq gs w :
  spawn_all gs w = (tt, set_goroutines (λ q, (q ++ gs)%list) w).
Proof.
  revert w. induction gs as [|g gs IH]; intros w; simpl.
  - unfold ret, set_goroutines. rewrite app_nil_r. destruct w; reflexivity.
  - unfold bind, spawn. rewrite IH. unfold set_goroutines. simpl.
    rewrite <- app_assoc. reflexivity.
Qed.

Lemma applyRateLimiting_status key s r w :
  let code := snd (fst (rateLimiting key s r w)) in
  code = 200%Z ∨ code = 403%Z ∨ code = 429%Z.
Proof.
  unfold applyRateLimiting, run_ForwardMessage, bind, ret.
  destruct (ForwardMessage s key (sessions w, counters w))
    as [[[allowed reason] s'] [ss cs]]; simpl.
  unfold spawn, UpdateSession, context_Set, ReportHealthCheckValue.
  destruct (UseAsyncSessionWrite config); simpl; destruct allowed; simpl;
    try (destruct (MonitorUserKeys config); simpl; rewrite ?spawn_all_eq; simpl; auto);
    (destruct (reason =? 1)%Z; simpl; [auto|]);
    destruct (reason =? 2)%Z; simpl; auto.
Qed.

Lemma RateLimit_cases r w :
  match RateLimit_ProcessRequest r w with
  | (Panicked _, w') =>
      w' = w ∧
      ¬ ∃ s k, context w !! SessionData = Some (CtxSession s) ∧
               context w !! AuthHeaderValue = Some (CtxString k)
  | (Returned (_, code), _) =>
      (∃ s k, context w !! SessionData = Some (CtxSession s) ∧
              context w !! AuthHeaderValue = Some (CtxString k)) ∧
      (code = 200%Z ∨ code = 403%Z ∨ code = 429%Z)
  end.
Proof.
  unfold RateLimitAndQuotaCheck_ProcessRequest.
  destruct (context w !! SessionData) as [[s|x]|] eqn:Es;
    try (split; [reflexivity|]; intros (s' & k & H & _); discriminate).
  destruct (context w !! AuthHeaderValue) as [[x|k]|] eqn:Ek;
    try (split; [reflexivity|]; intros (s' & k' & _ & H); discriminate).
  unfold lift.
  assert (Hst : ∀ key s0 w0,
    match (let '(a, w') := rateLimiting key s0 r w0 in (Returned a, w')) with
    | (Panicked _, _) => False
    | (Returned (_, code), _) => code = 200%Z ∨ code = 403%Z ∨ code = 429%Z
    end).
  { intros key s0 w0. pose proof (applyRateLimiting_status key s0 r w0) as H.
    destruct (rateLimiting key s0 r w0) as [[e c] w1]. exact H. }
  destruct (SessionState.PolicyPerAPI s).
  - unfold bind, GetSessionDetail.
    destruct (sessions w !! _) as [[p t]|].
    + specialize (Hst (k +:+ APISessionKeySuffix +:+ APIID Spec) p w).
      destruct (rateLimiting _ p r w) as [[e c] w1]. split; [eauto | exact Hst].
    + specialize (Hst k s w).
      destruct (rateLimiting k s r w) as [[e c] w1]. split; [eauto | exact Hst].
  - specialize (Hst k s w).
    destruct (rateLimiting k s r w) as [[e c] w1]. split; [eauto | exact Hst].
Qed.

(** X20. The rate-limit middleware panics exactly when the request
    context does not hold a session under [SessionData] and a string under
    [AuthHeaderValue], and then it has changed nothing; when it returns,
    its status is 200, 403 or 429. *)
Theorem rate_limit_needs_bound_context r w :
  match RateLimit_ProcessRequest r w with
  | (Panicked _, w') =>
      w' = w ∧
      ¬ ∃ s k, context w !! SessionData = Some (CtxSession s) ∧
               context w !! AuthHeaderValue = Some (CtxString k)
  | (Returned (_, code), _) =>
      (∃ s k, context w !! SessionData = Some (CtxSession s) ∧
              context w !! AuthHeaderValue = Some (CtxString k)) ∧
      (code = 200%Z ∨ code = 403%Z ∨ code = 429%Z)
  end.
Proof. exact (RateLimit_cases r w). Qed.

(** X21. The two middlewares compose: after a request the JWT middleware
    answered with 200, the rate-limit middleware does not panic on the
    world it left, and answers 200, 403 or 429. *)
Theorem rate_limit_after_jwt_success r w e w' r' :
  JWTMiddleware_ProcessRequest Spec config Policies IsKeyAuthorised
    http_Get ioutil_ReadAll json_Unmarshal_JWKs b64_DecodeString
    stripBearer jwt_decode jwt_verify r w = (Returned (e, 200%Z), w') →
  ∃ e' code w'',
    RateLimitAndQuotaCheck_ProcessRequest Spec config ForwardMessage sessionMonitor_Check
      r' w' = (Returned (e', code), w'') ∧
    (code = 200%Z ∨ code = 403%Z ∨ code = 429%Z).
Proof.
  intros H. pose proof (ProcessRequest_context r w) as Hb. rewrite H in Hb.
  simpl in Hb. pose proof (RateLimit_cases r' w') as Hrl.
  destruct (RateLimit_ProcessRequest r' w') as [[[e' code]|m] w''].
  - exists e', code, w''. split; [reflexivity | apply Hrl].
  - destruct Hrl as [_ Hn]. contradiction.
Qed.


Lemma land_from_events es w :
  let w' := land_from (replicate (length es) true) (map go_FireEvent es) w in
  sessions w' = sessions w ∧ context w' = context w ∧
  health w' = health w ∧ counters w' = counters w.
Proof.
  revert w. induction es as [|ev es IH]; intros w; simpl; [auto|].
  specialize (IH (set_fired (λ q, (q ++ [ev])%list) w)). simpl in IH. exact IH.
Qed.

(** X23. Asynchronous and synchronous session writes end in the same
    place: from a world with an empty queue, once every goroutine that
    [applyRateLimiting] queued in asynchronous mode has run, the
    SessionStore, the request context, the health samples and the
    limiter's counters are those the synchronous mode leaves at once, and
    the answer is the same. *)
Theorem async_landed_equals_sync ca cs key s r w :
  UseAsyncSessionWrite ca = true →
  UseAsyncSessionWrite cs = false →
  MonitorUserKeys ca = MonitorUserKeys cs →
  goroutines w = [] →
  let ra := applyRateLimiting ca ForwardMessage sessionMonitor_Check key s r w in
  let rs := applyRateLimiting cs ForwardMessage sessionMonitor_Check key s r w in
  let landed := land (replicate (length (goroutines (snd ra))) true) (snd ra) in
  fst ra = fst rs ∧
  sessions landed = sessions (snd rs) ∧ context landed = context (snd rs) ∧
  health landed = health (snd rs) ∧ counters landed = counters (snd rs).
Proof.
  intros Ha Hs Hm Hq. simpl.
  unfold applyRateLimiting, run_ForwardMessage, bind, ret. rewrite Ha, Hs, Hm.
  destruct (ForwardMessage s key (sessions w, counters w))
    as [[[allowed reason] s'] [ss cs0]]; simpl.
  unfold spawn, UpdateSession, context_Set, ReportHealthCheckValue, land. simpl.
  rewrite Hq. simpl.
  destruct allowed; simpl.
  - destruct (MonitorUserKeys cs); simpl; [|auto].
    rewrite !spawn_all_eq. simpl. rewrite length_map.
    split; [reflexivity|].
    match goal with
    | |- context [land_from _ (map go_FireEvent ?es) ?w0] =>
        pose proof (land_from_events es w0) as H
    end.
    simpl in H. destruct H as (-> & -> & -> & ->). auto.
  - destruct (reason =? 1)%Z; simpl; [auto|].
    destruct (reason =? 2)%Z; simpl; auto.
Qed.

End More.

Section Handlers.
Set Default Proof Using "Type".

Variable rpc_GetPolicies : string → string.
Variable json_Unmarshal_policy_list : string → list Policy.t * error.
Variable mgo_Dial : nat → bool.
Variable mgo_Find_active : nat → string → list Policy.t * error.

Local Abbreviation PoliciesFromRPC :=
  (LoadPoliciesFromRPC rpc_GetPolicies json_Unmarshal_policy_list).
Local Abbreviation PoliciesFromMongo :=
  (LoadPoliciesFromMongo mgo_Dial mgo_Find_active).

(** *** The local session cache *)

(** X24. For configured values of at most 9223372036 seconds the local
    cache gets the configured expiration and cleanup interval, 10 s and
    5 s standing in for values that are not positive, and both durations
    are positive; a timeout above that and up to 18446744073 overflows the
    nanosecond count and the expiration handed to the cache is negative. *)
Theorem session_cache_durations c :
  let '(expiration, cleanup) := SetUpSessionCache c in
  (CachedSessionTimeout c ≤ 9223372036 →
   expiration = (if (CachedSessionTimeout c >? 0)%Z then CachedSessionTimeout c else 10)
                * time_Second ∧ 0 < expiration)%Z ∧
  (CacheSessionEviction c ≤ 9223372036 →
   cleanup = (if (CacheSessionEviction c >? 0)%Z then CacheSessionEviction c else 5)
             * time_Second ∧ 0 < cleanup)%Z ∧
  (9223372036 < CachedSessionTimeout c ≤ 18446744073 → expiration < 0)%Z.
Proof.
  unfold SetUpSessionCache, mul64, time_Second.
  assert (Hsmall : ∀ x : Z, (0 < x ≤ 9223372036 →
    (x * 1000000000 + 2 ^ 63) mod 2 ^ 64 - 2 ^ 63 = x * 1000000000)%Z).
  { intros x Hx. rewrite Z.mod_small; lia. }
  assert (Hbig : ∀ x : Z, (9223372036 < x ≤ 18446744073 →
    (x * 1000000000 + 2 ^ 63) mod 2 ^ 64 - 2 ^ 63 = x * 1000000000 - 2 ^ 64)%Z).
  { intros x Hx.
    rewrite <- (Z.mod_unique (x * 1000000000 + 2 ^ 63) (2 ^ 64) 1
                  (x * 1000000000 + 2 ^ 63 - 2 ^ 64)); lia. }
  split; [|split].
  - intros H. destruct (CachedSessionTimeout c >? 0)%Z eqn:E.
    + rewrite Hsmall by lia. lia.
    + rewrite (Hsmall 10%Z) by lia. lia.
  - intros H. destruct (CacheSessionEviction c >? 0)%Z eqn:E.
    + rewrite Hsmall by lia. lia.
    + rewrite (Hsmall 5%Z) by lia. lia.
  - intros H. destruct (CachedSessionTimeout c >? 0)%Z eqn:E; [|lia].
    rewrite Hbig by lia. lia.
Qed.

(** *** The policy loaders *)

Lemma index_policies_other l m k :
  Forall (λ q, ObjectId_Hex (Policy.MID q) ≠ k) l →
  index_policies l m !! k = m !! k.
Proof.
  intros H. revert m. unfold index_policies.
  induction H as [|q l Hq _ IH]; intros m; simpl; [reflexivity|].
  rewrite IH. apply lookup_insert_ne. exact Hq.
Qed.

Lemma index_policies_lookup l m k p :
  index_policies l m !! k = Some p →
  m !! k = Some p ∨
  ∃ q, In q l ∧ k = ObjectId_Hex (Policy.MID q) ∧ p = Policy_set_ID k q.
Proof.
  revert m. unfold index_policies.
  induction l as [|q l IH]; intros m; simpl; [auto|].
  intros H. destruct (IH _ H) as [Hm | (q' & Hin & Hk & Hp)].
  - destruct (decide (ObjectId_Hex (Policy.MID q) = k)) as [<-|Hne].
    + rewrite lookup_insert_eq in Hm. injection Hm as <-. right. exists q. auto.
    + rewrite lookup_insert_ne in Hm by exact Hne. auto.
  - right. exists q'. auto.
Qed.

(** X25. The policies that come over RPC are indexed by the hexadecimal
    form of their object id, which also becomes their [ID]: every entry
    of the map is a policy of the decoded list under that key with that
    [ID], and of the policies that share an id the last one of the list
    is the one kept. *)
Theorem rpc_policies_keyed_by_hex_id orgId l :
  json_Unmarshal_policy_list (rpc_GetPolicies orgId) = (l, None) →
  ∃ m, PoliciesFromRPC orgId = Some m ∧
    (∀ k p, m !! k = Some p →
       Policy.ID p = k ∧
       ∃ q, In q l ∧ k = ObjectId_Hex (Policy.MID q) ∧ p = Policy_set_ID k q) ∧
    (∀ pre q post,
       l = (pre ++ q :: post)%list →
       Forall (λ x, ObjectId_Hex (Policy.MID x) ≠ ObjectId_Hex (Policy.MID q)) post →
       m !! ObjectId_Hex (Policy.MID q)
         = Some (Policy_set_ID (ObjectId_Hex (Policy.MID q)) q)).
Proof.
  intros Hd. unfold LoadPoliciesFromRPC. rewrite Hd.
  eexists. split; [reflexivity|]. split.
  - intros k p H. apply index_policies_lookup in H as [H | (q & Hin & Hk & Hp)].
    + rewrite lookup_empty in H. discriminate.
    + split; [subst p; reflexivity | eauto].
  - intros pre q post -> Hpost.
    unfold index_policies. rewrite fold_left_app. simpl.
    fold (index_policies post
            (<[ObjectId_Hex (Policy.MID q) :=
                 Policy_set_ID (ObjectId_Hex (Policy.MID q)) q]>
               (fold_left
                  (λ policies p,
                     <[ObjectId_Hex (Policy.MID (Policy_set_ID (ObjectId_Hex (Policy.MID p)) p))
                       := Policy_set_ID (ObjectId_Hex (Policy.MID p)) p]> policies)
                  pre ∅))).
    rewrite index_policies_other by exact Hpost. apply lookup_insert_eq.
Qed.

(** X26. [LoadPoliciesFromMongo] never gives up on the dial: while the
    dials fail it calls itself again and does not return, and it returns
    at the first dial that succeeds, with the policies of the query made
    on that session, or with the empty map when the query fails. *)
Theorem mongo_retries_until_dial_succeeds a n c :
  (∀ i, (i < n)%nat → mgo_Dial (a + i) = false) →
  (∀ fuel, (fuel ≤ n)%nat → PoliciesFromMongo fuel a c = None) ∧
  (mgo_Dial (a + n) = true →
   ∀ fuel, (n < fuel)%nat →
     PoliciesFromMongo fuel a c =
       Some (match mgo_Find_active (a + n)%nat c with
             | (_, Some _) => Some ∅
             | (dbPolicyList, None) => Some (index_policies dbPolicyList ∅)
             end)).
Proof.
  revert a. induction n as [|n IH]; intros a Hfail.
  - split.
    + intros fuel Hf. assert (fuel = 0%nat) as -> by lia. reflexivity.
    + rewrite Nat.add_0_r. intros Hd [|fuel] Hf; [lia|]. simpl. rewrite Hd. simpl.
      destruct (mgo_Find_active a c) as [l [e|]]; reflexivity.
  - assert (H0 : mgo_Dial a = false).
    { rewrite <- (Nat.add_0_r a). apply Hfail. lia. }
    destruct (IH (S a)) as [IHn IHs].
    { intros i Hi. replace (S a + i)%nat with (a + S i)%nat by lia. apply Hfail. lia. }
    split.
    + intros [|fuel] Hf; [reflexivity|]. simpl. rewrite H0. simpl. apply IHn. lia.
    + replace (a + S n)%nat with (S a + n)%nat by lia. intros Hd [|fuel] Hf; [lia|].
      simpl. rewrite H0. simpl. apply IHs; [exact Hd | lia].
Qed.

End Handlers.

Section Tracking.
Set Default Proof Using "Type".

Variable Spec : APISpec.
Variable config : Config.
Variable Policies : GoMap Policy.t.
Variable IsKeyAuthorised : string → SessionState.t * bool.
Variable http_Get : string → string * error.
Variable ioutil_ReadAll : string → string * error.
Variable json_Unmarshal_JWKs : string → JWKs * error.
Variable b64_DecodeString : string → bytes * error.
Variable stripBearer : string → string.
Variable jwt_decode : string → Decoded.
Variable jwt_verify : Token → bytes → error.
Variable tracking : TrackingSpec.
Variable analyticsConf : AnalyticsConf.
Variable StoreAnalytics : HttpRequest → bool.
Variable getVersionFromRequest : HttpRequest → string.
Variable now now' : Time.
Variable wire_request : HttpRequest → string.
Variable wire_response : Z → string.
Variable OrgSessionManager_GetSessionDetail : string → SessionState.t * bool.

Local Abbreviation JWT_ProcessRequest :=
  (JWTMiddleware_ProcessRequest Spec config Policies IsKeyAuthorised
     http_Get ioutil_ReadAll json_Unmarshal_JWKs b64_DecodeString
     stripBearer jwt_decode jwt_verify).
Local Abbreviation Record_Hit :=
  (RecordHit Spec tracking analyticsConf StoreAnalytics getVersionFromRequest
     now now' wire_request wire_response OrgSessionManager_GetSessionDetail).

(** *** The success handler *)

Ltac record_hit w :=
  unfold RecordHit, go_bind, go_ret, lift, ReportHealthCheckValue, context_Clear;
  destruct (DoNotTrack tracking) eqn:?; simpl;
  try (destruct (StoreAnalytics _) eqn:?; simpl);
  try (destruct (context w !! AuthHeaderValue) as [[?|?]|] eqn:?; simpl);
  try (destruct (context w !! SessionData) as [[?|?]|] eqn:?; simpl).


(** X28. The record handed to the analytics names the key bound in the
    request context, or no key when none is bound; it carries the OAuth
    client and the tags of the bound session, or none; its version is
    never empty, "Non Versioned" standing in; it has the response code
    and the timing it was given; and without detailed recording it holds
    no raw request and no raw response. *)
Theorem record_hit_fields r timing code requestCopy responseCopy w rec w' :
  Record_Hit r timing code requestCopy responseCopy w = (Returned (Some rec), w') →
  AnalyticsRecord.APIKey rec =
    match context w !! AuthHeaderValue with Some (CtxString k) => k | _ => "" end ∧
  (AnalyticsRecord.OauthID rec, AnalyticsRecord.Tags rec) =
    match context w !! SessionData with
    | Some (CtxSession s) => (SessionState.OauthClientID s, SessionState.Tags s)
    | _ => ("", [])
    end ∧
  AnalyticsRecord.APIVersion rec ≠ "" ∧
  (getVersionFromRequest r ≠ "" → AnalyticsRecord.APIVersion rec = getVersionFromRequest r) ∧
  AnalyticsRecord.ResponseCode rec = code ∧
  AnalyticsRecord.RequestTime rec = timing ∧
  (EnableDetailedRecording analyticsConf = false →
   AnalyticsRecord.RawRequest rec = "" ∧ AnalyticsRecord.RawResponse rec = "").
Proof.
  assert (Hv : (if str_eqb (getVersionFromRequest r) "" then "Non Versioned"
                else getVersionFromRequest r) ≠ "" ∧
               (getVersionFromRequest r ≠ "" →
                (if str_eqb (getVersionFromRequest r) "" then "Non Versioned"
                 else getVersionFromRequest r) = getVersionFromRequest r)).
  { destruct (str_eqb (getVersionFromRequest r) "") eqn:E.
    - apply str_eqb_true in E. split; [discriminate|]. intros H. contradiction.
    - apply str_eqb_false in E. split; [exact E | reflexivity]. }
  destruct Hv as [Hv1 Hv2].
  record_hit w; try discriminate;
    destruct (EnableDetailedRecording analyticsConf); simpl;
    intros [= <- <-]; simpl; repeat split; auto; discriminate.
Qed.

(** X29. The record expires after the data age of the organisation when
    that is enforced and the organisation has a session with a positive
    age; in every other case, the organisation being unknown included,
    after what the API itself sets. *)
Theorem record_hit_expiry r timing code requestCopy responseCopy w rec w' :
  Record_Hit r timing code requestCopy responseCopy w = (Returned (Some rec), w') →
  let '(org, found) := OrgSessionManager_GetSessionDetail (OrgID Spec) in
  (EnforceOrgDataAge analyticsConf = true → found = true →
   (0 < SessionState.DataExpires org)%Z →
   AnalyticsRecord.Expiry rec = SessionState.DataExpires org) ∧
  (EnforceOrgDataAge analyticsConf = false ∨ found = false ∨
   (SessionState.DataExpires org ≤ 0)%Z →
   AnalyticsRecord.Expiry rec = ExpireAnalyticsAfter tracking).
Proof.
  assert (He : ∀ org found, OrgSessionManager_GetSessionDetail (OrgID Spec) = (org, found) →
    let e := (if EnforceOrgDataAge analyticsConf then
                let '(orgSessionState, found) :=
                  GetOrgSession OrgSessionManager_GetSessionDetail (OrgID Spec) in
                if found then
                  if (SessionState.DataExpires orgSessionState >? 0)%Z
                  then SessionState.DataExpires orgSessionState
                  else ExpireAnalyticsAfter tracking
                else ExpireAnalyticsAfter tracking
              else ExpireAnalyticsAfter tracking) in
    (EnforceOrgDataAge analyticsConf = true → found = true →
     (0 < SessionState.DataExpires org)%Z → e = SessionState.DataExpires org) ∧
    (EnforceOrgDataAge analyticsConf = false ∨ found = false ∨
     (SessionState.DataExpires org ≤ 0)%Z → e = ExpireAnalyticsAfter tracking)).
  { intros org found Ho. unfold GetOrgSession. rewrite Ho. simpl.
    destruct (EnforceOrgDataAge analyticsConf); simpl.
    - destruct found; simpl.
      + destruct (SessionState.DataExpires org >? 0)%Z eqn:E; split;
          try (intros; reflexivity); try (intros; lia).
      + split; [discriminate | reflexivity].
    - split; [discriminate | reflexivity]. }
  destruct (OrgSessionManager_GetSessionDetail (OrgID Spec)) as [org found] eqn:Ho.
  specialize (He org found eq_refl). simpl in He.
  record_hit w; try discriminate;
    destruct (EnableDetailedRecording analyticsConf); simpl;
    intros [= <- <-]; exact He.
Qed.

(** X30. The success handler composes with the JWT middleware: on the
    world a request answered with 200 left, [RecordHit] with tracking on
    and analytics stored does not panic, and its record names the key the
    middleware bound. *)
Theorem record_hit_after_jwt_success r w e w' hr timing code requestCopy responseCopy :
  JWT_ProcessRequest r w = (Returned (e, 200%Z), w') →
  DoNotTrack tracking = false →
  StoreAnalytics hr = true →
  ∃ rec w'',
    Record_Hit hr timing code requestCopy responseCopy w' = (Returned (Some rec), w'') ∧
    context w' !! AuthHeaderValue = Some (CtxString (AnalyticsRecord.APIKey rec)) ∧
    context w'' = ∅.
Proof.
  intros H Ht Hs.
  pose proof (ProcessRequest_context Spec config Policies IsKeyAuthorised http_Get
                ioutil_ReadAll json_Unmarshal_JWKs b64_DecodeString stripBearer
                jwt_decode jwt_verify r w) as Hb.
  rewrite H in Hb. simpl in Hb. destruct Hb as (s & k & Hsd & Hk).
  unfold RecordHit, go_bind, go_ret, lift, ReportHealthCheckValue, context_Clear.
  rewrite Ht, Hs, Hk, Hsd. simpl.
  destruct (EnableDetailedRecording analyticsConf); simpl;
    eexists; eexists; (split; [reflexivity|]); simpl; auto.
Qed.

End Tracking.

(** * The further properties on the example gateway *)

Section MoreRuns.
Local Abbreviation csvk_of c A :=
  (checkSessionAndValidateKey Ex.Spec c Ex.Policies A).
Local Abbreviation CSI_of c A :=
  (CheckSessionAndIdentityForValidKey Ex.Spec c Ex.Policies A).

(** X1 on a key nobody knows. *)
Lemma failed_lookup_writes_nothing_witness :
  snd (fst (CSI_of Ex.config Ex.IsKeyAuthorised "nobody" Ex.w0)) = false ∧
  snd (CSI_of Ex.config Ex.IsKeyAuthorised "nobody" Ex.w0) = Ex.w0 ∧
  snd (csvk_of Ex.config Ex.IsKeyAuthorised "nobody" Ex.w0) = Ex.w0.
Proof.
  assert (H : snd (fst (CSI_of Ex.config Ex.IsKeyAuthorised "nobody" Ex.w0)) = false)
    by (vm_compute; reflexivity).
  split; [exact H|].
  exact (failed_lookup_writes_nothing Ex.Spec Ex.config Ex.Policies Ex.IsKeyAuthorised
           "nobody" Ex.w0 H).
Defined.

(** X2 on a key that only the AuthStore knows. *)
Lemma resolved_session_is_stored_witness :
  fst (csvk_of Ex.config Ex2.IsKeyAuthorised "k2" Ex.w0)
    = (SessionState.overlay (Ex.P1 "O1") Ex2.session_k1, true) ∧
  sessions (snd (csvk_of Ex.config Ex2.IsKeyAuthorised "k2" Ex.w0)) !! "k2"
    = Some (SessionState.overlay (Ex.P1 "O1") Ex2.session_k1, SessionLifetime Ex.Spec).
Proof.
  assert (H : fst (csvk_of Ex.config Ex2.IsKeyAuthorised "k2" Ex.w0)
                = (SessionState.overlay (Ex.P1 "O1") Ex2.session_k1, true))
    by (vm_compute; reflexivity).
  split; [exact H|].
  exact (proj2 (resolved_session_is_stored Ex.Spec Ex.config Ex.Policies
                  Ex2.IsKeyAuthorised "k2" Ex.w0 _ (or_intror eq_refl) H) eq_refl).
Defined.

(** X3 on a world whose local cache holds [k1]. *)
Lemma cache_hit_shadows_store_witness :
  SessionCache Ex2.w_cached !! "k1" = Some Ex2.session_k1 ∧
  fst (csvk_of Ex.config Ex.IsKeyAuthorised "k1" Ex2.w_cached)
    = (applied Ex.Spec Ex.Policies Ex2.session_k1, true).
Proof.
  assert (H : SessionCache Ex2.w_cached !! "k1" = Some Ex2.session_k1)
    by (vm_compute; reflexivity).
  split; [exact H|].
  exact (proj1 (cache_hit_shadows_store Ex.Spec Ex.config Ex.Policies Ex.IsKeyAuthorised
                  "k1" Ex2.w_cached Ex2.session_k1 eq_refl H)).
Defined.

(** X4 with the local cache switched off. *)
Lemma disabled_cache_is_still_written_witness :
  sessions Ex2.w_k1 !! "k1" = Some (Ex2.session_k1, 3600) ∧
  goroutines (snd (csvk_of Ex2.config_nocache Ex.IsKeyAuthorised "k1" Ex2.w_k1))
    = (goroutines Ex2.w_k1 ++ [go_SessionCache_Set "k1" Ex2.session_k1])%list.
Proof.
  assert (H : sessions Ex2.w_k1 !! "k1" = Some (Ex2.session_k1, 3600))
    by (vm_compute; reflexivity).
  split; [exact H|].
  exact (proj2 (proj2 (disabled_cache_is_still_written Ex.Spec Ex2.config_nocache
                         Ex.Policies Ex.IsKeyAuthorised "k1" Ex2.w_k1 Ex2.session_k1 3600
                         eq_refl H))).
Defined.

(** X6 on a stored session that names the policy P1. *)
Lemma resolution_keeps_counters_witness :
  fst (csvk_of Ex.config Ex.IsKeyAuthorised "k1" Ex2.w_k1)
    = (SessionState.overlay (Ex.P1 "O1") Ex2.session_k1, true) ∧
  ∃ held,
    (DisableCacheSessionState Ex.config = false ∧ SessionCache Ex2.w_k1 !! "k1" = Some held ∨
     (∃ ttl, sessions Ex2.w_k1 !! "k1" = Some (held, ttl)) ∨
     Ex.IsKeyAuthorised "k1" = (held, true)) ∧
    SessionState.QuotaRemaining (SessionState.overlay (Ex.P1 "O1") Ex2.session_k1)
      = SessionState.QuotaRemaining held.
Proof.
  assert (H : fst (csvk_of Ex.config Ex.IsKeyAuthorised "k1" Ex2.w_k1)
                = (SessionState.overlay (Ex.P1 "O1") Ex2.session_k1, true))
    by (vm_compute; reflexivity).
  split; [exact H|].
  destruct (resolution_keeps_counters Ex.Spec Ex.config Ex.Policies Ex.IsKeyAuthorised
              "k1" Ex2.w_k1 _ H) as (held & Hfrom & Hq & _).
  exists held. split; [exact Hfrom | exact Hq].
Defined.




Local Abbreviation secretFromURL_ex :=
  (getSecretFromURL Ex.Spec Ex.http_Get Ex.ioutil_ReadAll Ex.json_Unmarshal_JWKs
     Ex.b64_DecodeString).

(** X11 on the key set of scenario 3: a second lookup, for another URL
    and another key id, is answered from the set of the first. *)
Lemma jwks_cached_by_api_id_witness :
  index_ok (JWKCache Ex.w0) (APIID Ex.Spec) = None ∧
  let w1 := snd (secretFromURL_ex "https://idp/jwks" "K1" "rsa" Ex.w0) in
  secretFromURL_ex "https://idp/other" "K9" "rsa" w1
    = (([], Some (errors_New "No matching KID could be found")), w1).
Proof.
  split; [reflexivity|].
  destruct (jwks_cached_by_api_id Ex.Spec Ex.http_Get Ex.ioutil_ReadAll
              Ex.json_Unmarshal_JWKs Ex.b64_DecodeString
              "https://idp/jwks" "K1" "rsa" Ex.w0 Ex.jwks_body Ex.jwks_body
              [{| Alg := "RS256"; Kty := "RSA"; Use := "sig"; X5c := ["Y2VydA=="];
                  KID := "K1" |}]
              eq_refl eq_refl eq_refl eq_refl) as [_ H].
  exact (H "https://idp/other" "K9" "rsa").
Defined.

(** X12 on a URL that answers with a page that is no key set. *)
Lemma failed_fetch_caches_nothing_witness :
  snd (Ex.json_Unmarshal_JWKs (fst (Ex.ioutil_ReadAll (fst (Ex.http_Get "https://idp/broken")))))
    ≠ None ∧
  index_ok (JWKCache (snd (secretFromURL_ex "https://idp/broken" "K1" "rsa" Ex.w0)))
    (APIID Ex.Spec) = None.
Proof.
  assert (H : snd (Ex.json_Unmarshal_JWKs
                     (fst (Ex.ioutil_ReadAll (fst (Ex.http_Get "https://idp/broken")))))
                ≠ None) by (vm_compute; discriminate).
  split; [exact H|].
  exact (proj2 (failed_fetch_caches_nothing Ex.Spec Ex.http_Get Ex.ioutil_ReadAll
                  Ex.json_Unmarshal_JWKs Ex.b64_DecodeString
                  "https://idp/broken" "K1" "rsa" Ex.w0 eq_refl (or_intror (or_intror H)))).
Defined.

Local Abbreviation JWT_of S decode verify :=
  (JWTMiddleware_ProcessRequest S Ex.config Ex.Policies Ex.IsKeyAuthorised
     Ex.http_Get Ex.ioutil_ReadAll Ex.json_Unmarshal_JWKs Ex.b64_DecodeString
     Ex.stripBearer decode verify).
Local Abbreviation parse_of S decode verify raw :=
  (jwt_Parse decode verify raw
     (keyFunc S Ex.config Ex.Policies Ex.IsKeyAuthorised
        Ex.http_Get Ex.ioutil_ReadAll Ex.json_Unmarshal_JWKs Ex.b64_DecodeString)).

(** X13 on an API that reads the credential from a cookie: the header of
    the request is not looked at. *)
Lemma missing_credential_400_witness :
  UseCookie (Auth Ex2.SpecCookie) = true ∧
  Cookie (Ex.request "Bearer tok-a") (AuthHeaderName (Auth Ex2.SpecCookie)) = None ∧
  JWT_of Ex2.SpecCookie Ex.jwt_decode Ex.jwt_verify (Ex.request "Bearer tok-a") Ex.w0
    = (Returned (Some (errors_New "Authorization field missing"), 400%Z), Ex.w0).
Proof.
  split; [reflexivity|]. split; [reflexivity|].
  exact (missing_credential_400 Ex2.SpecCookie Ex.config Ex.Policies Ex.IsKeyAuthorised
           Ex.http_Get Ex.ioutil_ReadAll Ex.json_Unmarshal_JWKs Ex.b64_DecodeString
           Ex.stripBearer Ex.jwt_decode Ex.jwt_verify (Ex.request "Bearer tok-a") Ex.w0
           (or_intror (conj eq_refl eq_refl))).
Defined.

(** X14 on an HMAC token sent to an API that declares RSA. *)
Lemma bad_token_refused_before_key_lookup_witness :
  extractJWT Ex.Spec (Ex.request "Bearer tok-h") ≠ "" ∧
  Ex2.jwt_decode (Ex.stripBearer (extractJWT Ex.Spec (Ex.request "Bearer tok-h")))
    = DecodedToken Ex2.token_h ∧
  method_gate Ex.Spec Ex2.token_h = false ∧
  JWT_of Ex.Spec Ex2.jwt_decode Ex.jwt_verify (Ex.request "Bearer tok-h") Ex.w0
    = (Returned (Some (errors_New "Key not authorized"), 403%Z),
       refused (Ex.request "Bearer tok-h") Ex.w0).
Proof.
  assert (H1 : extractJWT Ex.Spec (Ex.request "Bearer tok-h") ≠ "")
    by (vm_compute; discriminate).
  assert (H2 : Ex2.jwt_decode (Ex.stripBearer (extractJWT Ex.Spec (Ex.request "Bearer tok-h")))
                 = DecodedToken Ex2.token_h) by (vm_compute; reflexivity).
  assert (H3 : method_gate Ex.Spec Ex2.token_h = false) by reflexivity.
  repeat (split; [assumption|]).
  exact (bad_token_refused_before_key_lookup Ex.Spec Ex.config Ex.Policies
           Ex.IsKeyAuthorised Ex.http_Get Ex.ioutil_ReadAll Ex.json_Unmarshal_JWKs
           Ex.b64_DecodeString Ex.stripBearer Ex2.jwt_decode Ex.jwt_verify
           (Ex.request "Bearer tok-h") Ex.w0 H1
           (or_intror (ex_intro _ Ex2.token_h (conj H2 H3)))).
Defined.

(** X15 on the token of scenario 3 with a signature that does not
    verify: the key set was fetched and stays cached. *)
Lemma failed_verification_403_witness :
  let r := Ex.request "Bearer tok-a" in
  let w1 := snd (parse_of Ex.Spec Ex.jwt_decode Ex2.jwt_reject "tok-a" Ex.w0) in
  extractJWT Ex.Spec r ≠ "" ∧
  fst (parse_of Ex.Spec Ex.jwt_decode Ex2.jwt_reject "tok-a" Ex.w0)
    = Returned (Some Ex.token_a,
                Some (ValidationError (LibraryError "signature is invalid"))) ∧
  JWT_of Ex.Spec Ex.jwt_decode Ex2.jwt_reject r Ex.w0
    = (Returned (Some (errors_New "Key not authorized"), 403%Z), refused r w1).
Proof.
  intros r w1.
  assert (H1 : extractJWT Ex.Spec r ≠ "") by (vm_compute; discriminate).
  assert (H2 : parse_of Ex.Spec Ex.jwt_decode Ex2.jwt_reject
                 (Ex.stripBearer (extractJWT Ex.Spec r)) Ex.w0
               = (Returned (Some Ex.token_a,
                            Some (ValidationError (LibraryError "signature is invalid"))),
                  w1)) by (vm_compute; reflexivity).
  split; [exact H1|]. split; [vm_compute; reflexivity|].
  exact (failed_verification_403 Ex.Spec Ex.config Ex.Policies Ex.IsKeyAuthorised
           Ex.http_Get Ex.ioutil_ReadAll Ex.json_Unmarshal_JWKs Ex.b64_DecodeString
           Ex.stripBearer Ex.jwt_decode Ex2.jwt_reject r Ex.w0 _ _ w1 H1 H2).
Defined.

(** X16 on scenario 3. *)
Lemma jwt_status_codes_witness :
  let run := JWT_of Ex.Spec Ex.jwt_decode Ex.jwt_verify (Ex.request "Bearer tok-a") Ex.w0 in
  run = (Returned (None, 200%Z), snd run) ∧
  (200 = 200 ∧ (None : error) = None ∨
   200 = 400 ∧ None = Some (errors_New "Authorization field missing") ∨
   200 = 403 ∧ ∃ msg, None = Some (errors_New msg))%Z.
Proof.
  intros run.
  assert (H : run = (Returned (None, 200%Z), snd run)) by (vm_compute; reflexivity).
  split; [exact H|].
  exact (jwt_status_codes Ex.Spec Ex.config Ex.Policies Ex.IsKeyAuthorised
           Ex.http_Get Ex.ioutil_ReadAll Ex.json_Unmarshal_JWKs Ex.b64_DecodeString
           Ex.stripBearer Ex.jwt_decode Ex.jwt_verify (Ex.request "Bearer tok-a") Ex.w0
           None 200%Z (snd run) H).
Defined.

(** X18 on a token signed with the secret of the session of its [kid]. *)
Lemma direct_mode_binds_identity_witness :
  let run := JWT_of Ex2.SpecDirect Ex2.jwt_decode Ex2.jwt_verify
               (Ex.request "Bearer tok-h") Ex2.w_k1 in
  JWTSource Ex2.SpecDirect = "" ∧
  run = (Returned (None, 200%Z), snd run) ∧
  ∃ token id s,
    Ex2.jwt_decode (Ex.stripBearer (extractJWT Ex2.SpecDirect (Ex.request "Bearer tok-h")))
      = DecodedToken token ∧
    direct_identity token = Some id ∧
    context (snd run) !! AuthHeaderValue = Some (CtxString id) ∧
    context (snd run) !! SessionData = Some (CtxSession s).
Proof.
  intros run.
  assert (H : run = (Returned (None, 200%Z), snd run)) by (vm_compute; reflexivity).
  split; [reflexivity|]. split; [exact H|].
  destruct (direct_mode_binds_identity Ex2.SpecDirect Ex.config Ex.Policies
              Ex.IsKeyAuthorised Ex.http_Get Ex.ioutil_ReadAll Ex.json_Unmarshal_JWKs
              Ex.b64_DecodeString Ex.stripBearer Ex2.jwt_decode Ex2.jwt_verify
              (Ex.request "Bearer tok-h") Ex2.w_k1 (snd run) eq_refl H)
    as (token & id & s & Hd & Hi & _ & Hk & Hs).
  exists token, id, s. auto.
Defined.

(** X19 on an API whose source is a base64 certificate. *)
Lemma inline_source_key_witness :
  JWTSource Ex2.SpecInline ≠ "" ∧ source_is_URL Ex2.SpecInline = false ∧
  getSecret Ex2.SpecInline Ex.config Ex.Policies Ex.IsKeyAuthorised
    Ex.http_Get Ex.ioutil_ReadAll Ex.json_Unmarshal_JWKs Ex.b64_DecodeString
    Ex.token_nokid Ex.w0
    = (Returned (bytes_of_string "cert", None), Ex.w0) ∧
  snd (parse_of Ex2.SpecInline Ex.jwt_decode Ex.jwt_verify "tok-a" Ex.w0) = Ex.w0.
Proof.
  assert (H1 : JWTSource Ex2.SpecInline ≠ "") by (vm_compute; discriminate).
  assert (H2 : source_is_URL Ex2.SpecInline = false) by (vm_compute; reflexivity).
  destruct (inline_source_key Ex2.SpecInline Ex.config Ex.Policies Ex.IsKeyAuthorised
              Ex.http_Get Ex.ioutil_ReadAll Ex.json_Unmarshal_JWKs Ex.b64_DecodeString
              Ex.jwt_decode Ex.jwt_verify Ex.token_nokid Ex.w0 H1 H2) as [Hk Hw].
  split; [exact H1|]. split; [exact H2|]. split; [exact Hk | exact (Hw "tok-a")].
Defined.

Local Abbreviation RateLimit_ex :=
  (RateLimitAndQuotaCheck_ProcessRequest Ex.Spec Ex.config Ex.counting_limiter Ex.no_monitor).

(** X21 on scenario 3 followed by the rate-limit middleware. *)
Lemma rate_limit_after_jwt_success_witness :
  let r := Ex.request "Bearer tok-a" in
  let run := JWT_of Ex.Spec Ex.jwt_decode Ex.jwt_verify r Ex.w0 in
  run = (Returned (None, 200%Z), snd run) ∧
  ∃ e' code w'',
    RateLimit_ex r (snd run) = (Returned (e', code), w'') ∧
    (code = 200 ∨ code = 403 ∨ code = 429)%Z.
Proof.
  intros r run.
  assert (H : run = (Returned (None, 200%Z), snd run)) by (vm_compute; reflexivity).
  split; [exact H|].
  exact (rate_limit_after_jwt_success Ex.Spec Ex.config Ex.Policies Ex.IsKeyAuthorised
           Ex.http_Get Ex.ioutil_ReadAll Ex.json_Unmarshal_JWKs Ex.b64_DecodeString
           Ex.stripBearer Ex.jwt_decode Ex.jwt_verify Ex.counting_limiter Ex.no_monitor
           r Ex.w0 None (snd run) r H).
Defined.


(** X23 on the same request in both modes. *)
Lemma async_landed_equals_sync_witness :
  let ra := applyRateLimiting Ex2.config_async Ex.refusing_limiter Ex.no_monitor
              "k1" Ex2.session_k1 (Ex.request "Bearer tok-a") Ex.w0 in
  let rs := applyRateLimiting Ex.config Ex.refusing_limiter Ex.no_monitor
              "k1" Ex2.session_k1 (Ex.request "Bearer tok-a") Ex.w0 in
  let landed := land (replicate (length (goroutines (snd ra))) true) (snd ra) in
  goroutines Ex.w0 = [] ∧
  fst ra = fst rs ∧
  sessions landed = sessions (snd rs) ∧ context landed = context (snd rs) ∧
  health landed = health (snd rs) ∧ counters landed = counters (snd rs).
Proof.
  intros ra rs landed. split; [reflexivity|].
  exact (async_landed_equals_sync Ex.refusing_limiter Ex.no_monitor
           Ex2.config_async Ex.config "k1" Ex2.session_k1 (Ex.request "Bearer tok-a") Ex.w0
           eq_refl eq_refl eq_refl eq_refl).
Defined.

(** X25 on a list over RPC in which two policies share an object id. *)
Lemma rpc_policies_keyed_by_hex_id_witness :
  Ex2.json_Unmarshal_policy_list (Ex2.rpc_GetPolicies "O1")
    = ([Ex2.policy_with_MID "ab" "O1"; Ex2.policy_with_MID "cd" "O1";
        Ex2.policy_with_MID "ab" "O2"], None) ∧
  ∃ m, LoadPoliciesFromRPC Ex2.rpc_GetPolicies Ex2.json_Unmarshal_policy_list "O1" = Some m ∧
       m !! "6162" = Some (Policy_set_ID "6162" (Ex2.policy_with_MID "ab" "O2")).
Proof.
  split; [reflexivity|].
  destruct (rpc_policies_keyed_by_hex_id Ex2.rpc_GetPolicies Ex2.json_Unmarshal_policy_list
              "O1" _ eq_refl) as (m & Hm & _ & Hlast).
  exists m. split; [exact Hm|].
  apply (Hlast [Ex2.policy_with_MID "ab" "O1"; Ex2.policy_with_MID "cd" "O1"]
           (Ex2.policy_with_MID "ab" "O2") []).
  - reflexivity.
  - constructor.
Defined.

(** X26 on a Mongo whose first two dials fail. *)
Lemma mongo_retries_until_dial_succeeds_witness :
  LoadPoliciesFromMongo Ex2.mgo_Dial Ex2.mgo_Find_active 2 0 "policies" = None ∧
  LoadPoliciesFromMongo Ex2.mgo_Dial Ex2.mgo_Find_active 3 0 "policies"
    = Some (Some (index_policies [Ex2.policy_with_MID "ab" "O1"] ∅)).
Proof.
  assert (H : ∀ i, (i < 2)%nat → Ex2.mgo_Dial (0 + i) = false).
  { intros [|[|i]] Hi; [reflexivity | reflexivity | exfalso; lia]. }
  destruct (mongo_retries_until_dial_succeeds Ex2.mgo_Dial Ex2.mgo_Find_active
              0%nat 2%nat "policies" H) as [Hnone Hsome].
  split.
  - apply Hnone. lia.
  - apply (Hsome eq_refl). lia.
Defined.

Local Abbreviation Record_Hit_ex :=
  (RecordHit Ex.Spec Ex2.tracking Ex2.analyticsConf Ex2.StoreAnalytics
     Ex2.getVersionFromRequest Ex2.noon Ex2.noon Ex2.wire_request Ex2.wire_response
     Ex2.OrgSessionManager_GetSessionDetail).

(** X28 on a request bound to [k1]. *)
Lemma record_hit_fields_witness :
  ∃ rec w',
    Record_Hit_ex Ex2.hit 12 200 None None (Ex.with_context Ex2.session_k1 "k1" Ex.w0)
      = (Returned (Some rec), w') ∧
    AnalyticsRecord.APIKey rec = "k1" ∧
    AnalyticsRecord.APIVersion rec ≠ "" ∧
    AnalyticsRecord.ResponseCode rec = 200 ∧
    AnalyticsRecord.RequestTime rec = 12.
Proof.
  destruct (Record_Hit_ex Ex2.hit 12 200 None None
              (Ex.with_context Ex2.session_k1 "k1" Ex.w0)) as [[[rec|]|m] w'] eqn:E;
    [|vm_compute in E; discriminate E | vm_compute in E; discriminate E].
  exists rec, w'. split; [reflexivity|].
  destruct (record_hit_fields Ex.Spec Ex2.tracking Ex2.analyticsConf Ex2.StoreAnalytics
              Ex2.getVersionFromRequest Ex2.noon Ex2.noon Ex2.wire_request
              Ex2.wire_response Ex2.OrgSessionManager_GetSessionDetail
              Ex2.hit 12 200 None None (Ex.with_context Ex2.session_k1 "k1" Ex.w0)
              rec w' E) as (Hk & _ & Hv & _ & Hc & Ht & _).
  split; [exact Hk|]. split; [exact Hv|]. split; [exact Hc | exact Ht].
Defined.

(** X29 on an organisation whose data age is a day. *)
Lemma record_hit_expiry_witness :
  EnforceOrgDataAge Ex2.analyticsConf = true ∧
  Ex2.OrgSessionManager_GetSessionDetail (OrgID Ex.Spec) = (Ex2.org_session, true) ∧
  ∃ rec w',
    Record_Hit_ex Ex2.hit 12 200 None None Ex.w0 = (Returned (Some rec), w') ∧
    AnalyticsRecord.Expiry rec = 86400.
Proof.
  split; [reflexivity|]. split; [reflexivity|].
  destruct (Record_Hit_ex Ex2.hit 12 200 None None Ex.w0) as [[[rec|]|m] w'] eqn:E;
    [|vm_compute in E; discriminate E | vm_compute in E; discriminate E].
  exists rec, w'. split; [reflexivity|].
  apply (record_hit_expiry Ex.Spec Ex2.tracking Ex2.analyticsConf Ex2.StoreAnalytics
           Ex2.getVersionFromRequest Ex2.noon Ex2.noon Ex2.wire_request
           Ex2.wire_response Ex2.OrgSessionManager_GetSessionDetail
           Ex2.hit 12 200 None None Ex.w0 rec w' E); reflexivity.
Defined.

(** X30 on scenario 3 followed by the success handler. *)
Lemma record_hit_after_jwt_success_witness :
  let run := JWT_of Ex.Spec Ex.jwt_decode Ex.jwt_verify (Ex.request "Bearer tok-a") Ex.w0 in
  run = (Returned (None, 200%Z), snd run) ∧
  ∃ rec w'',
    Record_Hit_ex Ex2.hit 12 200 None None (snd run) = (Returned (Some rec), w'') ∧
    context (snd run) !! AuthHeaderValue = Some (CtxString (AnalyticsRecord.APIKey rec)) ∧
    context w'' = ∅.
Proof.
  intros run.
  assert (H : run = (Returned (None, 200%Z), snd run)) by (vm_compute; reflexivity).
  split; [exact H|].
  exact (record_hit_after_jwt_success Ex.Spec Ex.config Ex.Policies Ex.IsKeyAuthorised
           Ex.http_Get Ex.ioutil_ReadAll Ex.json_Unmarshal_JWKs Ex.b64_DecodeString
           Ex.stripBearer Ex.jwt_decode Ex.jwt_verify Ex2.tracking Ex2.analyticsConf
           Ex2.StoreAnalytics Ex2.getVersionFromRequest Ex2.noon Ex2.noon
           Ex2.wire_request Ex2.wire_response Ex2.OrgSessionManager_GetSessionDetail
           (Ex.request "Bearer tok-a") Ex.w0 None (snd run) Ex2.hit 12 200 None None
           H eq_refl eq_refl).
Defined.

End MoreRuns.
